(** * agent-finder: the region-scoped listing scraper and its exporter

    A shallow embedding of [api_crawler.py] (class [ApiCrawler]),
    [data_exporter.py] (class [DataExporter]) and the [search] method of
    [api_region_search.py] (class [ApiRegionSearch]), followed by the
    properties of the specification that concern them.

    Conventions of the embedding.
    - Python [str] values are byte strings holding the UTF-8 encoding of the
      text; the character classes of the source ([\d], [str.isdigit],
      [str.strip], [str.splitlines]) are those of Unicode, read off the
      characters the bytes encode (see [Text]).
    - Python [int] values that count pages or rows are [nat].
    - A parsed document ([BeautifulSoup(response.text, 'html.parser')]) is
      represented by the answers it gives to the three queries the source
      asks of it (see [Soup]).
    - The network, the file system and the clock are oracles (see [World]);
      every call to them and to the progress callback is recorded as an
      [Event], so that the order and the number of calls can be stated.
    - An exception is the result [Raise]; every handler of the source is
      [except Exception], so exceptions need not be told apart. *)

From stdpp Require Import base option list sets strings.
From Stdlib Require Import Ascii String Arith NArith Lia.

Local Open Scope string_scope.
Local Open Scope nat_scope.
Local Open Scope list_scope.

(** ** Text: the string operations of the source *)

Module Text.

(** *** Characters

    [chars] reads a byte string back as the characters of the [str] it
    encodes, each with its code point and its bytes.  A byte that does not
    begin a well-formed encoding (of a scalar value, in the shortest form)
    is read as a character of its own, outside the Unicode range. *)

Record Char := { codepoint : N; bytes : string }.

Definition byte (c : ascii) : N := N_of_ascii c.

(** A continuation byte, [10xxxxxx]. *)
Definition is_cont (c : ascii) : bool := ((128 <=? byte c) && (byte c <? 192))%N.

Definition low (c : ascii) : N := (byte c - 128)%N.

Definition invalid (a : ascii) : Char :=
  {| codepoint := (1114112 + byte a)%N; bytes := String a "" |}.

(** The first character of [s] and what follows it. *)
Definition next (s : string) : option (Char * string) :=
  match s with
  | EmptyString => None
  | String a s1 =>
      if (byte a <? 128)%N
      then Some ({| codepoint := byte a; bytes := String a "" |}, s1)
      else
        let two :=
          match s1 with
          | String b s2 =>
              if ((194 <=? byte a) && (byte a <? 224))%N && is_cont b
              then Some ({| codepoint := ((byte a - 192) * 64 + low b)%N;
                            bytes := String a (String b "") |}, s2)
              else None
          | EmptyString => None
          end in
        let three :=
          match s1 with
          | String b (String c s3) =>
              let n := ((byte a - 224) * 4096 + low b * 64 + low c)%N in
              if ((224 <=? byte a) && (byte a <? 240))%N && is_cont b && is_cont c
                 && (2048 <=? n)%N && negb ((55296 <=? n) && (n <? 57344))%N
              then Some ({| codepoint := n;
                            bytes := String a (String b (String c "")) |}, s3)
              else None
          | _ => None
          end in
        let four :=
          match s1 with
          | String b (String c (String d s4)) =>
              let n := ((byte a - 240) * 262144 + low b * 4096 + low c * 64 + low d)%N in
              if ((240 <=? byte a) && (byte a <? 245))%N
                 && is_cont b && is_cont c && is_cont d
                 && (65536 <=? n)%N && (n <? 1114112)%N
              then Some ({| codepoint := n;
                            bytes := String a (String b (String c (String d ""))) |}, s4)
              else None
          | _ => None
          end in
        match two, three, four with
        | Some r, _, _ | None, Some r, _ | None, None, Some r => Some r
        | None, None, None => Some (invalid a, s1)
        end
  end.

Fixpoint chars_upto (n : nat) (s : string) : list Char :=
  match n with
  | 0 => []
  | S n' =>
      match next s with
      | Some (c, rest) => c :: chars_upto n' rest
      | None => []
      end
  end.

(** The characters of [s]: no more of them than bytes. *)
Definition chars (s : string) : list Char := chars_upto (String.length s) s.

Definition encode (l : list Char) : string :=
  fold_right (fun c r => bytes c +:+ r) "" l.

(** *** The classes of characters (Unicode 14.0, that of CPython 3.11) *)

Definition between_N (lo hi n : N) : bool := ((lo <=? n) && (n <=? hi))%N.

(** [c.isspace()]: what [str.strip()] removes. *)
Definition is_space (c : Char) : bool :=
  let n := codepoint c in
  between_N 9 13 n || between_N 28 32 n || (n =? 133)%N || (n =? 160)%N
  || (n =? 5760)%N || between_N 8192 8202 n || (n =? 8232)%N || (n =? 8233)%N
  || (n =? 8239)%N || (n =? 8287)%N || (n =? 12288)%N.

(** [c] ends a line for [str.splitlines()]. *)
Definition is_linebreak (c : Char) : bool :=
  let n := codepoint c in
  between_N 10 13 n || between_N 28 30 n || (n =? 133)%N
  || (n =? 8232)%N || (n =? 8233)%N.

(** The digits zero of the decimal digits (general category Nd): each is
    followed by its digits one to nine. *)
Definition decimal_zeros : list N :=
  [ 48; 1632; 1776; 1984; 2406; 2534; 2662; 2790; 2918; 3046; 3174; 3302; 3430;
    3558; 3664; 3792; 3872; 4160; 4240; 6112; 6160; 6470; 6608; 6784; 6800; 6992;
    7088; 7232; 7248; 42528; 43216; 43264; 43472; 43504; 43600; 44016; 65296;
    66720; 68912; 69734; 69872; 69942; 70096; 70384; 70736; 70864; 71248; 71360;
    71472; 71904; 72016; 72784; 73040; 73120; 92768; 92864; 93008; 120782;
    120792; 120802; 120812; 120822; 123200; 123632; 125264; 130032 ]%N.

(** The value of a decimal digit. *)
Definition decimal_value (c : Char) : option nat :=
  let n := codepoint c in
  match List.find (fun z => between_N z (z + 9) n) decimal_zeros with
  | Some z => Some (N.to_nat (n - z))
  | None => None
  end.

(** [c] is matched by [\d]: a decimal digit. *)
Definition is_decimal (c : Char) : bool :=
  match decimal_value c with Some _ => true | None => false end.

(** The digits that are not decimal (superscripts, circled digits, ...). *)
Definition other_digits : list (N * N) :=
  [ (178, 179); (185, 185); (4969, 4977); (6618, 6618); (8304, 8304);
    (8308, 8313); (8320, 8329); (9312, 9320); (9332, 9340); (9352, 9360);
    (9450, 9450); (9461, 9469); (9471, 9471); (10102, 10110); (10112, 10120);
    (10122, 10130); (68160, 68163); (69216, 69224); (69714, 69722);
    (127232, 127242) ]%N.

(** [c.isdigit()] *)
Definition is_digit (c : Char) : bool :=
  is_decimal c
  || existsb (fun r => between_N (fst r) (snd r) (codepoint c)) other_digits.

(** *** The methods of [str] *)

Fixpoint lstrip (l : list Char) : list Char :=
  match l with
  | [] => []
  | c :: l' => if is_space c then lstrip l' else l
  end.

Fixpoint rstrip (l : list Char) : list Char :=
  match l with
  | [] => []
  | c :: l' =>
      match rstrip l' with
      | [] => if is_space c then [] else [c]
      | r => c :: r
      end
  end.

(** [s.strip()] *)
Definition strip (s : string) : string := encode (rstrip (lstrip (chars s))).

Fixpoint first_line_of (l : list Char) : list Char :=
  match l with
  | [] => []
  | c :: l' => if is_linebreak c then [] else c :: first_line_of l'
  end.

(** The first element of [s.splitlines()], if any. *)
Definition first_line (s : string) : option string :=
  match s with
  | EmptyString => None
  | _ => Some (encode (first_line_of (chars s)))
  end.

(** [s.isdigit()] *)
Definition isdigit (s : string) : bool :=
  match chars s with
  | [] => false
  | l => forallb is_digit l
  end.

Fixpoint int_acc (acc : nat) (l : list Char) : option nat :=
  match l with
  | [] => Some acc
  | c :: l' =>
      match decimal_value c with
      | Some d => int_acc (10 * acc + d) l'
      | None => None
      end
  end.

(** [sys.int_info.default_max_str_digits] *)
Definition max_str_digits : nat := 4300.

(** [int(s)] for a string [s] of digits, as the source applies it (to what
    passed [isdigit()] or was matched by [\d+]); [None] is [ValueError]: a
    digit that is not decimal, or more digits than [int] converts. *)
Definition int (s : string) : option nat :=
  match chars s with
  | [] => None
  | l => if max_str_digits <? List.length l then None else int_acc 0 l
  end.

(** ["sep".join(l)] *)
Definition join (sep : string) (l : list string) : string := String.concat sep l.

(** [s1 == s2] *)
Definition eqb (s1 s2 : string) : bool := bool_decide (s1 = s2).

(** [s.lower()] on the letters A to Z.  The source asks of [s.lower()]
    only whether it ends with ".csv", and no other character has ".", "c",
    "s" or "v" in its lower case: the answer is that of this mapping. *)
Definition lower_char (c : ascii) : ascii :=
  let n := nat_of_ascii c in
  if (65 <=? n) && (n <=? 90) then ascii_of_nat (n + 32) else c.

Fixpoint lower (s : string) : string :=
  match s with
  | EmptyString => EmptyString
  | String c s' => String (lower_char c) (lower s')
  end.

(** [s.startswith(p)], returning what follows [p] *)
Fixpoint drop_prefix (p s : string) : option string :=
  match p, s with
  | EmptyString, _ => Some s
  | String a p', String b s' => if bool_decide (a = b) then drop_prefix p' s' else None
  | String _ _, EmptyString => None
  end.

Definition startswith (s p : string) : bool :=
  match drop_prefix p s with Some _ => true | None => false end.

(** [s.endswith(p)] *)
Fixpoint endswith (s p : string) : bool :=
  eqb s p ||
  match s with
  | EmptyString => false
  | String _ s' => endswith s' p
  end.

(** *** Regular expressions

    A pattern is embedded as the function that gives, for a subject
    string, the remainders left by every way of matching one of its
    prefixes (the backtracking reading of [re]).  A search tries every
    byte of the subject as a start; the patterns of the source begin with
    a letter of the ASCII range or with [\d], which match at the first
    byte of a character only. *)

Definition Pattern := string -> list string.

Definition chr (c : ascii) : Pattern := fun s =>
  match s with
  | String a s' => if bool_decide (a = c) then [s'] else []
  | EmptyString => []
  end.

(** [\d] *)
Definition digit : Pattern := fun s =>
  match next s with
  | Some (c, s') => if is_decimal c then [s'] else []
  | None => []
  end.

(** [pq] *)
Definition cat (p q : Pattern) : Pattern := fun s => flat_map q (p s).

(** [p|q] *)
Definition alt (p q : Pattern) : Pattern := fun s => p s ++ q s.

Fixpoint lit (w : string) : Pattern :=
  match w with
  | EmptyString => fun s => [s]
  | String c w' => cat (chr c) (lit w')
  end.

(** [p{n}] *)
Fixpoint times (n : nat) (p : Pattern) : Pattern :=
  match n with
  | 0 => fun s => [s]
  | S n' => cat p (times n' p)
  end.

(** [p{m,m+k}], greedy: the longer repetitions are tried first *)
Fixpoint between (m k : nat) (p : Pattern) : Pattern :=
  match k with
  | 0 => times m p
  | S k' => alt (times (m + k) p) (between m k' p)
  end.

(** [re.search(p, s) is not None] *)
Fixpoint search (p : Pattern) (s : string) : bool :=
  match p s with
  | _ :: _ => true
  | [] =>
      match s with
      | EmptyString => false
      | String _ s' => search p s'
      end
  end.

Fixpoint span_digits_upto (n : nat) (s : string) : string * string :=
  match n with
  | 0 => (EmptyString, s)
  | S n' =>
      match next s with
      | Some (c, s') =>
          if is_decimal c
          then let '(d, r) := span_digits_upto n' s' in (bytes c +:+ d, r)
          else (EmptyString, s)
      | None => (EmptyString, s)
      end
  end.

(** The longest prefix of decimal digits of [s], and what follows it. *)
Definition span_digits (s : string) : string * string :=
  span_digits_upto (String.length s) s.

(** Group 1 of a match of [pre(\d+)suf] anchored at the start of [s],
    where [suf] does not begin with a digit (so that the greedy [\d+]
    takes the whole run of digits). *)
Definition group_at (pre suf s : string) : option string :=
  match drop_prefix pre s with
  | Some r =>
      let '(d, r') := span_digits r in
      match d with
      | EmptyString => None
      | _ => if startswith r' suf then Some d else None
      end
  | None => None
  end.

(** [m = re.search(pre(\d+)suf, s)]: [m.group(1)] when [m] is not [None] *)
Fixpoint search_group (pre suf s : string) : option string :=
  match group_at pre suf s with
  | Some d => Some d
  | None =>
      match s with
      | EmptyString => None
      | String _ s' => search_group pre suf s'
      end
  end.

(** [r'(\d{2,3}-\d{3,4}-\d{4}|010-\d{4}-\d{4})'] *)
Definition phone_pattern : Pattern :=
  alt (cat (between 2 1 digit)
        (cat (chr "-") (cat (between 3 1 digit) (cat (chr "-") (times 4 digit)))))
      (cat (lit "010-") (cat (times 4 digit) (cat (chr "-") (times 4 digit)))).

(** [re.search(r'page=(\d+)', s)] *)
Definition search_page (s : string) : option string := search_group "page=" "" s.

(** [re.search(r"moveDetail\('(\d+)',", s)] *)
Definition search_moveDetail (s : string) : option string :=
  search_group "moveDetail('" "'," s.

End Text.

(** ** Documents, requests and the outside world *)

Module Dom.

(** An [<a>] element: its [.text] and its [.get('href')]. *)
Record Tag := { text : string; href : option string }.

(** A [<td>] element: its [.text] and its [.select_one('a')]. *)
Record Td := { td_text : string; select_one_a : option Tag }.

(** A [<tr>] element, as the list [row.select('td')]. *)
Definition Tr := list Td.

(** A parsed document, as the answers to the queries of the source:
    [soup.select('.pagination a, a[href*="page="]')],
    [soup.select('table tr')], and the text nodes of the document in
    document order, among which [find_all(text=pattern)] selects. *)
Record Soup := {
  select_pagination : list Tag;
  select_table_tr : list Tr;
  strings : list string
}.

(** [soup.find_all(text=re.compile(p))] *)
Definition find_all_text (p : Text.Pattern) (soup : Soup) : list string :=
  List.filter (Text.search p) (strings soup).

End Dom.

Module Json.

(** A code of the combo-search answer: a number or a string. *)
Inductive Scalar := Int (n : nat) | Str (s : string).

(** Python truth value of a code: [0] and [""] are false. *)
Definition truthy (c : Scalar) : bool :=
  match c with
  | Int 0 => false
  | Int _ => true
  | Str EmptyString => false
  | Str _ => true
  end.

(** [data["datMM"]]: the ["name"] array (each name with the result of
    decoding its escaped text, [None] when the decoding raises) and the
    ["code"] array, each of them possibly absent. *)
Record DatMM := {
  name : option (list (option string));
  code : option (list Scalar)
}.

Record Data := { datMM : option DatMM }.

End Json.

#[global] Instance Scalar_eq_dec : EqDecision Json.Scalar.
Proof. solve_decision. Defined.

Module Net.

Inductive Request :=
| ComboSearch (flag : string) (sel_sido : nat) (sel_gugun : option Json.Scalar)
| OfficeList (page : nat) (sel_sido : nat)
             (sel_gugun : option Json.Scalar) (sel_dong : option Json.Scalar)
| OfficeDetail (mem_no : string).

(** A response: [status_code], [BeautifulSoup(text, 'html.parser')] and
    [json()] ([None] when it raises). *)
Record Response := {
  status_code : nat;
  soup : Dom.Soup;
  json : option Json.Data
}.

End Net.

(** One entry of the result list: the dictionary [office_data], a field per
    key (시도, 시군구, 읍면동, 지역, 상호, 대표자명, 전화번호, 모바일전화번호,
    주소, mem_no). *)
Record OfficeData := {
  sido : string;
  sigungu : string;
  dong : string;
  location : string;
  office_name : string;
  representative : string;
  phone : string;
  mobile_phones : string;
  address : string;
  mem_no : option string
}.

#[global] Instance OfficeData_eq_dec : EqDecision OfficeData.
Proof. solve_decision. Defined.

(** A written file: its path, its header line and its data lines. *)
Record CsvFile := {
  file_path : string;
  header : list string;
  lines : list (list string)
}.

Inductive Event :=
| Get (r : Net.Request)                  (* [self.session.get(url, params)] *)
| Progress (current_page total_pages count : nat)  (* [progress_callback(...)] *)
| Makedirs (dir : string)                (* [os.makedirs(dir, exist_ok=True)] *)
| ToCsv (f : CsvFile).                   (* [df.to_csv(file_path, ...)] *)

(** The outside world.  Each oracle sees the events that came before, so
    that the same request may be answered differently the second time.
    [get] gives [None] when the request raises (no connection);
    [makedirs] and [to_csv] tell whether the call returns normally;
    [strftime] is [datetime.now().strftime("%Y%m%d_%H%M%S")]. *)
Record World := {
  get : list Event -> Net.Request -> option Net.Response;
  makedirs : list Event -> string -> bool;
  to_csv : list Event -> CsvFile -> bool;
  strftime : list Event -> string
}.

(** A progress callback: told the events so far and its three arguments,
    it returns normally ([true]) or raises ([false]). *)
Definition Callback := list Event -> nat -> nat -> nat -> bool.

(** The attributes of an [ApiCrawler] that change: [results], and the two
    code tables, which do not exist ([None]) before the first successful
    lookup.  A table keeps the insertion order of a Python [dict]. *)
Record Self := {
  results : list OfficeData;
  sigungu_codes : option (list (string * Json.Scalar));
  dong_codes : option (list (string * Json.Scalar))
}.

(** ** The monad of the embedding *)

Inductive Result (A : Type) :=
| Ok (a : A)
| Raise.
Arguments Ok {A} a.
Arguments Raise {A}.

(** The outcome of running a piece of code: its result, the crawler after
    it, and the events it produced, oldest first. *)
Record Run (A : Type) := MkRun {
  value : Result A;
  self_after : Self;
  emitted : list Event
}.
Arguments MkRun {A}.
Arguments value {A}.
Arguments self_after {A}.
Arguments emitted {A}.

(** Code runs in a world, on a crawler, after a history of events. *)
Definition M (A : Type) : Type := World -> Self -> list Event -> Run A.

Definition ret {A} (a : A) : M A := fun _ self _ => MkRun (Ok a) self [].

Definition raise {A} : M A := fun _ self _ => MkRun Raise self [].

Definition bind {A B} (m : M A) (k : A -> M B) : M B := fun w self h =>
  let r := m w self h in
  match value r with
  | Ok a =>
      let r' := k a w (self_after r) (h ++ emitted r) in
      MkRun (value r') (self_after r') (emitted r ++ emitted r')
  | Raise => MkRun Raise (self_after r) (emitted r)
  end.

(** [try: m  except Exception: handler] *)
Definition try_except {A} (m : M A) (handler : M A) : M A := fun w self h =>
  let r := m w self h in
  match value r with
  | Ok _ => r
  | Raise =>
      let r' := handler w (self_after r) (h ++ emitted r) in
      MkRun (value r') (self_after r') (emitted r ++ emitted r')
  end.

Declare Scope py_scope.
Delimit Scope py_scope with py.
Notation "'let*' x ':=' m 'in' k" := (bind m (fun x => k))
  (at level 10, x pattern, m at level 100, k at level 200) : py_scope.
Local Open Scope py_scope.

(** Read and write the crawler's attributes. *)
Definition self : M Self := fun _ s _ => MkRun (Ok s) s [].

Definition set_self (s : Self) : M unit := fun _ _ _ => MkRun (Ok tt) s [].

(** [self.session.get(...)] *)
Definition session_get (r : Net.Request) : M Net.Response := fun w s h =>
  match get w h r with
  | Some resp => MkRun (Ok resp) s [Get r]
  | None => MkRun Raise s [Get r]
  end.

(** [if progress_callback: progress_callback(current_page, total_pages, count)] *)
Definition call_progress (progress_callback : option Callback)
    (current_page total_pages count : nat) : M unit := fun w s h =>
  match progress_callback with
  | Some cb =>
      MkRun (if cb h current_page total_pages count then Ok tt else Raise)
            s [Progress current_page total_pages count]
  | None => MkRun (Ok tt) s []
  end.

(** A [for] loop with an accumulator. *)
Fixpoint for_each {A B} (l : list A) (body : B -> A -> M B) (acc : B) : M B :=
  match l with
  | [] => ret acc
  | x :: l' => let* acc' := body acc x in for_each l' body acc'
  end.

(** ** First occurrences *)

(** The elements of [l] in the order of their first occurrence, each once
    (those of [seen] left out). *)
Fixpoint first_seen {A} `{EqDecision A} (seen l : list A) : list A :=
  match l with
  | [] => []
  | x :: l' =>
      if bool_decide (x ∈ seen) then first_seen seen l'
      else x :: first_seen (x :: seen) l'
  end.

(** ** Python dictionaries with string keys, in insertion order *)

Fixpoint dict_get {V} (d : list (string * V)) (k : string) : option V :=
  match d with
  | [] => None
  | (k', v) :: d' => if Text.eqb k' k then Some v else dict_get d' k
  end.

(** [d[k] = v]: an existing key keeps its place *)
Fixpoint dict_set {V} (d : list (string * V)) (k : string) (v : V) : list (string * V) :=
  match d with
  | [] => [(k, v)]
  | (k', v') :: d' => if Text.eqb k' k then (k, v) :: d' else (k', v') :: dict_set d' k v
  end.

(** [for key, value in d.items(): if value == v: return key], then [""] *)
Fixpoint key_of_value {V} `{EqDecision V} (d : list (string * V)) (v : V) : string :=
  match d with
  | [] => ""
  | (k, v') :: d' => if bool_decide (v' = v) then k else key_of_value d' v
  end.

(** The truth value of an optional string: [None] and [""] are false. *)
Definition nonempty (s : option string) : option string :=
  match s with
  | Some (String c s') => Some (String c s')
  | _ => None
  end.

(** ** api_crawler.py *)

Module ApiCrawler.
Import Dom Json Net.

Definition sido_mapping : list (string * nat) :=
  [ ("서울특별시", 1); ("경기도", 2); ("인천광역시", 3); ("부산광역시", 4);
    ("대구광역시", 5); ("광주광역시", 6); ("대전광역시", 7); ("울산광역시", 8);
    ("강원특별자치도", 9); ("경상남도", 10); ("경상북도", 11); ("전라남도", 12);
    ("전북특별자치도", 13); ("충청남도", 14); ("충청북도", 15);
    ("세종특별자치시", 16); ("제주특별자치도", 17) ].

Definition init : Self :=
  {| results := []; sigungu_codes := None; dong_codes := None |}.

Definition set_results (rs : list OfficeData) : M unit :=
  let* s := self in
  set_self {| results := rs; sigungu_codes := sigungu_codes s; dong_codes := dong_codes s |}.

Definition set_sigungu_codes (d : list (string * Scalar)) : M unit :=
  let* s := self in
  set_self {| results := results s; sigungu_codes := Some d; dong_codes := dong_codes s |}.

Definition set_dong_codes (d : list (string * Scalar)) : M unit :=
  let* s := self in
  set_self {| results := results s; sigungu_codes := sigungu_codes s; dong_codes := Some d |}.

Definition get_sido_list : list string := map fst sido_mapping.

(** The decoding of the names; it raises at the first name that cannot
    be decoded. *)
Definition decode_names (names : list (option string)) : M (list string) :=
  for_each names
    (fun acc n => match n with Some s => ret (acc ++ [s]) | None => raise end) [].

(** [for i, code in enumerate(codes): if i < len(names): d[names[i]] = code] *)
Definition code_table (names : list string) (codes : option (list Scalar))
    : list (string * Scalar) :=
  match codes with
  | Some codes => fold_left (fun d '(n, c) => dict_set d n c) (zip names codes) []
  | None => []
  end.

(** The part of the two lookups that follows the request. *)
Definition read_combo (response : Response)
    (store : list (string * Scalar) -> M unit) : M (list string) :=
  if negb (status_code response =? 200) then ret [] else
  match json response with
  | None => raise
  | Some data =>
      match datMM data with
      | Some mm =>
          match name mm with
          | Some names =>
              let* decoded := decode_names names in
              let* _ := store (code_table decoded (code mm)) in
              ret decoded
          | None => ret []
          end
      | None => ret []
      end
  end.

Definition get_sigungu_list (sido : string) : M (list string) :=
  try_except
    (match dict_get sido_mapping sido with
     | None | Some 0 => ret []
     | Some sido_code =>
         let* response := session_get (ComboSearch "S" sido_code None) in
         read_combo response set_sigungu_codes
     end)
    (ret []).

Definition get_dong_list (sido sigungu : string) : M (list string) :=
  try_except
    (match dict_get sido_mapping sido with
     | None | Some 0 => ret []
     | Some sido_code =>
         let* s := self in
         match sigungu_codes s with
         | None => raise
         | Some codes =>
             match dict_get codes sigungu with
             | Some sigungu_code =>
                 if truthy sigungu_code then
                   let* response :=
                     session_get (ComboSearch "G" sido_code (Some sigungu_code)) in
                   read_combo response set_dong_codes
                 else ret []
             | None => ret []
             end
         end
     end)
    (ret []).

(** The listing request for a page: [sel_gugun] and [sel_dong] are sent
    only when the code is true. *)
Definition office_list (page sido_code : nat) (sigungu_code : option Scalar)
    (dong_code : Scalar) : Request :=
  OfficeList page sido_code
    (match sigungu_code with
     | Some c => if truthy c then Some c else None
     | None => None
     end)
    (if truthy dong_code then Some dong_code else None).

Definition is_last_link (link : Tag) : bool :=
  Text.eqb (Text.strip (text link)) ">>" || Text.eqb (Text.strip (text link)) "»".

(** The loop that stops at the first '>>' or '»' link and keeps its [href]. *)
Definition last_page_link (pagination_links : list Tag) : option string :=
  match List.find is_last_link pagination_links with
  | Some link => nonempty (href link)
  | None => None
  end.

(** [[int(a.text.strip()) for a in pagination_links if a.text.strip().isdigit()]];
    [None] when an [int] raises. *)
Definition page_numbers (pagination_links : list Tag) : option (list nat) :=
  mapM (fun a => Text.int (Text.strip (text a)))
       (List.filter (fun a => Text.isdigit (Text.strip (text a))) pagination_links).

(** The page count read off the pagination links by [get_total_pages],
    [None] when the code falls through to its default: without a number to
    return, or from the handler of its inner [try]. *)
Definition read_total_pages (pagination_links : list Tag) : option nat :=
  match pagination_links with
  | [] => None
  | _ =>
      match match last_page_link pagination_links with
            | Some link => Text.search_page link
            | None => None
            end with
      | Some digits => Text.int digits
      | None =>
          match page_numbers pagination_links with
          | Some (n :: ns) => Some (max_list (n :: ns))
          | _ => None
          end
      end
  end.

Definition get_total_pages (sido_code : nat) (sigungu_code : option Scalar)
    (dong_code : Scalar) : M nat :=
  try_except
    (let* response := session_get (office_list 1 sido_code sigungu_code dong_code) in
     if negb (status_code response =? 200) then ret 0 else
     match read_total_pages (select_pagination (soup response)) with
     | Some n => ret n
     | None => ret 1
     end)
    (ret 1).

Definition _get_sido_name_by_code (code : nat) : string :=
  key_of_value sido_mapping code.

Definition _get_sigungu_name_by_code (s : Self) (code : Scalar) : string :=
  match sigungu_codes s with
  | Some codes => key_of_value codes code
  | None => ""
  end.

Definition _get_dong_name_by_code (s : Self) (code : Scalar) : string :=
  match dong_codes s with
  | Some codes => key_of_value codes code
  | None => ""
  end.

(** The update of [total_pages] on the first page, in
    [_scrape_office_data_from_html]: the numbers of the numbered links are
    read first, and an [int] that raises leaves [total_pages] as it is; the
    '>>' link wins over the numbered links even when its [href] carries no
    page number. *)
Definition first_page_total (pagination_links : list Tag) (total_pages : nat) : nat :=
  match pagination_links with
  | [] => total_pages
  | _ =>
      match page_numbers pagination_links with
      | None => total_pages
      | Some page_numbers =>
          match last_page_link pagination_links with
          | Some link =>
              match Text.search_page link with
              | Some digits => default total_pages (Text.int digits)
              | None => total_pages
              end
          | None =>
              match page_numbers with
              | [] => total_pages
              | ns => max_list ns
              end
          end
      end
  end.

(** Whether the first page runs the statement [import re] of
    [_scrape_office_data_from_html].  The statement stands under
    [if last_page_link:], and it makes [re] a local name of the whole
    function: the name is bound from then on, and unbound - the module
    of the same name, imported at the top of the file, is out of reach -
    when the statement is not run. *)
Definition imports_re (pagination_links : list Tag) : bool :=
  match pagination_links with
  | [] => false
  | _ =>
      match page_numbers pagination_links, last_page_link pagination_links with
      | Some _, Some _ => true
      | _, _ => false
      end
  end.

(** [for phone_element in phone_elements: ...]: the loop assigns the
    variable [phone] and extends [mobile_phones]. *)
Definition collect_phones (phone_elements : list string)
    (phone : string) (mobile_phones : list string) : string * list string :=
  fold_left
    (fun '(_, mobile_phones) phone_element =>
       let phone := Text.strip phone_element in
       (phone,
        if bool_decide (phone ∈ mobile_phones) then mobile_phones
        else mobile_phones ++ [phone]))
    phone_elements (phone, mobile_phones).

(** The lookup of the detail page of a row: the values of [phone] and
    [mobile_phones] after it.  It is reached with an identifier only: the
    local name [re] is bound. *)
Definition row_detail (mem_no phone : string) : M (string * list string) :=
  try_except
    (let* detail_response := session_get (OfficeDetail mem_no) in
     if status_code detail_response =? 200 then
       ret (collect_phones
              (find_all_text Text.phone_pattern (soup detail_response)) phone [])
     else ret (phone, []))
    (ret (phone, [])).

(** The name and the identifier read from the anchor of column 1; [re]
    tells whether the local name [re] is bound: [re.search] raises
    [UnboundLocalError] when it is not. *)
Definition name_and_mem_no (re : bool) (office_name_elem : option Tag)
    : M (string * option string) :=
  match office_name_elem with
  | Some a =>
      let raw_name := Text.strip (text a) in
      let office_name :=
        match Text.first_line raw_name with
        | Some l => Text.strip l
        | None => ""
        end in
      if re then ret (office_name, Text.search_moveDetail (default "" (href a)))
      else raise
  | None => ret ("", None)
  end.

(** The body of the loop over the rows of a page. *)
Definition scrape_row (sido_code : nat) (sigungu_code : option Scalar)
    (dong_code : Scalar) (re : bool) (results : list OfficeData) (row : Tr)
    : M (list OfficeData) :=
  try_except
    (match row with
     | c0 :: c1 :: c2 :: c3 :: c4 :: _ =>
         let location := Text.strip (td_text c0) in
         let* name := name_and_mem_no re (select_one_a c1) in
         let '(office_name, mem_no) := name in
         let representative := Text.strip (td_text c2) in
         let phone :=
           match select_one_a c3 with
           | Some phone_elem => Text.strip (text phone_elem)
           | None => ""
           end in
         let address := Text.strip (td_text c4) in
         let* detail :=
           match nonempty mem_no with
           | Some m => row_detail m phone
           | None => ret (phone, [])
           end in
         let '(phone, mobile_phones) := detail in
         let* s := self in
         ret (results ++
              [ {| sido := _get_sido_name_by_code sido_code;
                   sigungu :=
                     match sigungu_code with
                     | Some c => if truthy c then _get_sigungu_name_by_code s c else ""
                     | None => ""
                     end;
                   dong :=
                     if truthy dong_code then _get_dong_name_by_code s dong_code else "";
                   location := location;
                   office_name := office_name;
                   representative := representative;
                   phone := phone;
                   mobile_phones := Text.join ", " mobile_phones;
                   address := address;
                   mem_no := mem_no |} ])
     | _ => ret results
     end)
    (ret results).

(** [for row in office_rows[1:]: ...] *)
Definition scrape_rows (sido_code : nat) (sigungu_code : option Scalar)
    (dong_code : Scalar) (re : bool) (soup : Soup) (results : list OfficeData)
    : M (list OfficeData) :=
  for_each (tail (select_table_tr soup))
    (scrape_row sido_code sigungu_code dong_code re) results.

(** The document of the page of a turn: that of [response] on page 1, a
    new request from page 2 on; [None] is [break]. *)
Definition fetch_page (sido_code : nat) (sigungu_code : option Scalar)
    (dong_code : Scalar) (response : Response) (current_page : nat)
    : M (option Soup) :=
  if 1 <? current_page then
    let* page_response :=
      session_get (office_list current_page sido_code sigungu_code dong_code) in
    if negb (status_code page_response =? 200) then ret None
    else ret (Some (soup page_response))
  else ret (Some (soup response)).

(** A turn of the [while] loop after the call of the callback: [None] is
    [break], otherwise the new values of [total_pages] and [results].
    The first turn is the one that may run [import re], on the document of
    [response]; so at every turn the rows are read with [re] bound or not
    as the links of that document tell. *)
Definition read_page (sido_code : nat) (sigungu_code : option Scalar)
    (dong_code : Scalar) (response : Response) (current_page total_pages : nat)
    (results : list OfficeData) : M (option (nat * list OfficeData)) :=
  let* fetched := fetch_page sido_code sigungu_code dong_code response current_page in
  match fetched with
  | None => ret None
  | Some soup =>
      let total_pages :=
        if current_page =? 1
        then first_page_total (select_pagination soup) total_pages
        else total_pages in
      let re := imports_re (select_pagination (Net.soup response)) in
      let* results := scrape_rows sido_code sigungu_code dong_code re soup results in
      ret (Some (total_pages, results))
  end.

(** One turn of the [while] loop. *)
Definition scrape_page (sido_code : nat) (sigungu_code : option Scalar)
    (dong_code : Scalar) (progress_callback : option Callback)
    (response : Response) (current_page total_pages : nat)
    (results : list OfficeData) : M (option (nat * list OfficeData)) :=
  let* _ := call_progress progress_callback current_page total_pages (List.length results) in
  read_page sido_code sigungu_code dong_code response current_page total_pages results.

(** [while current_page <= total_pages: ...], by recursion on the number
    [n = total_pages + 1 - current_page] of turns that remain; it is
    entered at [current_page = 2], after which [total_pages] is fixed. *)
Fixpoint scrape_pages (n : nat) (sido_code : nat) (sigungu_code : option Scalar)
    (dong_code : Scalar) (progress_callback : option Callback)
    (response : Response) (current_page total_pages : nat)
    (results : list OfficeData) : M (list OfficeData) :=
  match n with
  | 0 => ret results
  | S n' =>
      let* turn := scrape_page sido_code sigungu_code dong_code progress_callback
                     response current_page total_pages results in
      match turn with
      | None => ret results
      | Some (total_pages, results) =>
          scrape_pages n' sido_code sigungu_code dong_code progress_callback
            response (S current_page) total_pages results
      end
  end.

(** The [try] block of [_scrape_office_data_from_html].  The loop starts
    with [current_page = 1 <= total_pages = 1], so its first turn always
    runs; the turns from page 2 on are [scrape_pages]. *)
Definition scrape_body (sido_code : nat) (sigungu_code : option Scalar)
    (dong_code : Scalar) (progress_callback : option Callback)
    : M (list OfficeData) :=
  let* response := session_get (office_list 1 sido_code sigungu_code dong_code) in
  if negb (status_code response =? 200) then ret [] else
  let* turn := scrape_page sido_code sigungu_code dong_code progress_callback
                 response 1 1 [] in
  match turn with
  | None => ret []
  | Some (total_pages, results) =>
      scrape_pages (total_pages - 1) sido_code sigungu_code dong_code
        progress_callback response 2 total_pages results
  end.

Definition _scrape_office_data_from_html (sido_code : nat)
    (sigungu_code : option Scalar) (dong_code : Scalar)
    (progress_callback : option Callback) : M (list OfficeData) :=
  try_except (scrape_body sido_code sigungu_code dong_code progress_callback)
             (ret []).

Definition with_mobile_phones (result : OfficeData) (v : string) : OfficeData :=
  {| sido := sido result; sigungu := sigungu result; dong := dong result;
     location := location result; office_name := office_name result;
     representative := representative result; phone := phone result;
     mobile_phones := v; address := address result; mem_no := mem_no result |}.

(** The body of the loop "상세 정보 업데이트" of
    [search_real_estate_offices], on one entry of [self.results]. *)
Definition update_detail (result : OfficeData) : M OfficeData :=
  match nonempty (mem_no result) with
  | Some m =>
      try_except
        (let* detail_response := session_get (OfficeDetail m) in
         if status_code detail_response =? 200 then
           let '(_, mobile_phones) :=
             collect_phones
               (find_all_text Text.phone_pattern (soup detail_response)) "" [] in
           ret (with_mobile_phones result (Text.join ", " mobile_phones))
         else ret result)
        (ret result)
  | None => ret result
  end.

(** The sigungu code of a search: [None] stands for [return False],
    [Some None] for a search without sigungu. *)
Definition resolve_sigungu (sido : string) (sigungu : option string)
    : M (option (option Scalar)) :=
  match nonempty sigungu with
  | Some sg =>
      let* s := self in
      let* _ :=
        match sigungu_codes s with
        | None => let* _ := get_sigungu_list sido in ret tt
        | Some _ => ret tt
        end in
      let* s := self in
      match sigungu_codes s with
      | None => raise
      | Some codes =>
          match dict_get codes sg with
          | Some c => if truthy c then ret (Some (Some c)) else ret None
          | None => ret None
          end
      end
  | None => ret (Some None)
  end.

Definition resolve_dong (sido : string) (sigungu dong : option string) : M Scalar :=
  match nonempty dong, nonempty sigungu with
  | Some d, Some sg =>
      let* s := self in
      let* _ :=
        match dong_codes s with
        | None => let* _ := get_dong_list sido sg in ret tt
        | Some _ => ret tt
        end in
      let* s := self in
      match dong_codes s with
      | None => raise
      | Some codes => ret (default (Str "") (dict_get codes d))
      end
  | _, _ => ret (Str "")
  end.

(** What [search_real_estate_offices] does once the codes are known.
    No exception leaves a turn of the update loop, so the entries of
    [self.results] are replaced together at its end. *)
Definition search_with_codes (sido_code : nat) (sigungu_code : option Scalar)
    (dong_code : Scalar) (progress_callback : option Callback) : M bool :=
  let* total_pages := get_total_pages sido_code sigungu_code dong_code in
  let* _ := call_progress progress_callback 0 total_pages 0 in
  let* scraped :=
    _scrape_office_data_from_html sido_code sigungu_code dong_code progress_callback in
  let* _ := set_results scraped in
  let* updated :=
    for_each scraped
      (fun acc result => let* r := update_detail result in ret (acc ++ [r])) [] in
  let* _ := set_results updated in
  ret (0 <? List.length updated).

Definition search_real_estate_offices (sido : string) (sigungu dong : option string)
    (progress_callback : option Callback) : M bool :=
  try_except
    (match dict_get sido_mapping sido with
     | None | Some 0 => ret false
     | Some sido_code =>
         let* sigungu_code := resolve_sigungu sido sigungu in
         match sigungu_code with
         | None => ret false
         | Some sigungu_code =>
             let* dong_code := resolve_dong sido sigungu dong in
             search_with_codes sido_code sigungu_code dong_code progress_callback
         end
     end)
    (ret false).

Definition get_results : M (list OfficeData) :=
  let* s := self in ret (results s).

End ApiCrawler.

(** ** data_exporter.py *)

Module DataExporter.

(** A data frame: its column labels and its rows, a cell being [None]
    when the value is missing ([None] or NaN). *)
Record DataFrame := {
  columns : list string;
  rows : list (list (option string))
}.

(** The keys of [office_data], in the order of the dictionary. *)
Definition keys : list string :=
  [ "시도"; "시군구"; "읍면동"; "지역"; "상호"; "대표자명"; "전화번호";
    "모바일전화번호"; "주소"; "mem_no" ].

Definition values (r : OfficeData) : list (option string) :=
  [ Some (sido r); Some (sigungu r); Some (dong r); Some (location r);
    Some (office_name r); Some (representative r); Some (phone r);
    Some (mobile_phones r); Some (address r); mem_no r ].

(** [pd.DataFrame()] *)
Definition no_frame : DataFrame := {| columns := []; rows := [] |}.

(** [pd.DataFrame(data)] *)
Definition frame_of (data : list OfficeData) : DataFrame :=
  {| columns := match data with [] => [] | _ => keys end;
     rows := map values data |}.

(** [df.drop_duplicates()]: a row is dropped when all its cells are equal
    to those of a row before it ([keep='first'], all columns) *)
Definition drop_duplicates (df : DataFrame) : DataFrame :=
  {| columns := columns df; rows := first_seen [] (rows df) |}.

(** [df.fillna(v)] *)
Definition fillna (v : string) (df : DataFrame) : DataFrame :=
  {| columns := columns df;
     rows := map (map (fun cell => Some (default v cell))) (rows df) |}.

Fixpoint index_of (c : string) (cols : list string) : option nat :=
  match cols with
  | [] => None
  | c' :: cols' => if Text.eqb c' c then Some 0 else S <$> index_of c cols'
  end.

(** [df[cols]], for labels [cols] of [df] *)
Definition select (cols : list string) (df : DataFrame) : DataFrame :=
  {| columns := cols;
     rows :=
       map (fun row =>
              map (fun c => i ← index_of c (columns df); mjoin (row !! i)) cols)
           (rows df) |}.

(** [df.empty]: one of the two axes has length 0 *)
Definition empty (df : DataFrame) : bool :=
  (List.length (columns df) =? 0) || (List.length (rows df) =? 0).

(** [len(df)] *)
Definition len (df : DataFrame) : nat := List.length (rows df).

Definition export_columns : list string :=
  [ "시도"; "시군구"; "읍면동"; "상호"; "대표자명"; "전화번호"; "모바일전화번호"; "주소" ].

Definition clean_data (data : list OfficeData) : DataFrame :=
  match data with
  | [] => no_frame
  | _ =>
      let df := frame_of data in
      let df := drop_duplicates df in
      let df := fillna "" df in
      let available_columns :=
        List.filter (fun col => bool_decide (col ∈ columns df)) export_columns in
      select available_columns df
  end.

(** [os.path.join(save_dir, filename)] (POSIX) *)
Definition path_join (save_dir filename : string) : string :=
  if Text.startswith filename "/" then filename
  else if Text.eqb save_dir "" || Text.endswith save_dir "/" then save_dir +:+ filename
  else save_dir +:+ "/" +:+ filename.

Definition os_makedirs (dir : string) : M unit := fun w s h =>
  MkRun (if makedirs w h dir then Ok tt else Raise) s [Makedirs dir].

Definition df_to_csv (file_path : string) (df : DataFrame) : M unit := fun w s h =>
  let f := {| file_path := file_path; header := columns df;
              lines := map (map (default "")) (rows df) |} in
  MkRun (if to_csv w h f then Ok tt else Raise) s [ToCsv f].

Definition now_strftime : M string := fun w s h => MkRun (Ok (strftime w h)) s [].

(** [default_directory] is the attribute of the exporter. *)
Definition export_to_csv (default_directory : string) (data : list OfficeData)
    (filename directory : option string) : M (option string) :=
  try_except
    (let df := clean_data data in
     if empty df then ret None else
     let save_dir := default default_directory (nonempty directory) in
     let* _ := os_makedirs save_dir in
     let* filename :=
       match nonempty filename with
       | Some f => ret f
       | None =>
           let* current_time := now_strftime in
           ret ("부동산_중개사무소_" +:+ current_time +:+ ".csv")
       end in
     let filename :=
       if negb (Text.endswith (Text.lower filename) ".csv")
       then filename +:+ ".csv" else filename in
     let file_path := path_join save_dir filename in
     let* _ := df_to_csv file_path df in
     ret (Some file_path))
    (ret None).

End DataExporter.

(** ** api_region_search.py *)

Module ApiRegionSearch.

(** [get_sigungu_list]; [sigungu_list] is the attribute of that name, the
    cache of the lists by province, returned with the list as the call
    leaves it. *)
Definition get_sigungu_list (sigungu_list : list (string * list string))
    (sido : string) : M (list string * list (string * list string)) :=
  match dict_get sigungu_list sido with
  | Some cached => ret (cached, sigungu_list)
  | None =>
      let* l := ApiCrawler.get_sigungu_list sido in
      ret (l, dict_set sigungu_list sido l)
  end.

(** [get_dong_list]; [dong_list] is the attribute of that name, the cache
    of the lists by the key [f"{sido}_{sigungu}"]. *)
Definition get_dong_list (dong_list : list (string * list string))
    (sido sigungu : string) : M (list string * list (string * list string)) :=
  let cache_key := sido +:+ "_" +:+ sigungu in
  match dict_get dong_list cache_key with
  | Some cached => ret (cached, dong_list)
  | None =>
      let* l := ApiCrawler.get_dong_list sido sigungu in
      ret (l, dict_set dong_list cache_key l)
  end.

(** [search]; [default_directory] is the attribute of [self.data_exporter]. *)
Definition search (default_directory : string) (sido : string)
    (sigungu dong output_file : option string)
    (progress_callback : option Callback) : M (list OfficeData) :=
  try_except
    (let* success :=
       ApiCrawler.search_real_estate_offices sido sigungu dong progress_callback in
     if negb success then ret [] else
     let* results := ApiCrawler.get_results in
     let* _ :=
       match nonempty output_file, results with
       | Some f, _ :: _ =>
           let* _ := DataExporter.export_to_csv default_directory results (Some f) None in
           ret tt
       | _, _ => ret tt
       end in
     ret results)
    (ret []).

End ApiRegionSearch.

(** ** Measures on event logs *)

Definition is_detail_of (m : string) (e : Event) : bool :=
  match e with
  | Get (Net.OfficeDetail m') => Text.eqb m' m
  | _ => false
  end.

Definition is_detail (e : Event) : bool :=
  match e with
  | Get (Net.OfficeDetail _) => true
  | _ => false
  end.

Definition is_page (p : nat) (e : Event) : bool :=
  match e with
  | Get (Net.OfficeList p' _ _ _) => p' =? p
  | _ => false
  end.

Definition is_progress (e : Event) : bool :=
  match e with
  | Progress _ _ _ => true
  | _ => false
  end.

Definition is_to_csv (e : Event) : bool :=
  match e with
  | ToCsv _ => true
  | _ => false
  end.

Definition count (P : Event -> bool) (evs : list Event) : nat :=
  List.length (List.filter P evs).

(** The number of requests for the detail page of [m]. *)
Definition detail_requests (m : string) (evs : list Event) : nat :=
  count (is_detail_of m) evs.

(** The number of requests for page [p] of the listing. *)
Definition page_requests (p : nat) (evs : list Event) : nat :=
  count (is_page p) evs.

(** The pages announced to the progress callback, in order. *)
Definition progress_pages (evs : list Event) : list nat :=
  omap (fun e => match e with Progress p _ _ => Some p | _ => None end) evs.

(** The record carries the identifier [m] (a true value: not [None], not [""]). *)
Definition has_mem_no (m : string) (r : OfficeData) : bool :=
  bool_decide (nonempty (mem_no r) = Some m).

Definition records_with (m : string) (rs : list OfficeData) : nat :=
  List.length (List.filter (has_mem_no m) rs).

(** A row that yields a record: it has at least five columns. *)
Definition well_formed (row : Dom.Tr) : bool := 5 <=? List.length row.

(** The fields a row of five columns can lack are those read from anchors:
    the name and the identifier in column 1, the phone in column 3. *)
Definition critical_fields_present (row : Dom.Tr) : bool :=
  match row with
  | _ :: c1 :: _ :: c3 :: _ =>
      bool_decide (is_Some (Dom.select_one_a c1)) && bool_decide (is_Some (Dom.select_one_a c3))
  | _ => false
  end.

(** A row that yields a record, read with the local name [re] bound or
    not: it has at least five columns and, when [re] is not bound, no
    anchor in column 1 (the search for the identifier would raise). *)
Definition yields (re : bool) (row : Dom.Tr) : bool :=
  well_formed row &&
  (re || match row with
         | _ :: c1 :: _ => negb (bool_decide (is_Some (Dom.select_one_a c1)))
         | _ => true
         end).

(** Events that are requests for a detail page, and nothing else. *)
Definition only_details (evs : list Event) : Prop :=
  Forall (fun e => is_detail e = true) evs.

(** What the callback of a turn leaves in the log. *)
Definition announced (progress_callback : option Callback)
    (current_page total_pages count : nat) : list Event :=
  match progress_callback with
  | Some _ => [Progress current_page total_pages count]
  | None => []
  end.

(** The call of the callback after [h] returns normally. *)
Definition callback_ok (progress_callback : option Callback) (h : list Event)
    (current_page total_pages count : nat) : bool :=
  match progress_callback with
  | Some cb => cb h current_page total_pages count
  | None => true
  end.

(** Among the events [evs] that follow [h] there is a call of the callback
    that raised. *)
Definition raised (progress_callback : option Callback) (h evs : list Event) : Prop :=
  exists cb pre current_page total_pages count post,
    progress_callback = Some cb /\
    evs = pre ++ Progress current_page total_pages count :: post /\
    cb (h ++ pre) current_page total_pages count = false.

(** The cells of a record in the exported file: the eight exported columns
    in their order (지역 and mem_no are not exported). *)
Definition exported (r : OfficeData) : list string :=
  [ sido r; sigungu r; dong r; office_name r; representative r; phone r;
    mobile_phones r; address r ].

(** The files written, in order. *)
Definition written (evs : list Event) : list CsvFile :=
  omap (fun e => match e with ToCsv f => Some f | _ => None end) evs.

Definition is_combo (e : Event) : bool :=
  match e with
  | Get (Net.ComboSearch _ _ _) => true
  | _ => false
  end.

(** Events that are requests to the combo-search endpoint, and nothing else. *)
Definition only_combo (evs : list Event) : Prop :=
  Forall (fun e => is_combo e = true) evs.

(** The code tables of a crawler are untouched, its results replaced. *)
Definition with_results (s : Self) (rs : list OfficeData) : Self :=
  {| results := rs; sigungu_codes := sigungu_codes s; dong_codes := dong_codes s |}.

(** A callback that raises at its call for page [n] and nowhere else. *)
Definition raises_at (n : nat) : Callback :=
  fun _ current_page _ _ => negb (current_page =? n).

(** The crawler after [self.sigungu_codes = d], after [self.dong_codes = d]. *)
Definition with_sigungu_codes (s : Self) (d : list (string * Json.Scalar)) : Self :=
  {| results := results s; sigungu_codes := Some d; dong_codes := dong_codes s |}.

Definition with_dong_codes (s : Self) (d : list (string * Json.Scalar)) : Self :=
  {| results := results s; sigungu_codes := sigungu_codes s; dong_codes := Some d |}.

(** The value a dictionary built by successive assignments gives to a key:
    that of the last assignment to it. *)
Definition last_assigned {V} (l : list (string * V)) (k : string) : option V :=
  dict_get (reverse l) k.

(** A run that belongs to the resolution of the codes: it makes
    combo-search requests only and leaves [self.results] as it is. *)
Definition resolves {A} (r : Run A) (s : Self) : Prop :=
  only_combo (emitted r) /\ results (self_after r) = results s.

(** [r'] is [r] with, possibly, other mobile phones. *)
Definition same_but_mobile (r r' : OfficeData) : Prop :=
  ApiCrawler.with_mobile_phones r (mobile_phones r') = r'.

(** The answer of the combo-search endpoint, read: the decoded names and
    the codes when the status is 200 and the answer has the two levels
    ["datMM"] and ["name"]; an exception when the body is no JSON or a name
    cannot be decoded; otherwise nothing. *)
Definition combo_names (response : Net.Response)
    : Result (option (list string * option (list Json.Scalar))) :=
  if negb (Net.status_code response =? 200) then Ok None else
  match Net.json response with
  | None => Raise
  | Some data =>
      match Json.datMM data with
      | Some mm =>
          match Json.name mm with
          | Some names =>
              match mapM id names with
              | Some decoded => Ok (Some (decoded, Json.code mm))
              | None => Raise
              end
          | None => Ok None
          end
      | None => Ok None
      end
  end.

(** An event of the network side of the crawler: a request or a call of
    the progress callback, not an access to the file system. *)
Definition is_net (e : Event) : bool :=
  match e with
  | Get _ | Progress _ _ _ => true
  | Makedirs _ | ToCsv _ => false
  end.

(** Code that, whatever it is run on, leaves the file system alone. *)
Definition network_only {A} (m : M A) : Prop :=
  forall w s h, Forall (fun e => is_net e = true) (emitted (m w s h)).

(** The steps of the walk over the pages that a log shows: the calls of
    the progress callback and the requests for a page of the listing, each
    with its page, in their order. *)
Inductive Step :=
| Announced (page : nat)
| Requested (page : nat).

Definition steps (evs : list Event) : list Step :=
  omap (fun e => match e with
                 | Progress p _ _ => Some (Announced p)
                 | Get (Net.OfficeList p _ _ _) => Some (Requested p)
                 | _ => None
                 end) evs.

(** The steps of [k] whole turns of the loop from page [first] on: each
    page is announced, then requested. *)
Definition turns (first k : nat) : list Step :=
  flat_map (fun p => [Announced p; Requested p]) (seq first k).

(** ** Sample documents and worlds *)

Module Sample.
Import Dom Json Net.

Definition td (s : string) : Td := {| td_text := s; select_one_a := None |}.

Definition td_a (s : string) (h : option string) : Td :=
  {| td_text := s; select_one_a := Some {| text := s; href := h |} |}.

Definition page_of (links : list Tag) (trs : list Tr) : Soup :=
  {| select_pagination := links; select_table_tr := trs; strings := [] |}.

Definition detail_of (nodes : list string) : Soup :=
  {| select_pagination := []; select_table_tr := []; strings := nodes |}.

Definition ok (d : Soup) : Response := {| status_code := 200; soup := d; json := None |}.

Definition not_found : Response :=
  {| status_code := 404; soup := page_of [] []; json := None |}.

Definition head_row : Tr := [td "지역"; td "상호"; td "대표자"; td "전화번호"; td "주소"].

(** [<tr><td>Seoul</td><td><a href="javascript:moveDetail('7','a')">Kim Office</a></td>
     <td>Kim</td><td><a>02-111-1111</a></td><td>1 Main St</td></tr>] *)
Definition office_row (m office tel : string) : Tr :=
  [ td "Seoul";
    td_a office (Some ("javascript:moveDetail('" +:+ m +:+ "','a')"));
    td "Kim"; td_a tel None; td "1 Main St" ].

(** A row of five empty cells without any anchor. *)
Definition blank_row : Tr := [td ""; td ""; td ""; td ""; td ""].

(** A row of two cells. *)
Definition short_row : Tr := [td "Seoul"; td "Kim"].

Definition numbered (label : string) : Tag :=
  {| text := label; href := Some ("office_list.asp?page=" +:+ label) |}.

(** The detail page of the specification's example, each number in a
    text node of its own. *)
Definition detail_nodes : Soup :=
  detail_of ["02-123-4567"; "Tel"; " 02-123-4567 "; "010-1234-5678"].

(** The same numbers inside one text node. *)
Definition detail_line : Soup :=
  detail_of ["Tel 02-123-4567 / 02-123-4567 / 010-1234-5678"].

Definition one_page : Soup :=
  page_of [] [head_row; office_row "7" "Kim Office" "02-111-1111"; short_row].

(** The link to the last page, [<a href="office_list.asp?page=n">»</a>]. *)
Definition last_link (n : string) : Tag :=
  {| text := "»"; href := Some ("office_list.asp?page=" +:+ n) |}.

(** [one_page] with its pagination: the link to page 1 and the link to the
    last page, which is page 1. *)
Definition one_page_linked : Soup :=
  page_of [numbered "1"; last_link "1"]
    [head_row; office_row "7" "Kim Office" "02-111-1111"; short_row].

Definition page (n : nat) : Soup :=
  page_of [numbered "1"; numbered "2"]
    [head_row;
     office_row (if n =? 1 then "7" else "8") "Kim Office" "02-111-1111"].

(** [page n] with the link to the last page, which is page 2. *)
Definition page_linked (n : nat) : Soup :=
  page_of [numbered "1"; numbered "2"; last_link "2"]
    [head_row;
     office_row (if n =? 1 then "7" else "8") "Kim Office" "02-111-1111"].

Definition world_of (answer : Request -> option Response) : World :=
  {| get := fun _ r => answer r;
     makedirs := fun _ _ => true;
     to_csv := fun _ _ => true;
     strftime := fun _ => "20240101_000000" |}.

(** One listing page with one office; its detail page is [detail_nodes]. *)
Definition single : World :=
  world_of (fun r =>
    match r with
    | OfficeList _ _ _ _ => Some (ok one_page)
    | OfficeDetail _ => Some (ok detail_nodes)
    | ComboSearch _ _ _ => None
    end).

(** Two listing pages with one office each. *)
Definition two_pages : World :=
  world_of (fun r =>
    match r with
    | OfficeList n _ _ _ => Some (ok (page n))
    | OfficeDetail _ => Some (ok detail_nodes)
    | ComboSearch _ _ _ => None
    end).

(** As [single] and [two_pages], with the link to the last page on every
    listing page. *)
Definition linked : World :=
  world_of (fun r =>
    match r with
    | OfficeList _ _ _ _ => Some (ok one_page_linked)
    | OfficeDetail _ => Some (ok detail_nodes)
    | ComboSearch _ _ _ => None
    end).

Definition two_linked : World :=
  world_of (fun r =>
    match r with
    | OfficeList n _ _ _ => Some (ok (page_linked n))
    | OfficeDetail _ => Some (ok detail_nodes)
    | ComboSearch _ _ _ => None
    end).

(** As [single], the detail page being [detail_line]. *)
Definition single_line : World :=
  world_of (fun r =>
    match r with
    | OfficeList _ _ _ _ => Some (ok one_page)
    | OfficeDetail _ => Some (ok detail_line)
    | ComboSearch _ _ _ => None
    end).

(** Every request is answered with status 404. *)
Definition all_404 : World := world_of (fun _ => Some not_found).

(** A listing page without any office. *)
Definition no_office : World :=
  world_of (fun r =>
    match r with
    | OfficeList _ _ _ _ => Some (ok (page_of [] [head_row]))
    | _ => Some not_found
    end).

Definition seoul : string := "서울특별시".

Definition quiet : Callback := fun _ _ _ _ => true.

Definition failing : Callback := fun _ _ _ _ => false.

Definition kim : OfficeData :=
  {| sido := seoul; sigungu := ""; dong := ""; location := "Seoul";
     office_name := "Kim Office"; representative := "Kim";
     phone := "02-111-1111"; mobile_phones := "010-1234-5678";
     address := "1 Main St"; mem_no := Some "7" |}.

Definition lee : OfficeData :=
  {| sido := seoul; sigungu := ""; dong := ""; location := "Seoul";
     office_name := "Kim Office"; representative := "Kim";
     phone := "02-111-1111"; mobile_phones := "010-1234-5678";
     address := "2 Main St"; mem_no := Some "7" |}.

End Sample.

(** * Properties *)

Import Dom Json Net.

(** ** The string operations on examples *)

Example strip_ex : Text.strip "  02-123-4567
 " = "02-123-4567".
Proof. reflexivity. Qed.

Example phone_ex1 : Text.search Text.phone_pattern "Tel 02-123-4567." = true.
Proof. reflexivity. Qed.

Example phone_ex2 : Text.search Text.phone_pattern "2024-01-01" = false.
Proof. reflexivity. Qed.

Example page_ex : Text.search_page "office_list.asp?page=12&flag=S" = Some "12".
Proof. reflexivity. Qed.

Example moveDetail_ex :
  Text.search_moveDetail "javascript:moveDetail('4711','x');" = Some "4711".
Proof. reflexivity. Qed.

Example int_ex : Text.int "0042" = Some 42.
Proof. reflexivity. Qed.

(** White space and digits outside the ASCII range: the no-break space and
    the ideographic space are stripped; the full-width digits are decimal
    digits; the superscript two is a digit that [int] does not convert. *)
Example strip_wide_ex : Text.strip " 　02-123-4567  " = "02-123-4567".
Proof. reflexivity. Qed.

Example phone_wide_ex : Text.search Text.phone_pattern "０２-１２３-４５６７" = true.
Proof. reflexivity. Qed.

Example int_wide_ex : Text.int "１２3" = Some 123.
Proof. reflexivity. Qed.

Example isdigit_superscript_ex : Text.isdigit "²" = true /\ Text.int "²" = None.
Proof. split; reflexivity. Qed.

(** ** Running code: the equations of the monad *)

Section Monad.
Context {A B : Type}.

Lemma value_bind (m : M A) (k : A -> M B) w s h :
  value (bind m k w s h) =
  match value (m w s h) with
  | Ok a => value (k a w (self_after (m w s h)) (h ++ emitted (m w s h)))
  | Raise => Raise
  end.
Proof. unfold bind. by destruct (value (m w s h)). Qed.

Lemma emitted_bind (m : M A) (k : A -> M B) w s h :
  emitted (bind m k w s h) =
  emitted (m w s h) ++
  match value (m w s h) with
  | Ok a => emitted (k a w (self_after (m w s h)) (h ++ emitted (m w s h)))
  | Raise => []
  end.
Proof. unfold bind. destruct (value (m w s h)); simpl; by rewrite ?app_nil_r. Qed.

Lemma self_after_bind (m : M A) (k : A -> M B) w s h :
  self_after (bind m k w s h) =
  match value (m w s h) with
  | Ok a => self_after (k a w (self_after (m w s h)) (h ++ emitted (m w s h)))
  | Raise => self_after (m w s h)
  end.
Proof. unfold bind. by destruct (value (m w s h)). Qed.

Lemma bind_eq (m : M A) (k : A -> M B) w s h :
  bind m k w s h =
  match m w s h with
  | MkRun (Ok a) s1 e1 =>
      let r' := k a w s1 (h ++ e1) in
      MkRun (value r') (self_after r') (e1 ++ emitted r')
  | MkRun Raise s1 e1 => MkRun Raise s1 e1
  end.
Proof. unfold bind. by destruct (m w s h) as [[a|] s1 e1]. Qed.

Lemma try_except_eq (m handler : M A) w s h :
  try_except m handler w s h =
  match m w s h with
  | MkRun (Ok a) s1 e1 => MkRun (Ok a) s1 e1
  | MkRun Raise s1 e1 =>
      let r' := handler w s1 (h ++ e1) in
      MkRun (value r') (self_after r') (e1 ++ emitted r')
  end.
Proof. unfold try_except. by destruct (m w s h) as [[a|] s1 e1]. Qed.

Lemma value_try_except (m handler : M A) w s h :
  value (try_except m handler w s h) =
  match value (m w s h) with
  | Ok a => Ok a
  | Raise => value (handler w (self_after (m w s h)) (h ++ emitted (m w s h)))
  end.
Proof. unfold try_except. by destruct (value (m w s h)) eqn:E. Qed.

Lemma emitted_try_except (m handler : M A) w s h :
  emitted (try_except m handler w s h) =
  emitted (m w s h) ++
  match value (m w s h) with
  | Ok _ => []
  | Raise => emitted (handler w (self_after (m w s h)) (h ++ emitted (m w s h)))
  end.
Proof. unfold try_except. destruct (value (m w s h)); simpl; by rewrite ?app_nil_r. Qed.

Lemma self_after_try_except (m handler : M A) w s h :
  self_after (try_except m handler w s h) =
  match value (m w s h) with
  | Ok _ => self_after (m w s h)
  | Raise => self_after (handler w (self_after (m w s h)) (h ++ emitted (m w s h)))
  end.
Proof. unfold try_except. by destruct (value (m w s h)). Qed.

End Monad.

Lemma count_app P l1 l2 : count P (l1 ++ l2) = count P l1 + count P l2.
Proof. unfold count. by rewrite List.filter_app, length_app. Qed.

Lemma count_nil P : count P [] = 0.
Proof. reflexivity. Qed.

Lemma count_cons P e l : count P (e :: l) = (if P e then 1 else 0) + count P l.
Proof. unfold count. simpl. by destruct (P e). Qed.

(** ** Pagination discovery *)

Lemma get_total_pages_returns sido_code sigungu_code dong_code w s h :
  exists n, value (ApiCrawler.get_total_pages sido_code sigungu_code dong_code w s h) = Ok n.
Proof.
  unfold ApiCrawler.get_total_pages.
  rewrite value_try_except, value_bind.
  unfold session_get.
  destruct (get w h _) as [resp|]; simpl; [|by eexists].
  destruct (status_code resp =? 200); simpl; [|by eexists].
  destruct (ApiCrawler.read_total_pages _); simpl; by eexists.
Qed.

(** Without pagination links on a page fetched with success the answer is 1. *)
Lemma get_total_pages_no_links sido_code sigungu_code dong_code w s h resp :
  get w h (ApiCrawler.office_list 1 sido_code sigungu_code dong_code) = Some resp ->
  status_code resp = 200 ->
  select_pagination (soup resp) = [] ->
  value (ApiCrawler.get_total_pages sido_code sigungu_code dong_code w s h) = Ok 1.
Proof.
  intros Hget Hst Hnil. unfold ApiCrawler.get_total_pages.
  rewrite value_try_except, value_bind. unfold session_get.
  rewrite Hget; simpl. rewrite Hst, Hnil. reflexivity.
Qed.

(** When the request itself raises the answer is 1. *)
Lemma get_total_pages_no_connection sido_code sigungu_code dong_code w s h :
  get w h (ApiCrawler.office_list 1 sido_code sigungu_code dong_code) = None ->
  value (ApiCrawler.get_total_pages sido_code sigungu_code dong_code w s h) = Ok 1.
Proof.
  intros Hget. unfold ApiCrawler.get_total_pages.
  rewrite value_try_except, value_bind. unfold session_get.
  rewrite Hget; reflexivity.
Qed.

(** When the status is not 200 the answer is 0. *)
Lemma get_total_pages_non_success sido_code sigungu_code dong_code w s h resp :
  get w h (ApiCrawler.office_list 1 sido_code sigungu_code dong_code) = Some resp ->
  status_code resp <> 200 ->
  value (ApiCrawler.get_total_pages sido_code sigungu_code dong_code w s h) = Ok 0.
Proof.
  intros Hget Hst. unfold ApiCrawler.get_total_pages.
  rewrite value_try_except, value_bind. unfold session_get.
  rewrite Hget; simpl.
  destruct (Nat.eqb_spec (status_code resp) 200); [done|reflexivity].
Qed.

(** C1: pagination discovery is claimed to return 1 when the fetch of the
    first page fails and never to return less than 1.  For the province
    code 1 and a server that answers the listing request with status 404,
    [get_total_pages] returns 0. *)
Theorem get_total_pages_status_404 :
  value (ApiCrawler.get_total_pages 1 None (Str "") Sample.all_404 ApiCrawler.init [])
  = Ok 0.
Proof. reflexivity. Qed.

(** ** The phone of a listing row *)

(** C2: the phone of a record is claimed to be the text of the anchor in
    column 3 of its row, whatever the detail page gives.  On the listing
    page [Sample.one_page_linked], whose only office has the anchor text
    "02-111-1111" in column 3 and whose pagination has the link to the last
    page (so that the identifier of the office is read), and with the
    detail page [Sample.detail_nodes], the phone of the record is the last
    phone of the detail page. *)
Theorem listing_phone_overwritten :
  value (ApiCrawler._scrape_office_data_from_html 1 None (Str "") None
           Sample.linked ApiCrawler.init [])
  = Ok [ {| sido := "서울특별시"; sigungu := ""; dong := ""; location := "Seoul";
            office_name := "Kim Office"; representative := "Kim";
            phone := "010-1234-5678";
            mobile_phones := "02-123-4567, 010-1234-5678";
            address := "1 Main St"; mem_no := Some "7" |} ].
Proof. reflexivity. Qed.

(** ** First occurrences *)

Section FirstSeen.
Context {A : Type} `{EqDecision A}.
Implicit Types (seen l : list A) (x : A).

Lemma first_seen_ext seen1 seen2 l :
  (forall x, x ∈ seen1 <-> x ∈ seen2) ->
  first_seen seen1 l = first_seen seen2 l.
Proof.
  revert seen1 seen2. induction l as [|x l IH]; intros seen1 seen2 Hs; simpl; [done|].
  rewrite (bool_decide_ext (x ∈ seen1) (x ∈ seen2)) by apply Hs.
  destruct (bool_decide (x ∈ seen2)); [by apply IH|].
  f_equal. apply IH. intros y. rewrite !elem_of_cons. by rewrite Hs.
Qed.

Lemma elem_of_first_seen seen l x :
  x ∈ first_seen seen l <-> x ∈ l /\ x ∉ seen.
Proof.
  revert seen. induction l as [|y l IH]; intros seen; simpl.
  - rewrite elem_of_nil. tauto.
  - destruct (bool_decide_reflect (y ∈ seen)) as [Hy|Hy].
    + rewrite IH, elem_of_cons. split; [tauto|].
      intros [[->|?] ?]; tauto.
    + rewrite elem_of_cons, IH, !elem_of_cons.
      destruct (decide (x = y)) as [->|Hne]; [tauto|]. tauto.
Qed.

Lemma NoDup_first_seen seen l : NoDup (first_seen seen l).
Proof.
  revert seen. induction l as [|y l IH]; intros seen; simpl; [constructor|].
  destruct (bool_decide (y ∈ seen)); [apply IH|].
  constructor; [|apply IH].
  rewrite elem_of_first_seen, elem_of_cons. tauto.
Qed.

(** The order is that of the first occurrences: a further element is put
    at the end, unless it was met before. *)
Lemma first_seen_snoc seen l x :
  first_seen seen (l ++ [x]) =
  first_seen seen l ++ (if bool_decide (x ∈ seen \/ x ∈ l) then [] else [x]).
Proof.
  revert seen. induction l as [|y l IH]; intros seen; simpl.
  - rewrite (bool_decide_ext (x ∈ seen \/ x ∈ []) (x ∈ seen)).
    + by destruct (bool_decide (x ∈ seen)).
    + rewrite elem_of_nil. tauto.
  - destruct (bool_decide (y ∈ seen)) eqn:Hy.
    + rewrite IH. f_equal. apply bool_decide_eq_true in Hy.
      rewrite (bool_decide_ext (x ∈ seen \/ x ∈ y :: l) (x ∈ seen \/ x ∈ l)); [done|].
      rewrite elem_of_cons. split; [|tauto]. intros [?|[->|?]]; tauto.
    + simpl. rewrite IH. f_equal. f_equal.
      rewrite (bool_decide_ext (x ∈ y :: seen \/ x ∈ l) (x ∈ seen \/ x ∈ y :: l)); [done|].
      rewrite !elem_of_cons. tauto.
Qed.

Lemma first_seen_nil_snoc l x :
  first_seen [] (l ++ [x]) = first_seen [] l ++ (if bool_decide (x ∈ l) then [] else [x]).
Proof.
  rewrite first_seen_snoc. f_equal.
  rewrite (bool_decide_ext (x ∈ [] \/ x ∈ l) (x ∈ l)); [done|].
  rewrite elem_of_nil. tauto.
Qed.

End FirstSeen.

(** The loop of the source computes the first occurrences. *)
Lemma collect_phones_first_seen phone_elements phone mobile_phones :
  snd (ApiCrawler.collect_phones phone_elements phone mobile_phones) =
  mobile_phones ++ first_seen mobile_phones (map Text.strip phone_elements).
Proof.
  unfold ApiCrawler.collect_phones.
  revert phone mobile_phones.
  induction phone_elements as [|e l IH]; intros phone mobile_phones; simpl.
  - by rewrite app_nil_r.
  - rewrite IH.
    destruct (bool_decide (Text.strip e ∈ mobile_phones)) eqn:He; [done|].
    rewrite <- app_assoc. simpl. f_equal. f_equal.
    apply first_seen_ext. intros x. rewrite elem_of_app, !elem_of_cons, elem_of_nil.
    tauto.
Qed.

Lemma last_cons_default {A} (a b x : A) l :
  default a (last (x :: l)) = default b (last (x :: l)).
Proof.
  revert x. induction l as [|y l IH]; intros x; [done|].
  change (last (x :: y :: l)) with (last (y :: l)). apply IH.
Qed.

(** The variable [phone] after the loop: the last element, stripped. *)
Lemma collect_phones_last phone_elements phone mobile_phones :
  fst (ApiCrawler.collect_phones phone_elements phone mobile_phones) =
  default phone (last (map Text.strip phone_elements)).
Proof.
  unfold ApiCrawler.collect_phones.
  revert phone mobile_phones.
  induction phone_elements as [|e l IH]; intros phone mobile_phones; simpl; [done|].
  rewrite IH. destruct l as [|e' l]; [done|].
  change (last (Text.strip e :: map Text.strip (e' :: l)))
    with (last (map Text.strip (e' :: l))).
  apply last_cons_default.
Qed.

(** ** The rows of a listing page *)

Lemma only_details_count P evs :
  (forall e, is_detail e = true -> P e = false) ->
  only_details evs -> count P evs = 0.
Proof.
  intros HP. induction 1 as [|e l He _ IH]; [done|].
  rewrite count_cons, IH, (HP e He). reflexivity.
Qed.

Lemma only_details_app l1 l2 :
  only_details l1 -> only_details l2 -> only_details (l1 ++ l2).
Proof. apply Forall_app_2. Qed.

Lemma only_details_progress evs : only_details evs -> progress_pages evs = [].
Proof.
  induction 1 as [|e l He _ IH]; [done|].
  destruct e as [[]| | |]; done.
Qed.

Lemma row_detail_run m phone w s h :
  ApiCrawler.row_detail m phone w s h =
  MkRun
    (Ok match get w h (OfficeDetail m) with
        | Some resp =>
            if status_code resp =? 200
            then ApiCrawler.collect_phones
                   (find_all_text Text.phone_pattern (soup resp)) phone []
            else (phone, [])
        | None => (phone, [])
        end)
    s [Get (OfficeDetail m)].
Proof.
  unfold ApiCrawler.row_detail, try_except, bind, session_get, ret.
  destruct (get w h (OfficeDetail m)) as [resp|]; simpl; [|done].
  destruct (status_code resp =? 200); simpl; done.
Qed.

Lemma update_detail_run result w s h :
  let r := ApiCrawler.update_detail result w s h in
  self_after r = s /\
  emitted r =
    match nonempty (mem_no result) with
    | Some m => [Get (OfficeDetail m)]
    | None => []
    end /\
  exists result', value r = Ok result' /\ mem_no result' = mem_no result.
Proof.
  unfold ApiCrawler.update_detail.
  destruct (nonempty (mem_no result)) as [m|]; [|simpl; eauto].
  unfold try_except, bind, session_get, ret.
  destruct (get w h (OfficeDetail m)) as [resp|]; simpl; [|eauto].
  destruct (status_code resp =? 200); simpl; [|eauto].
  destruct (ApiCrawler.collect_phones _ _ _). simpl. eauto.
Qed.

Lemma records_with_app m l1 l2 :
  records_with m (l1 ++ l2) = records_with m l1 + records_with m l2.
Proof. unfold records_with. by rewrite List.filter_app, length_app. Qed.

Lemma detail_requests_one m m' :
  detail_requests m' [Get (OfficeDetail m)] = if bool_decide (m = m') then 1 else 0.
Proof. unfold detail_requests, count. simpl. unfold Text.eqb. by destruct (bool_decide (m = m')). Qed.

Lemma scrape_row_run sido_code sigungu_code dong_code re results row w s h :
  let r := ApiCrawler.scrape_row sido_code sigungu_code dong_code re results row w s h in
  self_after r = s /\
  only_details (emitted r) /\
  exists new,
    value r = Ok (results ++ new) /\
    List.length new = (if yields re row then 1 else 0) /\
    forall m, detail_requests m (emitted r) = records_with m new.
Proof.
  unfold ApiCrawler.scrape_row.
  destruct row as [|c0 [|c1 [|c2 [|c3 [|c4 row]]]]];
    try (simpl; repeat split; [constructor|exists []; rewrite app_nil_r; by repeat split]).
  unfold ApiCrawler.name_and_mem_no, yields.
  destruct (select_one_a c1) as [a|]; [destruct re|].
  - (* the name has an anchor and [re] is bound *)
    set (office_name := match Text.first_line (Text.strip (text a)) with
                        | Some l => Text.strip l
                        | None => ""
                        end).
    set (mem_no := Text.search_moveDetail (default "" (href a))).
    set (phone0 := match select_one_a c3 with
                   | Some phone_elem => Text.strip (text phone_elem)
                   | None => ""
                   end).
    destruct (nonempty mem_no) as [m|] eqn:Hm.
    + unfold try_except, bind, ret. cbn [value self_after emitted]. rewrite Hm.
      rewrite row_detail_run. simpl.
      match goal with
      | |- context [match ?p with pair _ _ => _ end] => destruct p as [phone mobile_phones]
      end.
      simpl. repeat split; [repeat constructor|].
      eexists [_]. repeat split. intros m'.
      rewrite detail_requests_one. unfold records_with, has_mem_no. simpl.
      rewrite Hm.
      destruct (bool_decide_reflect (m = m')) as [->|Hne].
      * by rewrite bool_decide_eq_true_2.
      * rewrite bool_decide_eq_false_2; [done|]. congruence.
    + unfold try_except, bind, ret. cbn [value self_after emitted]. rewrite Hm.
      simpl. repeat split; [constructor|].
      eexists [_]. repeat split. intros m'.
      unfold records_with, has_mem_no, detail_requests. simpl. by rewrite Hm.
  - (* the name has an anchor and [re] is not bound *)
    simpl. repeat split; [constructor|].
    exists []. rewrite app_nil_r. by repeat split.
  - (* the name has no anchor *)
    simpl. repeat split; [constructor|].
    eexists [_]. split; [reflexivity|]. split; [by destruct re|].
    intros m'. reflexivity.
Qed.

Lemma scrape_rows_run sido_code sigungu_code dong_code re doc results w s h :
  let r := ApiCrawler.scrape_rows sido_code sigungu_code dong_code re doc results w s h in
  self_after r = s /\
  only_details (emitted r) /\
  exists new,
    value r = Ok (results ++ new) /\
    List.length new = List.length (List.filter (yields re) (tail (select_table_tr doc))) /\
    forall m, detail_requests m (emitted r) = records_with m new.
Proof.
  unfold ApiCrawler.scrape_rows.
  generalize (tail (select_table_tr doc)) as trs.
  intros trs. revert results s h.
  induction trs as [|row trs IH]; intros results s h.
  - simpl. repeat split; [constructor|]. exists []. rewrite app_nil_r. by repeat split.
  - simpl for_each. rewrite value_bind, emitted_bind, self_after_bind.
    destruct (scrape_row_run sido_code sigungu_code dong_code re results row w s h)
      as (Hs & Hd & new1 & Hv & Hl & Hc).
    rewrite Hv, Hs.
    destruct (IH (results ++ new1) s
                (h ++ emitted (ApiCrawler.scrape_row sido_code sigungu_code dong_code
                                 re results row w s h)))
      as (Hs2 & Hd2 & new2 & Hv2 & Hl2 & Hc2).
    split; [done|]. split; [by apply only_details_app|].
    exists (new1 ++ new2). rewrite Hv2, app_assoc. split; [done|]. split.
    + rewrite length_app, Hl, Hl2. simpl. by destruct (yields re row).
    + intros m. unfold detail_requests in *. rewrite count_app, records_with_app.
      by rewrite Hc, Hc2.
Qed.

Lemma filter_split_length {A} (P : A -> bool) (l : list A) :
  List.length (List.filter P l) + List.length (List.filter (fun x => negb (P x)) l)
  = List.length l.
Proof.
  induction l as [|x l IH]; [done|]. simpl. destruct (P x); simpl; lia.
Qed.

(** C5: parsing is claimed to yield one record for every row, after the
    header, that has at least five columns and its critical fields.  The
    listing page [Sample.one_page] has one such row, the office "Kim
    Office" with its identifier 7, and no link to a last page; the scraper
    returns no record for it and asks for no detail page: the only request
    is that for the page.  The name [re], which the search for the
    identifier uses, is local to the function and bound by an [import re]
    that runs only for a link to the last page. *)
Theorem listed_office_skipped :
  List.filter (fun row => well_formed row && critical_fields_present row)
    (tail (select_table_tr Sample.one_page))
  = [Sample.office_row "7" "Kim Office" "02-111-1111"] /\
  get Sample.single [] (OfficeList 1 1 None None) = Some (Sample.ok Sample.one_page) /\
  ApiCrawler._scrape_office_data_from_html 1 None (Str "") None
    Sample.single ApiCrawler.init []
  = MkRun (Ok []) ApiCrawler.init [Get (OfficeList 1 1 None None)].
Proof. repeat split. Qed.

(** The same page with the link to the last page gives the record. *)
Example listed_office_read :
  List.length
    (match value (ApiCrawler._scrape_office_data_from_html 1 None (Str "") None
                    Sample.linked ApiCrawler.init []) with
     | Ok results => results
     | Raise => []
     end) = 1.
Proof. reflexivity. Qed.

(** A row of five empty cells, without the anchor of the name and without
    the anchor of the phone, is not skipped: it yields a record with empty
    fields, whether [re] is bound or not. *)
Example blank_row_yields_record re :
  let doc := Sample.page_of [] [Sample.head_row; Sample.blank_row] in
  List.filter (fun row => well_formed row && critical_fields_present row)
    (tail (select_table_tr doc)) = [] /\
  value (ApiCrawler.scrape_rows 1 None (Str "") re doc [] Sample.single ApiCrawler.init [])
  = Ok [ {| sido := "서울특별시"; sigungu := ""; dong := ""; location := "";
            office_name := ""; representative := ""; phone := "";
            mobile_phones := ""; address := ""; mem_no := None |} ].
Proof. split; reflexivity. Qed.

(** ** The phones of a detail page *)

(** C6 (as amended): when the detail page of a record is fetched with
    success, the mobile-phone field is made of the text nodes of the page
    that contain a phone-shaped substring, each stripped of surrounding
    white space and taken whole, without repetition and in the order of
    their first occurrence, joined with ", ".  Both the row loop
    ([row_detail]) and the final update loop ([update_detail]) compute it. *)
Theorem mobile_phones_of_detail result m phone resp w s h :
  nonempty (mem_no result) = Some m ->
  get w h (OfficeDetail m) = Some resp ->
  status_code resp = 200 ->
  let nodes := map Text.strip (find_all_text Text.phone_pattern (soup resp)) in
  value (ApiCrawler.update_detail result w s h)
  = Ok (ApiCrawler.with_mobile_phones result (Text.join ", " (first_seen [] nodes))) /\
  (exists p, value (ApiCrawler.row_detail m phone w s h) = Ok (p, first_seen [] nodes)) /\
  NoDup (first_seen [] nodes) /\
  (forall x, x ∈ first_seen [] nodes <-> x ∈ nodes) /\
  (forall (l : list string) x,
     first_seen [] (l ++ [x]) =
     first_seen [] l ++ (if bool_decide (x ∈ l) then [] else [x])).
Proof.
  intros Hm Hget Hst nodes. repeat split.
  - unfold ApiCrawler.update_detail. rewrite Hm.
    unfold try_except, bind, session_get, ret. rewrite Hget. simpl. rewrite Hst. simpl.
    pose proof (collect_phones_first_seen
                  (find_all_text Text.phone_pattern (soup resp)) "" []) as Hc.
    destruct (ApiCrawler.collect_phones _ _ _) as [p l]. simpl in *. by rewrite Hc.
  - rewrite row_detail_run, Hget, Hst. simpl.
    pose proof (collect_phones_first_seen
                  (find_all_text Text.phone_pattern (soup resp)) phone []) as Hc.
    destruct (ApiCrawler.collect_phones _ _ _) as [p l]. simpl in *. rewrite Hc. by exists p.
  - apply NoDup_first_seen.
  - rewrite elem_of_first_seen. tauto.
  - rewrite elem_of_first_seen. intros Hx. split; [done|]. apply not_elem_of_nil.
  - apply first_seen_nil_snoc.
Qed.

(** The example of the specification, each number in a text node of its own. *)
Lemma mobile_phones_of_detail_witness :
  value (ApiCrawler.update_detail Sample.kim Sample.single ApiCrawler.init [])
  = Ok (ApiCrawler.with_mobile_phones Sample.kim "02-123-4567, 010-1234-5678").
Proof.
  exact (proj1 (mobile_phones_of_detail Sample.kim "7" ""
                  (Sample.ok Sample.detail_nodes) Sample.single ApiCrawler.init []
                  eq_refl eq_refl eq_refl)).
Defined.

(** C6, the claim as stated fails: a detail page that contains "02-123-4567"
    twice and "010-1234-5678" once, all in one text node, gives that whole
    text node as the field, not the two numbers. *)
Lemma mobile_phones_whole_text_node :
  Sample.detail_line =
    Sample.detail_of ["Tel 02-123-4567 / 02-123-4567 / 010-1234-5678"] /\
  value (ApiCrawler.update_detail Sample.kim Sample.single_line ApiCrawler.init [])
  = Ok (ApiCrawler.with_mobile_phones Sample.kim
          "Tel 02-123-4567 / 02-123-4567 / 010-1234-5678") /\
  value (ApiCrawler.update_detail Sample.kim Sample.single_line ApiCrawler.init [])
  <> Ok (ApiCrawler.with_mobile_phones Sample.kim "02-123-4567, 010-1234-5678").
Proof. repeat split. discriminate. Qed.

(** ** The walk over the pages *)

(** ** The exporter *)

Lemma first_seen_map {A B} `{EqDecision A} `{EqDecision B} (f : A -> B)
    (seen l : list A) :
  (forall x y, f x = f y -> x = y) ->
  first_seen (map f seen) (map f l) = map f (first_seen seen l).
Proof.
  intros Hinj. revert seen. induction l as [|x l IH]; intros seen; simpl; [done|].
  rewrite (bool_decide_ext (f x ∈ map f seen) (x ∈ seen)).
  - destruct (bool_decide (x ∈ seen)); [apply IH|]. simpl. f_equal. apply (IH (x :: seen)).
  - rewrite !list_elem_of_In, in_map_iff. split.
    + intros (y & Hy & Hin). by rewrite <- (Hinj _ _ Hy).
    + intros Hin. by exists x.
Qed.

(** Two records are the same row of the data frame exactly when all their
    fields are equal. *)
Lemma values_inj r r' : DataExporter.values r = DataExporter.values r' -> r = r'.
Proof. destruct r, r'. unfold DataExporter.values. simpl. intros [=]. by subst. Qed.

Lemma clean_data_rows data :
  DataExporter.rows (DataExporter.clean_data data)
  = map (fun r => map Some (exported r)) (first_seen [] data).
Proof.
  destruct data as [|r0 data]; [done|].
  unfold DataExporter.clean_data, DataExporter.frame_of, DataExporter.drop_duplicates,
    DataExporter.fillna, DataExporter.select.
  cbn [DataExporter.rows DataExporter.columns].
  change (@nil (list (option string))) with (map DataExporter.values []).
  rewrite first_seen_map by apply values_inj.
  rewrite !List.map_map.
  apply List.map_ext. intros r. destruct r. reflexivity.
Qed.

Lemma clean_data_columns data :
  data <> [] ->
  DataExporter.columns (DataExporter.clean_data data) = DataExporter.export_columns.
Proof. destruct data; [done|]. intros _. reflexivity. Qed.

(** What [export_to_csv] writes: nothing, or one file whose lines are the
    cleaned rows. *)
Lemma export_to_csv_written default_directory data filename directory w s h :
  let r := DataExporter.export_to_csv default_directory data filename directory w s h in
  written (emitted r) = [] \/
  exists f,
    written (emitted r) = [f] /\
    header f = DataExporter.columns (DataExporter.clean_data data) /\
    lines f = map (map (default "")) (DataExporter.rows (DataExporter.clean_data data)).
Proof.
  unfold DataExporter.export_to_csv, try_except.
  destruct (DataExporter.empty (DataExporter.clean_data data)); [by left|].
  unfold bind, DataExporter.os_makedirs, DataExporter.df_to_csv,
    DataExporter.now_strftime, ret.
  destruct (makedirs w h _); simpl; [|by left].
  destruct (nonempty filename) as [fn|]; simpl.
  - destruct (to_csv w _ _); simpl; right; eauto.
  - destruct (to_csv w _ _); simpl; right; eauto.
Qed.

(** When the file system does not fail and there is a record, the file is
    written. *)
Lemma export_to_csv_writes default_directory data filename directory w s h :
  data <> [] ->
  (forall h' d, makedirs w h' d = true) ->
  (forall h' f, to_csv w h' f = true) ->
  let r := DataExporter.export_to_csv default_directory data filename directory w s h in
  exists f p, written (emitted r) = [f] /\ value r = Ok (Some p) /\ file_path f = p.
Proof.
  intros Hdata Hmk Hcsv.
  unfold DataExporter.export_to_csv, try_except.
  assert (DataExporter.empty (DataExporter.clean_data data) = false) as ->.
  { unfold DataExporter.empty. rewrite clean_data_columns, clean_data_rows by done.
    destruct data as [|r0 data]; [done|]. reflexivity. }
  unfold bind, DataExporter.os_makedirs, DataExporter.df_to_csv,
    DataExporter.now_strftime, ret.
  rewrite Hmk. simpl.
  destruct (nonempty filename) as [fn|]; simpl.
  - rewrite Hcsv. simpl. eauto.
  - rewrite Hcsv. simpl. eauto.
Qed.

Lemma map_default_Some (l : list string) : map (default "") (map Some l) = l.
Proof. induction l as [|x l IH]; [done|]. simpl. by rewrite IH. Qed.

(** C9: the export removes exactly the records all of whose fields are
    equal to those of a record before them, and keeps the others: the lines
    of the file are the records in the order of their first occurrence, each
    once; a record put after [data] is dropped when it occurs in [data] and
    kept, at the end, otherwise; two records are the same exactly when their
    ten fields are equal; and two identical records with one that differs
    from them give two lines, wherever the latter stands. *)
Theorem export_drops_exact_duplicates default_directory data filename directory
    w s h (r r' : OfficeData) :
  (forall f,
     f ∈ written (emitted (DataExporter.export_to_csv default_directory data
                             filename directory w s h)) ->
     lines f = map exported (first_seen [] data)) /\
  NoDup (first_seen [] data) /\
  (forall x, x ∈ first_seen [] data <-> x ∈ data) /\
  first_seen [] (data ++ [r]) =
    first_seen [] data ++ (if bool_decide (r ∈ data) then [] else [r]) /\
  (r = r' <->
   sido r = sido r' /\ sigungu r = sigungu r' /\ dong r = dong r' /\
   location r = location r' /\ office_name r = office_name r' /\
   representative r = representative r' /\ phone r = phone r' /\
   mobile_phones r = mobile_phones r' /\ address r = address r' /\
   mem_no r = mem_no r') /\
  (r <> r' ->
   DataExporter.len (DataExporter.clean_data [r; r; r']) = 2 /\
   DataExporter.len (DataExporter.clean_data [r; r'; r]) = 2 /\
   DataExporter.len (DataExporter.clean_data [r'; r; r]) = 2 /\
   ((forall h' d, makedirs w h' d = true) ->
    (forall h' f, to_csv w h' f = true) ->
    exists f,
      written (emitted (DataExporter.export_to_csv default_directory [r; r; r']
                          filename directory w s h)) = [f] /\
      lines f = [exported r; exported r'])).
Proof.
  split; [|split; [|split; [|split; [|split]]]].
  - intros f Hf.
    destruct (export_to_csv_written default_directory data filename directory w s h)
      as [Hnil|(f' & Hw & _ & Hl)].
    + rewrite Hnil in Hf. by apply elem_of_nil in Hf.
    + rewrite Hw in Hf. apply list_elem_of_singleton in Hf. subst f'.
      rewrite Hl, clean_data_rows, List.map_map.
      apply List.map_ext. intros x. apply map_default_Some.
  - apply NoDup_first_seen.
  - intros x. rewrite elem_of_first_seen. split; [tauto|].
    intros Hx. split; [done|]. apply not_elem_of_nil.
  - apply first_seen_nil_snoc.
  - split; [by intros ->|]. destruct r, r'. simpl.
    intros (-> & -> & -> & -> & -> & -> & -> & -> & -> & ->). reflexivity.
  - intros Hne.
    assert (Hrows : first_seen [] [r; r; r'] = [r; r']).
    { simpl.
      rewrite (bool_decide_eq_true_2 (r ∈ [r])) by set_solver.
      by rewrite (bool_decide_eq_false_2 (r' ∈ [r]))
        by (rewrite list_elem_of_singleton; congruence). }
    unfold DataExporter.len. rewrite !clean_data_rows, !length_map.
    repeat split.
    + by rewrite Hrows.
    + simpl.
      rewrite (bool_decide_eq_false_2 (r' ∈ [r]))
        by (rewrite list_elem_of_singleton; congruence).
      by rewrite (bool_decide_eq_true_2 (r ∈ [r'; r])) by set_solver.
    + simpl.
      rewrite (bool_decide_eq_false_2 (r ∈ [r']))
        by (rewrite list_elem_of_singleton; congruence).
      by rewrite (bool_decide_eq_true_2 (r ∈ [r; r'])) by set_solver.
    + intros Hmk Hcsv.
      destruct (export_to_csv_writes default_directory [r; r; r'] filename directory
                  w s h ltac:(done) Hmk Hcsv) as (f & p & Hw & _ & _).
      exists f. split; [done|].
      destruct (export_to_csv_written default_directory [r; r; r'] filename directory
                  w s h) as [Hnil|(f' & Hw' & _ & Hl)]; [congruence|].
      rewrite Hw in Hw'. injection Hw' as <-.
      rewrite Hl, clean_data_rows, Hrows. reflexivity.
Qed.

Lemma export_drops_exact_duplicates_witness :
  Sample.kim <> Sample.lee /\
  exists f,
    written (emitted (DataExporter.export_to_csv "/out"
                        [Sample.kim; Sample.kim; Sample.lee] (Some "offices") None
                        Sample.single ApiCrawler.init [])) = [f] /\
    lines f = [exported Sample.kim; exported Sample.lee].
Proof.
  assert (Hne : Sample.kim <> Sample.lee) by discriminate.
  split; [exact Hne|].
  apply (proj2 (proj2 (proj2 (proj2 (proj2
           (export_drops_exact_duplicates "/out" [] (Some "offices") None
              Sample.single ApiCrawler.init [] Sample.kim Sample.lee))))) Hne);
    reflexivity.
Defined.

(** ** The walk over the pages *)

Lemma call_progress_run progress_callback current_page total_pages count w s h :
  call_progress progress_callback current_page total_pages count w s h =
  MkRun (if callback_ok progress_callback h current_page total_pages count
         then Ok tt else Raise)
        s (announced progress_callback current_page total_pages count).
Proof. unfold call_progress, callback_ok, announced. by destruct progress_callback. Qed.

Lemma progress_pages_app l1 l2 :
  progress_pages (l1 ++ l2) = progress_pages l1 ++ progress_pages l2.
Proof. apply omap_app. Qed.

Lemma page_requests_app p l1 l2 :
  page_requests p (l1 ++ l2) = page_requests p l1 + page_requests p l2.
Proof. apply count_app. Qed.

Lemma detail_requests_app m l1 l2 :
  detail_requests m (l1 ++ l2) = detail_requests m l1 + detail_requests m l2.
Proof. apply count_app. Qed.

Lemma only_details_pages p evs : only_details evs -> page_requests p evs = 0.
Proof. apply only_details_count. by intros [[]| | |]. Qed.

Lemma fetch_page_run sido_code sigungu_code dong_code response current_page w s h :
  let r := ApiCrawler.fetch_page sido_code sigungu_code dong_code response
             current_page w s h in
  self_after r = s /\
  emitted r =
    (if 1 <? current_page
     then [Get (ApiCrawler.office_list current_page sido_code sigungu_code dong_code)]
     else []) /\
  (current_page = 1 -> value r = Ok (Some (soup response))).
Proof.
  unfold ApiCrawler.fetch_page.
  destruct (Nat.ltb_spec 1 current_page) as [Hlt|Hle].
  - unfold bind, session_get, ret. destruct (get w h _) as [resp|]; simpl.
    + destruct (status_code resp =? 200); simpl; repeat split; intros; lia.
    + repeat split; intros; lia.
  - by repeat split.
Qed.

(** A turn after the call of the callback: a request of the page from page
    2 on, then the detail requests of the rows. *)
Lemma read_page_run sido_code sigungu_code dong_code response
    current_page total_pages results w s h :
  let r := ApiCrawler.read_page sido_code sigungu_code dong_code response
             current_page total_pages results w s h in
  self_after r = s /\
  progress_pages (emitted r) = [] /\
  page_requests 1 (emitted r) = 0 /\
  page_requests current_page (emitted r) = (if 1 <? current_page then 1 else 0) /\
  match value r with
  | Ok (Some (total_pages', results')) =>
      (current_page <> 1 -> total_pages' = total_pages) /\
      (current_page = 1 ->
       total_pages' =
         ApiCrawler.first_page_total (select_pagination (soup response)) total_pages) /\
      exists new,
        results' = results ++ new /\
        forall m, detail_requests m (emitted r) = records_with m new
  | Ok None => forall m, detail_requests m (emitted r) = 0
  | Raise => True
  end.
Proof.
  unfold ApiCrawler.read_page.
  destruct (fetch_page_run sido_code sigungu_code dong_code response current_page w s h)
    as (Hs & He & Hv).
  rewrite value_bind, emitted_bind, self_after_bind. rewrite Hs, He.
  set (req := if 1 <? current_page
              then [Get (ApiCrawler.office_list current_page sido_code sigungu_code
                           dong_code)]
              else []).
  assert (Hreq : progress_pages req = [] /\ page_requests 1 req = 0 /\
                 page_requests current_page req = (if 1 <? current_page then 1 else 0) /\
                 forall m, detail_requests m req = 0).
  { unfold req. destruct (Nat.ltb_spec 1 current_page) as [Hlt|Hle]; [|done].
    unfold page_requests, detail_requests, count. simpl.
    rewrite Nat.eqb_refl. destruct (Nat.eqb_spec current_page 1); [lia|done]. }
  destruct Hreq as (Hp & H1 & Hc & Hd).
  destruct (value (ApiCrawler.fetch_page _ _ _ _ _ _ _ _)) as [[doc|]|] eqn:Hfetch.
  - destruct (scrape_rows_run sido_code sigungu_code dong_code
                (ApiCrawler.imports_re (select_pagination (soup response)))
                doc results w s (h ++ req))
      as (Hs' & Ho & new & Hv' & _ & Hc').
    rewrite value_bind, emitted_bind, self_after_bind, Hv', Hs'. simpl.
    rewrite app_nil_r, progress_pages_app, !page_requests_app, Hp, H1, Hc.
    rewrite only_details_progress, !only_details_pages by done.
    repeat split; try lia.
    + intros Hne. by destruct (Nat.eqb_spec current_page 1).
    + intros Heq. specialize (Hv Heq). rewrite ?Hfetch in Hv.
      injection Hv as ->. by rewrite Heq.
    + exists new. split; [done|]. intros m. by rewrite detail_requests_app, Hd, Hc'.
  - simpl. rewrite app_nil_r. repeat split; done.
  - rewrite app_nil_r. by repeat split.
Qed.

Lemma scrape_page_run sido_code sigungu_code dong_code progress_callback response
    current_page total_pages results w s h :
  ApiCrawler.scrape_page sido_code sigungu_code dong_code progress_callback response
    current_page total_pages results w s h =
  let ann := announced progress_callback current_page total_pages (List.length results) in
  if callback_ok progress_callback h current_page total_pages (List.length results) then
    let r := ApiCrawler.read_page sido_code sigungu_code dong_code response
               current_page total_pages results w s (h ++ ann) in
    MkRun (value r) (self_after r) (ann ++ emitted r)
  else MkRun Raise s ann.
Proof.
  unfold ApiCrawler.scrape_page, bind. rewrite call_progress_run. simpl.
  by destruct (callback_ok _ _ _ _ _).
Qed.

(** *** Calls of the callback that raise *)

Lemma raised_app progress_callback h l1 l2 :
  raised progress_callback h (l1 ++ l2) ->
  raised progress_callback h l1 \/ raised progress_callback (h ++ l1) l2.
Proof.
  intros (cb & pre & c & t & n & post & Hcb & Heq & Hf).
  apply app_eq_inv in Heq as [(k & H1 & H2)|(k & H1 & H2)].
  - destruct k as [|e k].
    + right. rewrite app_nil_r in H1. subst l1. simpl in H2. subst l2.
      exists cb, [], c, t, n, post. rewrite app_nil_r. by repeat split.
    + left. injection H2 as <- ->. subst l1.
      exists cb, pre, c, t, n, k. by repeat split.
  - right. subst pre l2. exists cb, k, c, t, n, post.
    rewrite <- app_assoc. by repeat split.
Qed.

Lemma raised_no_progress progress_callback h evs :
  progress_pages evs = [] -> ~ raised progress_callback h evs.
Proof.
  intros Hp (cb & pre & c & t & n & post & _ & -> & _).
  rewrite progress_pages_app in Hp. simpl in Hp.
  by destruct (progress_pages pre).
Qed.

Lemma raised_announced progress_callback h current_page total_pages count :
  raised progress_callback h (announced progress_callback current_page total_pages count) ->
  callback_ok progress_callback h current_page total_pages count = false.
Proof.
  intros (cb & pre & c & t & n & post & -> & Heq & Hf). simpl in *.
  destruct pre as [|e pre].
  - injection Heq as <- <- <-. by rewrite app_nil_r in Hf.
  - injection Heq as _ Heq. by destruct pre.
Qed.

Lemma raised_nil progress_callback h : ~ raised progress_callback h [].
Proof. by apply raised_no_progress. Qed.

Lemma progress_pages_announced progress_callback current_page total_pages count :
  progress_pages (announced progress_callback current_page total_pages count) =
  match progress_callback with Some _ => [current_page] | None => [] end.
Proof. by destruct progress_callback. Qed.

Lemma count_announced P progress_callback current_page total_pages n :
  P (Progress current_page total_pages n) = false ->
  count P (announced progress_callback current_page total_pages n) = 0.
Proof. intros HP. destruct progress_callback; [|done]. unfold count. simpl. by rewrite HP. Qed.

(** The turns from page 2 on. *)
Lemma scrape_pages_run sido_code sigungu_code dong_code progress_callback response n :
  forall current_page total_pages results w s h,
  2 <= current_page ->
  let r := ApiCrawler.scrape_pages n sido_code sigungu_code dong_code progress_callback
             response current_page total_pages results w s h in
  self_after r = s /\
  page_requests 1 (emitted r) = 0 /\
  (exists j, j <= n /\
     progress_pages (emitted r) =
     match progress_callback with Some _ => seq current_page j | None => [] end) /\
  (raised progress_callback h (emitted r) -> value r = Raise) /\
  (forall results', value r = Ok results' ->
     exists new, results' = results ++ new /\
       forall m, detail_requests m (emitted r) = records_with m new).
Proof.
  induction n as [|n IH]; intros current_page total_pages results w s h Hcur.
  - simpl. repeat split; [| |].
    + exists 0. split; [lia|]. by destruct progress_callback.
    + intros Hr. by apply raised_nil in Hr.
    + intros results' [= <-]. exists []. by rewrite app_nil_r.
  - cbn [ApiCrawler.scrape_pages]. unfold bind. rewrite scrape_page_run. cbv zeta.
    set (ann := announced progress_callback current_page total_pages (List.length results)).
    assert (Hann1 : page_requests 1 ann = 0) by (by apply count_announced).
    assert (Hannd : forall m, detail_requests m ann = 0)
      by (intros m; by apply count_announced).
    assert (Hannp : progress_pages ann =
                    match progress_callback with Some _ => [current_page] | None => [] end)
      by apply progress_pages_announced.
    destruct (callback_ok progress_callback h current_page total_pages
                (List.length results)) eqn:Hok.
    + cbn [value self_after emitted].
      destruct (read_page_run sido_code sigungu_code dong_code response
                  current_page total_pages results w s (h ++ ann))
        as (Hs & Hp & H1 & _ & Hv).
      set (rr := ApiCrawler.read_page sido_code sigungu_code dong_code response
                   current_page total_pages results w s (h ++ ann)) in *.
      assert (Hnot : ~ raised progress_callback h (ann ++ emitted rr)).
      { intros [Hr|Hr]%raised_app.
        - apply raised_announced in Hr. congruence.
        - by apply raised_no_progress in Hr. }
      destruct (value rr) as [[[total_pages' results']|]|] eqn:Hval.
      * destruct Hv as (_ & _ & new & -> & Hd).
        destruct (IH (S current_page) total_pages' (results ++ new) w (self_after rr)
                    (h ++ ann ++ emitted rr) ltac:(lia))
          as (Hs2 & H12 & (j & Hj & Hp2) & Hr2 & Hv2).
        cbn [value self_after emitted].
        split; [by rewrite Hs2|]. split; [|split; [|split]].
        -- rewrite !page_requests_app, Hann1, H1, H12. done.
        -- exists (S j). split; [lia|].
           rewrite !progress_pages_app, Hannp, Hp, Hp2.
           by destruct progress_callback.
        -- intros [Hr|Hr]%raised_app; [done|]. by apply Hr2.
        -- intros results' Hres. destruct (Hv2 results' Hres) as (new2 & -> & Hd2).
           exists (new ++ new2). rewrite app_assoc. split; [done|]. intros m.
           rewrite !detail_requests_app, Hannd, Hd, Hd2, records_with_app. done.
      * cbn [value self_after emitted ret]. rewrite app_nil_r.
        split; [done|]. split; [|split; [|split]].
        -- rewrite page_requests_app, Hann1, H1. done.
        -- exists 1. split; [lia|]. rewrite progress_pages_app, Hannp, Hp.
           by destruct progress_callback.
        -- done.
        -- intros results' [= <-]. exists []. rewrite app_nil_r. split; [done|].
           intros m. rewrite detail_requests_app, Hannd, Hv. done.
      * cbn [value self_after emitted].
        split; [done|]. split; [|split; [|split]].
        -- rewrite page_requests_app, Hann1, H1. done.
        -- exists 1. split; [lia|]. rewrite progress_pages_app, Hannp, Hp.
           by destruct progress_callback.
        -- done.
        -- done.
    + cbn [value self_after emitted].
      split; [done|]. split; [done|]. split; [|split]; [| done | done].
      exists 1. split; [lia|]. rewrite Hannp. by destruct progress_callback.
Qed.

(** The [try] block of the scraper: the request of page 1, the turn of page
    1, then the turns from page 2 on. *)
Lemma scrape_body_run sido_code sigungu_code dong_code progress_callback w s h :
  let r := ApiCrawler.scrape_body sido_code sigungu_code dong_code progress_callback
             w s h in
  self_after r = s /\
  page_requests 1 (emitted r) = 1 /\
  (exists rest,
     emitted r = Get (ApiCrawler.office_list 1 sido_code sigungu_code dong_code) :: rest /\
     (rest = [] \/ exists rest', rest = announced progress_callback 1 1 0 ++ rest')) /\
  (exists j,
     progress_pages (emitted r) =
     match progress_callback with Some _ => seq 1 j | None => [] end) /\
  (raised progress_callback h (emitted r) -> value r = Raise) /\
  (forall results, value r = Ok results ->
     forall m, detail_requests m (emitted r) = records_with m results).
Proof.
  unfold ApiCrawler.scrape_body. rewrite bind_eq. unfold session_get.
  set (req := Get (ApiCrawler.office_list 1 sido_code sigungu_code dong_code)).
  assert (Hreq1 : page_requests 1 [req] = 1) by reflexivity.
  assert (Hreqd : forall m, detail_requests m [req] = 0) by reflexivity.
  assert (Hreqr : forall evs, raised progress_callback h ([req] ++ evs) ->
                              raised progress_callback (h ++ [req]) evs).
  { intros evs [Hr|Hr]%raised_app; [|done]. by apply raised_no_progress in Hr. }
  destruct (get w h _) as [response|]; cbv zeta; cbn [value self_after emitted].
  2:{ split; [done|]. split; [done|]. split; [exists []; by split; [|left]|].
      split; [exists 0; by destruct progress_callback|]. split; [|done].
      intros Hr. apply (raised_no_progress _ _ [req]) in Hr; done. }
  destruct (status_code response =? 200); cbn [negb].
  2:{ simpl. split; [done|]. split; [done|]. split; [exists []; by split; [|left]|].
      split; [exists 0; by destruct progress_callback|]. split.
      - intros Hr. apply (raised_no_progress _ _ [req]) in Hr; done.
      - by intros results [= <-]. }
  unfold bind. rewrite scrape_page_run. cbv zeta. cbn [List.length].
  set (ann := announced progress_callback 1 1 0).
  assert (Hann1 : page_requests 1 ann = 0) by (by apply count_announced).
  assert (Hannd : forall m, detail_requests m ann = 0)
    by (intros m; by apply count_announced).
  assert (Hannp : progress_pages ann =
                  match progress_callback with Some _ => [1] | None => [] end)
    by apply progress_pages_announced.
  destruct (callback_ok progress_callback (h ++ [req]) 1 1 0) eqn:Hok.
  2:{ cbn [value self_after emitted].
      split; [done|]. split; [by rewrite page_requests_app, Hreq1, Hann1|].
      split; [exists ann; split; [done|right; exists []; by rewrite app_nil_r]|].
      split; [exists 1; simpl; rewrite Hannp; by destruct progress_callback|].
      by split. }
  cbn [value self_after emitted].
  destruct (read_page_run sido_code sigungu_code dong_code response 1 1 []
              w s ((h ++ [req]) ++ ann)) as (Hs & Hp & H1 & _ & Hv).
  set (rr := ApiCrawler.read_page sido_code sigungu_code dong_code response 1 1 []
               w s ((h ++ [req]) ++ ann)) in *.
  assert (Hnot : ~ raised progress_callback (h ++ [req]) (ann ++ emitted rr)).
  { intros [Hr|Hr]%raised_app.
    - apply raised_announced in Hr. congruence.
    - by apply raised_no_progress in Hr. }
  destruct (value rr) as [[[total_pages results]|]|] eqn:Hval.
  - destruct Hv as (_ & _ & new & -> & Hd).
    destruct (scrape_pages_run sido_code sigungu_code dong_code progress_callback
                response (total_pages - 1) 2 total_pages ([] ++ new) w (self_after rr)
                ((h ++ [req]) ++ ann ++ emitted rr) ltac:(lia))
      as (Hs2 & H12 & (j & Hj & Hp2) & Hr2 & Hv2).
    cbn [value self_after emitted].
    split; [by rewrite Hs2|]. split; [|split; [|split; [|split]]].
    + rewrite !page_requests_app, Hreq1, Hann1, H1, H12. done.
    + eexists. split; [reflexivity|]. right. eexists.
      first [reflexivity | rewrite <- app_assoc; reflexivity].
    + exists (S j). rewrite !progress_pages_app, Hannp, Hp, Hp2. simpl.
      by destruct progress_callback.
    + intros Hr. apply (Hreqr (_ ++ _)) in Hr.
      apply raised_app in Hr as [Hr|Hr]; [done|]. by apply Hr2.
    + intros results' Hres m. destruct (Hv2 results' Hres) as (new2 & -> & Hd2).
      rewrite !detail_requests_app, Hreqd, Hannd, Hd, Hd2, !records_with_app. done.
  - cbn [value self_after emitted ret]. rewrite app_nil_r.
    split; [done|]. split; [|split; [|split; [|split]]].
    + rewrite !page_requests_app, Hreq1, Hann1, H1. done.
    + eexists. split; [reflexivity|]. right. eexists.
      first [reflexivity | rewrite <- app_assoc; reflexivity].
    + exists 1. rewrite !progress_pages_app, Hannp, Hp. simpl. by destruct progress_callback.
    + intros Hr. by apply (Hreqr (_ ++ _)) in Hr.
    + intros results' [= <-] m. rewrite !detail_requests_app, Hreqd, Hannd, Hv. done.
  - cbn [value self_after emitted].
    split; [done|]. split; [|split; [|split; [|split]]].
    + rewrite !page_requests_app, Hreq1, Hann1, H1. done.
    + eexists. split; [reflexivity|]. right. eexists.
      first [reflexivity | rewrite <- app_assoc; reflexivity].
    + exists 1. rewrite !progress_pages_app, Hannp, Hp. simpl. by destruct progress_callback.
    + done.
    + done.
Qed.

Lemma _scrape_run sido_code sigungu_code dong_code progress_callback w s h :
  let body := ApiCrawler.scrape_body sido_code sigungu_code dong_code progress_callback
                w s h in
  ApiCrawler._scrape_office_data_from_html sido_code sigungu_code dong_code
    progress_callback w s h =
  MkRun (match value body with Ok results => Ok results | Raise => Ok [] end)
        s (emitted body).
Proof.
  intros body. unfold ApiCrawler._scrape_office_data_from_html, try_except.
  fold body.
  destruct (scrape_body_run sido_code sigungu_code dong_code progress_callback w s h)
    as (Hs & _). fold body in Hs.
  destruct body as [[results|] s' evs]; simpl in *; subst s'; [done|].
  by rewrite app_nil_r.
Qed.

(** What the callers of the scraper use of a run of it. *)
Lemma scraper_run_facts sido_code sigungu_code dong_code progress_callback w s h :
  let r := ApiCrawler._scrape_office_data_from_html sido_code sigungu_code dong_code
             progress_callback w s h in
  self_after r = s /\
  (exists results, value r = Ok results) /\
  page_requests 1 (emitted r) = 1 /\
  (raised progress_callback h (emitted r) -> value r = Ok []) /\
  (forall results, value r = Ok results -> results <> [] ->
   forall m, detail_requests m (emitted r) = records_with m results).
Proof.
  rewrite _scrape_run. cbn [value self_after emitted].
  destruct (scrape_body_run sido_code sigungu_code dong_code progress_callback w s h)
    as (_ & H1 & _ & _ & Hraise & Hd).
  split; [done|]. split; [destruct (value _); eauto|]. split; [done|]. split.
  - intros Hr. by rewrite (Hraise Hr).
  - intros results Hv Hne.
    destruct (value (ApiCrawler.scrape_body _ _ _ _ _ _ _)) as [rs|]; [|congruence].
    injection Hv as ->. by apply Hd.
Qed.

(** ** The scraper as a whole *)

(** The scraper asks for page 1 of the listing exactly once, whatever the
    answers and whatever the callback does: the first request of the
    function is the only one; the turns of the loop ask for pages 2, 3, ... *)
Theorem scraper_requests_page_1_once sido_code sigungu_code dong_code
    progress_callback w s h :
  page_requests 1
    (emitted (ApiCrawler._scrape_office_data_from_html sido_code sigungu_code dong_code
                progress_callback w s h)) = 1.
Proof.
  rewrite _scrape_run. cbn [emitted].
  by destruct (scrape_body_run sido_code sigungu_code dong_code progress_callback w s h)
    as (_ & H1 & _).
Qed.

(** The scraper never raises and leaves the attributes of the crawler as
    they are (it is the caller that stores the list). *)
Theorem scraper_returns sido_code sigungu_code dong_code progress_callback w s h :
  let r := ApiCrawler._scrape_office_data_from_html sido_code sigungu_code dong_code
             progress_callback w s h in
  (exists results, value r = Ok results) /\ self_after r = s.
Proof.
  rewrite _scrape_run. cbn [value self_after]. split; [|done].
  destruct (value _); eauto.
Qed.

(** C8 (as amended): a call of the progress callback that raises aborts
    the scraper: the exception reaches the outer handler, and the result is
    the empty list, whatever was gathered before. *)
Theorem scraper_aborted_by_callback sido_code sigungu_code dong_code
    progress_callback w s h :
  let r := ApiCrawler._scrape_office_data_from_html sido_code sigungu_code dong_code
             progress_callback w s h in
  raised progress_callback h (emitted r) -> value r = Ok [].
Proof.
  rewrite _scrape_run. cbn [value emitted]. intros Hr.
  destruct (scrape_body_run sido_code sigungu_code dong_code progress_callback w s h)
    as (_ & _ & _ & _ & Hraise & _).
  by rewrite (Hraise Hr).
Qed.

(** On two pages with one office each, linked to the last page, and a
    callback that raises at page 2,
    the office of page 1, already parsed, is lost. *)
Lemma scraper_aborted_by_callback_witness :
  value (ApiCrawler._scrape_office_data_from_html 1 None (Str "")
           (Some (raises_at 2)) Sample.two_linked ApiCrawler.init []) = Ok [] /\
  List.length
    (List.filter is_detail
       (emitted (ApiCrawler._scrape_office_data_from_html 1 None (Str "")
                   (Some (raises_at 2)) Sample.two_linked ApiCrawler.init []))) = 1.
Proof.
  split; [|reflexivity].
  apply (scraper_aborted_by_callback 1 None (Str "") (Some (raises_at 2))
           Sample.two_linked ApiCrawler.init []).
  exists (raises_at 2),
    [Get (OfficeList 1 1 None None); Progress 1 1 0; Get (OfficeDetail "7")],
    2, 2, 1, [].
  repeat split; reflexivity.
Defined.

(** C8, the claim as stated fails: on two pages with one office each and a
    callback that raises at page 2, the walk stops at that call and the
    result is the empty list, although the office of page 1 was read; with
    a callback that returns, the two offices are returned. *)
Lemma callback_failure_discards_rows :
  ApiCrawler._scrape_office_data_from_html 1 None (Str "")
    (Some (raises_at 2)) Sample.two_linked ApiCrawler.init []
  = MkRun (Ok []) ApiCrawler.init
      [ Get (OfficeList 1 1 None None); Progress 1 1 0; Get (OfficeDetail "7");
        Progress 2 2 1 ] /\
  List.length
    (match value (ApiCrawler._scrape_office_data_from_html 1 None (Str "")
                    (Some Sample.quiet) Sample.two_linked ApiCrawler.init []) with
     | Ok results => results
     | Raise => []
     end) = 2.
Proof. split; reflexivity. Qed.


(** When the scraper returns records, it has asked for the detail page of
    each identifier once for every record that carries it, and for no other
    detail page. *)
Theorem scraper_detail_requests sido_code sigungu_code dong_code progress_callback
    w s h results :
  let r := ApiCrawler._scrape_office_data_from_html sido_code sigungu_code dong_code
             progress_callback w s h in
  value r = Ok results -> results <> [] ->
  forall m, detail_requests m (emitted r) = records_with m results.
Proof.
  rewrite _scrape_run. cbn [value emitted]. intros Hv Hne.
  destruct (scrape_body_run sido_code sigungu_code dong_code progress_callback w s h)
    as (_ & _ & _ & _ & _ & Hd).
  destruct (value (ApiCrawler.scrape_body _ _ _ _ _ _ _)) as [rs|]; [|congruence].
  injection Hv as ->. by apply Hd.
Qed.

Lemma scraper_detail_requests_witness :
  detail_requests "7"
    (emitted (ApiCrawler._scrape_office_data_from_html 1 None (Str "") None
                Sample.two_linked ApiCrawler.init [])) = 1 /\
  detail_requests "8"
    (emitted (ApiCrawler._scrape_office_data_from_html 1 None (Str "") None
                Sample.two_linked ApiCrawler.init [])) = 1.
Proof.
  pose proof (scraper_detail_requests 1 None (Str "") None Sample.two_linked
                ApiCrawler.init [] _ eq_refl ltac:(discriminate)) as H.
  split; [exact (H "7")|exact (H "8")].
Defined.

(** ** The steps of the walk *)

Lemma steps_app evs evs' : steps (evs ++ evs') = steps evs ++ steps evs'.
Proof. unfold steps. apply omap_app. Qed.

Lemma only_details_steps evs : only_details evs -> steps evs = [].
Proof.
  induction 1 as [|e l He _ IH]; [done|].
  destruct e as [[]| | |]; done.
Qed.

Lemma progress_pages_steps evs :
  progress_pages evs
  = omap (fun st => match st with Announced p => Some p | Requested _ => None end)
         (steps evs).
Proof.
  induction evs as [|e evs IH]; [done|].
  destruct e as [[]| | |]; simpl; by rewrite ?IH.
Qed.

Lemma turns_S first k :
  turns first (S k) = [Announced first; Requested first] ++ turns (S first) k.
Proof. reflexivity. Qed.

Lemma turns_announced first k :
  omap (fun st => match st with Announced p => Some p | Requested _ => None end)
       (turns first k) = seq first k.
Proof.
  revert first. induction k as [|k IH]; intros first; [done|].
  rewrite turns_S. simpl. by rewrite IH.
Qed.

Lemma read_page_steps sido_code sigungu_code dong_code response
    current_page total_pages results w s h :
  steps (emitted (ApiCrawler.read_page sido_code sigungu_code dong_code response
                    current_page total_pages results w s h))
  = if 1 <? current_page then [Requested current_page] else [].
Proof.
  unfold ApiCrawler.read_page. rewrite emitted_bind, steps_app.
  destruct (fetch_page_run sido_code sigungu_code dong_code response current_page w s h)
    as (Hs & He & _).
  rewrite He.
  assert (Hreq : steps (if 1 <? current_page
                        then [Get (ApiCrawler.office_list current_page sido_code
                                     sigungu_code dong_code)]
                        else [])
                 = if 1 <? current_page then [Requested current_page] else []).
  { by destruct (1 <? current_page). }
  rewrite Hreq.
  destruct (value (ApiCrawler.fetch_page _ _ _ _ _ _ _ _)) as [[doc|]|];
    [|by rewrite app_nil_r..].
  cbv zeta. rewrite emitted_bind, steps_app.
  match goal with
  | |- context [ApiCrawler.scrape_rows ?a ?b ?c ?d ?e ?f ?g ?h ?i] =>
      destruct (scrape_rows_run a b c d e f g h i) as (_ & Ho & new & Hv & _);
      rewrite Hv, (only_details_steps _ Ho)
  end.
  by rewrite !app_nil_r.
Qed.

Lemma scrape_pages_steps sido_code sigungu_code dong_code cb response n :
  forall current_page total_pages results w s h,
  let r := ApiCrawler.scrape_pages n sido_code sigungu_code dong_code (Some cb)
             response current_page total_pages results w s h in
  2 <= current_page ->
  exists k,
    (k <= n /\ steps (emitted r) = turns current_page k) \/
    (k < n /\
     steps (emitted r) = turns current_page k ++ [Announced (current_page + k)] /\
     value r = Raise).
Proof.
  induction n as [|n IH]; intros current_page total_pages results w s h r Hcur;
    unfold r; clear r.
  - exists 0. left. by split.
  - cbn [ApiCrawler.scrape_pages]. rewrite bind_eq, scrape_page_run. cbv zeta.
    unfold callback_ok, announced.
    destruct (cb h current_page total_pages (List.length results)) eqn:Hok.
    + pose proof (read_page_steps sido_code sigungu_code dong_code response current_page
                    total_pages results w s
                    (h ++ [Progress current_page total_pages (List.length results)]))
        as Hst.
      destruct (Nat.ltb_spec 1 current_page) as [_|Hle]; [|lia].
      destruct (ApiCrawler.read_page _ _ _ _ _ _ _ _ _ _) as [[[[tp rs]|]|] s1 e1];
        cbn [value self_after emitted] in *.
      * destruct (IH (S current_page) tp rs w s1
                    (h ++ [Progress current_page total_pages (List.length results)]
                       ++ e1)
                    ltac:(lia)) as [k [[Hk Hsteps]|(Hk & Hsteps & Hv)]].
        -- exists (S k). left. split; [lia|].
           cbn [value self_after emitted].
           rewrite !steps_app, Hst, Hsteps. reflexivity.
        -- exists (S k). right. split; [lia|].
           cbn [value self_after emitted].
           rewrite !steps_app, Hst, Hsteps, Hv.
           split; [|done]. rewrite turns_S, <- !app_assoc.
           by replace (current_page + S k) with (S current_page + k) by lia.
      * exists 1. left. split; [lia|].
        cbn [value self_after emitted ret]. rewrite app_nil_r.
        rewrite !steps_app, Hst. reflexivity.
      * exists 1. left. split; [lia|].
        cbn [value self_after emitted].
        rewrite !steps_app, Hst. reflexivity.
    + exists 0. right. split; [lia|]. cbn [value self_after emitted].
      rewrite Nat.add_0_r. by split.
Qed.

(** With a progress callback, the walk of the scraper is this.  The first
    request is that for page 1.  When it fails, or its status is not 200,
    nothing follows.  Otherwise the callback is called at once with
    (1, 1, 0), and then every page from 2 on is announced to the callback
    before it is requested: the steps are the request of page 1, the
    announcement of page 1 and whole turns for the pages 2 to k + 1, all
    within the page count read from page 1; or, when the callback raises
    at a page, the same with the announcement of that page as the last
    step, and the empty list as the result.  The pages announced are so 1,
    2, 3, ... without gap or repetition, as far as the walk goes. *)
Theorem scraper_progress_order sido_code sigungu_code dong_code cb w s h :
  let req := ApiCrawler.office_list 1 sido_code sigungu_code dong_code in
  let r := ApiCrawler._scrape_office_data_from_html sido_code sigungu_code dong_code
             (Some cb) w s h in
  match get w h req with
  | Some response =>
      if status_code response =? 200 then
        let total_pages :=
          ApiCrawler.first_page_total (select_pagination (soup response)) 1 in
        exists rest k,
          emitted r = Get req :: Progress 1 1 0 :: rest /\
          ((steps (emitted r) = Requested 1 :: Announced 1 :: turns 2 k /\
            progress_pages (emitted r) = seq 1 (S k) /\
            k < max 1 total_pages) \/
           (steps (emitted r)
            = Requested 1 :: Announced 1 :: turns 2 k ++ [Announced (k + 2)] /\
            progress_pages (emitted r) = seq 1 (k + 2) /\
            k + 2 <= total_pages /\
            value r = Ok []))
      else emitted r = [Get req]
  | None => emitted r = [Get req]
  end.
Proof.
  intros req r. unfold r. rewrite _scrape_run. cbn [value emitted].
  unfold ApiCrawler.scrape_body. rewrite bind_eq. unfold session_get. fold req.
  destruct (get w h req) as [response|]; [|reflexivity].
  cbv beta iota.
  destruct (status_code response =? 200); cbn [negb]; [|by rewrite app_nil_r].
  cbv zeta. rewrite bind_eq, scrape_page_run. cbv zeta. cbn [List.length].
  unfold callback_ok, announced.
  destruct (cb (h ++ [Get req]) 1 1 0) eqn:Hok.
  2:{ cbn [value self_after emitted app].
      exists [], 0. split; [done|]. left. split; [done|]. split; [done|lia]. }
  pose proof (read_page_steps sido_code sigungu_code dong_code response 1 1 []
                w s ((h ++ [Get req]) ++ [Progress 1 1 0])) as Hst.
  destruct (read_page_run sido_code sigungu_code dong_code response 1 1 []
              w s ((h ++ [Get req]) ++ [Progress 1 1 0])) as (_ & _ & _ & _ & Hv).
  cbn [Nat.ltb Nat.leb] in Hst.
  destruct (ApiCrawler.read_page _ _ _ _ _ _ _ _ _ _) as [[[[tp rs]|]|] s1 e1];
    cbn [value self_after emitted app] in *.
  - destruct Hv as (_ & Htp & _). specialize (Htp eq_refl). subst tp.
    set (tp := ApiCrawler.first_page_total (select_pagination (soup response)) 1).
    destruct (scrape_pages_steps sido_code sigungu_code dong_code cb response (tp - 1)
                2 tp rs w s1 ((h ++ [Get req]) ++ Progress 1 1 0 :: e1) ltac:(lia))
      as [k [[Hk Hsteps]|(Hk & Hsteps & Hval)]].
    + set (evs := emitted (ApiCrawler.scrape_pages _ _ _ _ _ _ _ _ _ _ _ _)) in *.
      exists (e1 ++ evs), k. split; [reflexivity|]. left.
      assert (Hall : steps (Get req :: Progress 1 1 0 :: e1 ++ evs)
                     = Requested 1 :: Announced 1 :: turns 2 k).
      { change (steps ([Get req; Progress 1 1 0] ++ e1 ++ evs)
                = Requested 1 :: Announced 1 :: turns 2 k).
        rewrite !steps_app, Hst, Hsteps. reflexivity. }
      split; [done|]. split; [|lia].
      rewrite progress_pages_steps, Hall. simpl. by rewrite turns_announced.
    + rewrite Hval.
      set (evs := emitted (ApiCrawler.scrape_pages _ _ _ _ _ _ _ _ _ _ _ _)) in *.
      exists (e1 ++ evs), k. split; [reflexivity|]. right.
      assert (Hall : steps (Get req :: Progress 1 1 0 :: e1 ++ evs)
                     = Requested 1 :: Announced 1 :: turns 2 k ++ [Announced (k + 2)]).
      { change (steps ([Get req; Progress 1 1 0] ++ e1 ++ evs)
                = Requested 1 :: Announced 1 :: turns 2 k ++ [Announced (k + 2)]).
        rewrite !steps_app, Hst, Hsteps.
        by replace (2 + k) with (k + 2) by lia. }
      split; [done|]. split; [|split; [lia|done]].
      rewrite progress_pages_steps, Hall. simpl.
      rewrite omap_app, turns_announced. simpl.
      replace (k + 2) with (S (S k)) by lia. simpl. f_equal.
      exact (eq_sym (seq_S k 2)).
  - exists e1, 0. split; [by rewrite app_nil_r|]. left. cbn [ret emitted].
    rewrite !app_nil_r.
    assert (Hall : steps (Get req :: Progress 1 1 0 :: e1)
                   = Requested 1 :: Announced 1 :: turns 2 0).
    { change (steps ([Get req; Progress 1 1 0] ++ e1)
              = Requested 1 :: Announced 1 :: turns 2 0).
      by rewrite steps_app, Hst. }
    split; [done|]. split; [|lia]. by rewrite progress_pages_steps, Hall.
  - exists e1, 0. split; [reflexivity|]. left.
    assert (Hall : steps (Get req :: Progress 1 1 0 :: e1)
                   = Requested 1 :: Announced 1 :: turns 2 0).
    { change (steps ([Get req; Progress 1 1 0] ++ e1)
              = Requested 1 :: Announced 1 :: turns 2 0).
      by rewrite steps_app, Hst. }
    split; [done|]. split; [|lia]. by rewrite progress_pages_steps, Hall.
Qed.




(** ** The search *)

Lemma get_total_pages_run sido_code sigungu_code dong_code w s h :
  exists n,
    ApiCrawler.get_total_pages sido_code sigungu_code dong_code w s h =
    MkRun (Ok n) s [Get (ApiCrawler.office_list 1 sido_code sigungu_code dong_code)].
Proof.
  unfold ApiCrawler.get_total_pages, try_except, bind, session_get, ret.
  destruct (get w h _) as [resp|]; simpl; [|by eexists].
  destruct (status_code resp =? 200); simpl; [|by eexists].
  destruct (ApiCrawler.read_total_pages _); simpl; by eexists.
Qed.

Lemma update_detail_same result w s h :
  forall result', value (ApiCrawler.update_detail result w s h) = Ok result' ->
  same_but_mobile result result'.
Proof.
  unfold ApiCrawler.update_detail, same_but_mobile.
  destruct (nonempty (mem_no result)) as [m|].
  2:{ simpl. intros result' [= <-]. by destruct result. }
  unfold try_except, bind, session_get, ret.
  destruct (get w h (OfficeDetail m)) as [resp|]; simpl.
  2:{ intros result' [= <-]. by destruct result. }
  destruct (status_code resp =? 200); simpl.
  2:{ intros result' [= <-]. by destruct result. }
  destruct (ApiCrawler.collect_phones _ _ _). simpl. by intros result' [= <-].
Qed.

Lemma records_with_same m l l' :
  Forall2 same_but_mobile l l' -> records_with m l' = records_with m l.
Proof.
  induction 1 as [|r r' l l' Hr _ IH]; [done|].
  change (r' :: l') with ([r'] ++ l'). change (r :: l) with ([r] ++ l).
  rewrite !records_with_app, IH. f_equal.
  assert (Hm : mem_no r' = mem_no r).
  { unfold same_but_mobile, ApiCrawler.with_mobile_phones in Hr.
    destruct r, r'. simpl in *. congruence. }
  unfold records_with, has_mem_no. simpl. rewrite Hm.
  by destruct (bool_decide _).
Qed.

(** The loop that updates the entries of [self.results]: one detail request
    for each entry with an identifier; it changes the mobile phones only. *)
Lemma updates_run scraped : forall acc w s h,
  let r := for_each scraped
             (fun acc result =>
                let* r := ApiCrawler.update_detail result in ret (acc ++ [r]))
             acc w s h in
  self_after r = s /\
  only_details (emitted r) /\
  exists updated,
    value r = Ok (acc ++ updated) /\
    Forall2 same_but_mobile scraped updated /\
    forall m, detail_requests m (emitted r) = records_with m scraped.
Proof.
  induction scraped as [|result scraped IH]; intros acc w s h.
  - simpl. repeat split; [constructor|]. exists []. rewrite app_nil_r.
    repeat split. constructor.
  - cbn [for_each]. rewrite bind_eq, bind_eq.
    destruct (update_detail_run result w s h) as (Hs & He & result' & Hv & Hm).
    pose proof (update_detail_same result w s h result' Hv) as Hsame.
    destruct (ApiCrawler.update_detail result w s h) as [v s1 e1] eqn:Hrun.
    simpl in Hs, He, Hv. subst v s1. cbv zeta. cbn [ret value self_after emitted].
    rewrite app_nil_r.
    destruct (IH (acc ++ [result']) w s (h ++ e1)) as (Hs2 & Ho2 & updated & Hv2 & Hf & Hd).
    split; [done|]. split.
    { apply only_details_app; [|done]. rewrite He.
      destruct (nonempty (mem_no result)); repeat constructor. }
    exists (result' :: updated). rewrite Hv2, <- app_assoc. split; [done|].
    split; [by constructor|]. intros m.
    rewrite detail_requests_app, Hd, He.
    change (result :: scraped) with ([result] ++ scraped). rewrite records_with_app.
    f_equal. unfold records_with, has_mem_no. simpl.
    destruct (nonempty (mem_no result)) as [m'|] eqn:Hn.
    + rewrite detail_requests_one.
      destruct (bool_decide_reflect (m' = m)) as [->|Hne].
      * by rewrite bool_decide_eq_true_2.
      * rewrite bool_decide_eq_false_2; [done|]. congruence.
    + by rewrite bool_decide_eq_false_2.
Qed.

Lemma set_results_run rs w s h :
  ApiCrawler.set_results rs w s h = MkRun (Ok tt) (with_results s rs) [].
Proof. reflexivity. Qed.

(** What follows the scraper in the search. *)
Lemma store_and_update_run scraped w s h :
  exists updated upd_evs,
    (let* _ := ApiCrawler.set_results scraped in
     let* updated :=
       for_each scraped
         (fun acc result =>
            let* r := ApiCrawler.update_detail result in ret (acc ++ [r])) [] in
     let* _ := ApiCrawler.set_results updated in
     ret (0 <? List.length updated)) w s h
    = MkRun (Ok (0 <? List.length updated)) (with_results s updated) upd_evs /\
    only_details upd_evs /\
    Forall2 same_but_mobile scraped updated /\
    forall m, detail_requests m upd_evs = records_with m scraped.
Proof.
  rewrite bind_eq, set_results_run. cbv zeta. rewrite bind_eq.
  destruct (updates_run scraped [] w (with_results s scraped) (h ++ []))
    as (Hs & Ho & updated & Hv & Hf & Hd).
  destruct (for_each scraped _ [] w (with_results s scraped) (h ++ []))
    as [v s1 e1] eqn:Hrun.
  simpl in Hs, Ho, Hv, Hd. subst v s1. cbv zeta.
  rewrite bind_eq, set_results_run. cbv zeta. cbn [ret value self_after emitted].
  exists updated, e1. rewrite !app_nil_r. by repeat split.
Qed.

(** The search once the codes are known: the discovery of the page count,
    the first call of the callback, the scraper, the update loop. *)
Lemma search_with_codes_run sido_code sigungu_code dong_code progress_callback w s h :
  let r := ApiCrawler.search_with_codes sido_code sigungu_code dong_code
             progress_callback w s h in
  let req := Get (ApiCrawler.office_list 1 sido_code sigungu_code dong_code) in
  exists n,
    value (ApiCrawler.get_total_pages sido_code sigungu_code dong_code w s h) = Ok n /\
    let first := [req] ++ announced progress_callback 0 n 0 in
    if callback_ok progress_callback (h ++ [req]) 0 n 0 then
      let sr := ApiCrawler._scrape_office_data_from_html sido_code sigungu_code
                  dong_code progress_callback w s (h ++ first) in
      exists scraped updated upd_evs,
        value sr = Ok scraped /\
        value r = Ok (0 <? List.length updated) /\
        self_after r = with_results s updated /\
        emitted r = first ++ emitted sr ++ upd_evs /\
        only_details upd_evs /\
        Forall2 same_but_mobile scraped updated /\
        forall m, detail_requests m upd_evs = records_with m scraped
    else r = MkRun Raise s first.
Proof.
  unfold ApiCrawler.search_with_codes.
  destruct (get_total_pages_run sido_code sigungu_code dong_code w s h) as (n & Hn).
  exists n. split; [by rewrite Hn|].
  rewrite bind_eq, Hn. cbv zeta. rewrite bind_eq, call_progress_run.
  destruct (callback_ok _ _ _ _ _); [|done].
  cbv zeta. rewrite bind_eq.
  set (h1 := (h ++ [Get (ApiCrawler.office_list 1 sido_code sigungu_code dong_code)])
             ++ announced progress_callback 0 n 0).
  replace (h ++ [Get (ApiCrawler.office_list 1 sido_code sigungu_code dong_code)]
             ++ announced progress_callback 0 n 0) with h1
    by (unfold h1; by rewrite <- app_assoc).
  destruct (scraper_run_facts sido_code sigungu_code dong_code progress_callback w s h1)
    as (Hs & (scraped & Hv) & _).
  destruct (ApiCrawler._scrape_office_data_from_html sido_code sigungu_code dong_code
              progress_callback w s h1) as [v s1 e1] eqn:Hrun.
  simpl in Hv, Hs. subst v s1. cbv zeta.
  destruct (store_and_update_run scraped w s (h1 ++ e1))
    as (updated & upd_evs & Heq & Ho & Hf & Hd).
  rewrite Heq. cbn [value self_after emitted].
  exists scraped, updated, upd_evs. rewrite <- !app_assoc. by repeat split.
Qed.

(** ** The location resolver *)

Lemma decode_loop_run (names : list (option string)) : forall acc w s h,
  for_each names
    (fun acc n => match n with Some x => ret (acc ++ [x]) | None => raise end)
    acc w s h =
  MkRun (match mapM id names with
         | Some decoded => Ok (acc ++ decoded)
         | None => Raise
         end) s [].
Proof.
  induction names as [|[x|] names IH]; intros acc w s h.
  - simpl. by rewrite app_nil_r.
  - cbn [for_each]. rewrite bind_eq. cbn [ret]. cbv zeta. rewrite IH.
    cbn [value self_after emitted]. simpl.
    destruct (mapM id names); simpl; [|done]. by rewrite <- app_assoc.
  - reflexivity.
Qed.

Lemma decode_names_run names w s h :
  ApiCrawler.decode_names names w s h =
  MkRun (match mapM id names with
         | Some decoded => Ok decoded
         | None => Raise
         end) s [].
Proof. unfold ApiCrawler.decode_names. by rewrite decode_loop_run. Qed.

(** Reading the answer stores the code table exactly when names are found. *)
Lemma read_combo_run response store (put : Self -> list (string * Scalar) -> Self) w s h :
  (forall d w s h, store d w s h = MkRun (Ok tt) (put s d) []) ->
  ApiCrawler.read_combo response store w s h =
  match combo_names response with
  | Ok (Some (decoded, codes)) =>
      MkRun (Ok decoded) (put s (ApiCrawler.code_table decoded codes)) []
  | Ok None => MkRun (Ok []) s []
  | Raise => MkRun Raise s []
  end.
Proof.
  intros Hstore. unfold ApiCrawler.read_combo, combo_names.
  destruct (negb (status_code response =? 200)); [done|].
  destruct (json response) as [data|]; [|done].
  destruct (datMM data) as [mm|]; [|done].
  destruct (name mm) as [names|]; [|done].
  rewrite bind_eq, decode_names_run.
  destruct (mapM id names) as [decoded|]; [|done].
  cbv zeta. rewrite bind_eq, Hstore. reflexivity.
Qed.

Lemma get_sigungu_list_run sido w s h :
  ApiCrawler.get_sigungu_list sido w s h =
  match dict_get ApiCrawler.sido_mapping sido with
  | None | Some 0 => MkRun (Ok []) s []
  | Some sido_code =>
      let req := ComboSearch "S" sido_code None in
      match get w h req with
      | None => MkRun (Ok []) s [Get req]
      | Some response =>
          match combo_names response with
          | Ok (Some (decoded, codes)) =>
              MkRun (Ok decoded)
                    (with_sigungu_codes s (ApiCrawler.code_table decoded codes)) [Get req]
          | _ => MkRun (Ok []) s [Get req]
          end
      end
  end.
Proof.
  unfold ApiCrawler.get_sigungu_list, try_except.
  destruct (dict_get ApiCrawler.sido_mapping sido) as [[|c]|]; [done| |done].
  rewrite bind_eq. unfold session_get.
  destruct (get w h _) as [response|]; [|done]. cbv zeta.
  rewrite (read_combo_run response _ with_sigungu_codes) by reflexivity.
  destruct (combo_names response) as [[[decoded codes]|]|]; simpl;
    by rewrite ?app_nil_r.
Qed.

Lemma get_dong_list_run sido sigungu w s h :
  ApiCrawler.get_dong_list sido sigungu w s h =
  match dict_get ApiCrawler.sido_mapping sido with
  | None | Some 0 => MkRun (Ok []) s []
  | Some sido_code =>
      match sigungu_codes s with
      | None => MkRun (Ok []) s []
      | Some table =>
          match dict_get table sigungu with
          | Some sigungu_code =>
              if truthy sigungu_code then
                let req := ComboSearch "G" sido_code (Some sigungu_code) in
                match get w h req with
                | None => MkRun (Ok []) s [Get req]
                | Some response =>
                    match combo_names response with
                    | Ok (Some (decoded, codes)) =>
                        MkRun (Ok decoded)
                              (with_dong_codes s (ApiCrawler.code_table decoded codes))
                              [Get req]
                    | _ => MkRun (Ok []) s [Get req]
                    end
                end
              else MkRun (Ok []) s []
          | None => MkRun (Ok []) s []
          end
      end
  end.
Proof.
  unfold ApiCrawler.get_dong_list. rewrite try_except_eq.
  destruct (dict_get ApiCrawler.sido_mapping sido) as [[|c]|]; [done| |done].
  rewrite bind_eq. unfold self. cbv zeta.
  destruct (sigungu_codes s) as [table|]; [|reflexivity].
  destruct (dict_get table sigungu) as [sigungu_code|]; [|reflexivity].
  destruct (truthy sigungu_code); [|reflexivity].
  rewrite bind_eq. unfold session_get. rewrite app_nil_r.
  destruct (get w h _) as [response|]; [|reflexivity].
  cbv zeta.
  rewrite (read_combo_run response _ with_dong_codes) by reflexivity.
  destruct (combo_names response) as [[[decoded codes]|]|]; simpl;
    by rewrite ?app_nil_r.
Qed.

(** *** Runs that only resolve codes *)

Lemma resolves_bind {A B} (m : M A) (k : A -> M B) w s h :
  resolves (m w s h) s ->
  (forall a s1 h1, resolves (k a w s1 h1) s1) ->
  resolves (bind m k w s h) s.
Proof.
  rewrite bind_eq. destruct (m w s h) as [[a|] s1 e1]; [|done].
  intros [Ho Hr] Hk. destruct (Hk a s1 (h ++ e1)) as [Ho' Hr'].
  unfold resolves. cbv zeta. simpl in *. split; [by apply Forall_app_2|].
  by rewrite Hr'.
Qed.

Lemma resolves_try_except {A} (m handler : M A) w s h :
  resolves (m w s h) s ->
  (forall s1 h1, resolves (handler w s1 h1) s1) ->
  resolves (try_except m handler w s h) s.
Proof.
  rewrite try_except_eq. destruct (m w s h) as [[a|] s1 e1]; [done|].
  intros [Ho Hr] Hk. destruct (Hk s1 (h ++ e1)) as [Ho' Hr'].
  unfold resolves. cbv zeta. simpl in *. split; [by apply Forall_app_2|].
  by rewrite Hr'.
Qed.

Lemma resolves_ret {A} (a : A) w s h : resolves (ret a w s h) s.
Proof. split; [constructor|done]. Qed.

Lemma resolves_raise {A} w s h : resolves (@raise A w s h) s.
Proof. split; [constructor|done]. Qed.

Lemma resolves_self w s h : resolves (self w s h) s.
Proof. split; [constructor|done]. Qed.

Lemma get_sigungu_list_resolves sido w s h :
  resolves (ApiCrawler.get_sigungu_list sido w s h) s.
Proof.
  rewrite get_sigungu_list_run.
  destruct (dict_get ApiCrawler.sido_mapping sido) as [[|c]|];
    try (split; [constructor|done]).
  cbv zeta. destruct (get w h _) as [response|]; [|split; [repeat constructor|done]].
  destruct (combo_names response) as [[[decoded codes]|]|];
    split; (repeat constructor) || done.
Qed.

Lemma get_dong_list_resolves sido sigungu w s h :
  resolves (ApiCrawler.get_dong_list sido sigungu w s h) s.
Proof.
  rewrite get_dong_list_run.
  destruct (dict_get ApiCrawler.sido_mapping sido) as [[|c]|];
    try (split; [constructor|done]).
  destruct (sigungu_codes s) as [table|]; [|split; [constructor|done]].
  destruct (dict_get table sigungu) as [code|]; [|split; [constructor|done]].
  destruct (truthy code); [|split; [constructor|done]].
  cbv zeta. destruct (get w h _) as [response|]; [|split; [repeat constructor|done]].
  destruct (combo_names response) as [[[decoded codes]|]|];
    split; (repeat constructor) || done.
Qed.

Lemma resolve_sigungu_resolves sido sigungu w s h :
  resolves (ApiCrawler.resolve_sigungu sido sigungu w s h) s.
Proof.
  unfold ApiCrawler.resolve_sigungu.
  destruct (nonempty sigungu) as [sg|]; [|apply resolves_ret].
  apply resolves_bind; [apply resolves_self|]. intros s0 s1 h1.
  apply resolves_bind.
  { destruct (sigungu_codes s0); [apply resolves_ret|].
    apply resolves_bind; [apply get_sigungu_list_resolves|].
    intros. apply resolves_ret. }
  intros _ s2 h2. apply resolves_bind; [apply resolves_self|]. intros s3 s4 h4.
  destruct (sigungu_codes s3) as [codes|]; [|apply resolves_raise].
  destruct (dict_get codes sg) as [c|]; [|apply resolves_ret].
  destruct (truthy c); apply resolves_ret.
Qed.

Lemma resolve_dong_resolves sido sigungu dong w s h :
  resolves (ApiCrawler.resolve_dong sido sigungu dong w s h) s.
Proof.
  unfold ApiCrawler.resolve_dong.
  destruct (nonempty dong) as [d|]; [|apply resolves_ret].
  destruct (nonempty sigungu) as [sg|]; [|apply resolves_ret].
  apply resolves_bind; [apply resolves_self|]. intros s0 s1 h1.
  apply resolves_bind.
  { destruct (dong_codes s0); [apply resolves_ret|].
    apply resolves_bind; [apply get_dong_list_resolves|].
    intros. apply resolves_ret. }
  intros _ s2 h2. apply resolves_bind; [apply resolves_self|]. intros s3 s4 h4.
  destruct (dong_codes s3) as [codes|]; [apply resolves_ret|apply resolves_raise].
Qed.

(** The search: either it ends while the codes are resolved, with [False],
    or it resolves them and goes on as [search_with_codes], whose exception
    (a callback that raises at its first call) becomes [False]. *)
Lemma search_run sido sigungu dong progress_callback w s h :
  let r := ApiCrawler.search_real_estate_offices sido sigungu dong progress_callback
             w s h in
  (value r = Ok false /\ resolves r s) \/
  exists pre s1 sido_code sigungu_code dong_code,
    dict_get ApiCrawler.sido_mapping sido = Some sido_code /\
    only_combo pre /\ results s1 = results s /\
    let r2 := ApiCrawler.search_with_codes sido_code sigungu_code dong_code
                progress_callback w s1 (h ++ pre) in
    emitted r = pre ++ emitted r2 /\
    self_after r = self_after r2 /\
    value r = match value r2 with Ok b => Ok b | Raise => Ok false end.
Proof.
  intros r. subst r.
  unfold ApiCrawler.search_real_estate_offices. rewrite try_except_eq.
  destruct (dict_get ApiCrawler.sido_mapping sido) as [[|c]|] eqn:Hsido;
    cbv beta iota;
    try (left; split; [reflexivity|exact (resolves_ret false w s h)]).
  rewrite bind_eq.
  destruct (resolve_sigungu_resolves sido sigungu w s h) as [Ho1 Hr1].
  destruct (ApiCrawler.resolve_sigungu sido sigungu w s h) as [[[sgc|]|] s1 e1];
    simpl in Ho1, Hr1.
  - cbv zeta. rewrite bind_eq.
    destruct (resolve_dong_resolves sido sigungu dong w s1 (h ++ e1)) as [Ho2 Hr2].
    destruct (ApiCrawler.resolve_dong sido sigungu dong w s1 (h ++ e1))
      as [[dc|] s2 e2]; simpl in Ho2, Hr2.
    + right. exists (e1 ++ e2), s2, (S c), sgc, dc.
      split; [done|]. split; [by apply Forall_app_2|]. split; [congruence|].
      cbv zeta. rewrite <- !app_assoc.
      destruct (ApiCrawler.search_with_codes (S c) sgc dc progress_callback w s2
                  (h ++ e1 ++ e2)) as [[b|] s3 e3]; simpl;
        by rewrite ?app_nil_r, <- ?app_assoc.
    + left. simpl. rewrite !app_nil_r. split; [done|].
      split; simpl; [by apply Forall_app_2|congruence].
  - left. simpl. rewrite !app_nil_r. by split.
  - left. simpl. rewrite !app_nil_r. by split.
Qed.

Lemma only_combo_count P evs :
  (forall e, is_combo e = true -> P e = false) ->
  only_combo evs -> count P evs = 0.
Proof.
  intros HP. induction 1 as [|e l He _ IH]; [done|].
  rewrite count_cons, IH, (HP e He). reflexivity.
Qed.

Lemma only_combo_pages p evs : only_combo evs -> page_requests p evs = 0.
Proof. apply only_combo_count. by intros [[]| | |]. Qed.

Lemma only_combo_details m evs : only_combo evs -> detail_requests m evs = 0.
Proof. apply only_combo_count. by intros [[]| | |]. Qed.

Lemma only_combo_progress evs : only_combo evs -> progress_pages evs = [].
Proof.
  induction 1 as [|e l He _ IH]; [done|].
  destruct e as [[]| | |]; done.
Qed.

Lemma Forall2_same_nil scraped updated :
  Forall2 same_but_mobile scraped updated -> (scraped = [] <-> updated = []).
Proof. destruct 1; split; congruence. Qed.

Lemma search_never_raises sido sigungu dong progress_callback w s h :
  exists b,
    value (ApiCrawler.search_real_estate_offices sido sigungu dong progress_callback
             w s h) = Ok b.
Proof.
  destruct (search_run sido sigungu dong progress_callback w s h)
    as [(Hv & _)|(pre & s1 & sc & sg & dc & _ & _ & _ & _ & _ & Hv)]; [by exists false|].
  destruct (search_with_codes_run sc sg dc progress_callback w s1 (h ++ pre))
    as (n & _ & Hcase). cbv zeta in Hcase.
  destruct (callback_ok _ _ _ _ _).
  - destruct Hcase as (scraped & updated & upd_evs & _ & Hv2 & _).
    rewrite Hv2 in Hv. eauto.
  - rewrite Hcase in Hv. simpl in Hv. eauto.
Qed.

(** [search_real_estate_offices] never raises.  It returns [True] only with
    a non-empty [self.results]; and on a crawler whose [self.results] was
    empty (as it is after construction) it returns [True] exactly when
    [self.results] is not empty afterwards: a scrape that went well but
    found no office is reported as a failure. *)
Theorem search_flag_and_results sido sigungu dong progress_callback w s h :
  let r := ApiCrawler.search_real_estate_offices sido sigungu dong progress_callback
             w s h in
  exists b,
    value r = Ok b /\
    (b = true -> results (self_after r) <> []) /\
    (results s = [] -> (b = true <-> results (self_after r) <> [])).
Proof.
  intros r.
  destruct (search_run sido sigungu dong progress_callback w s h)
    as [(Hv & _ & Hr)|(pre & s1 & sc & sg & dc & _ & _ & Hr1 & _ & Hs & Hv)].
  - fold r in Hv, Hr.
    exists false. split; [done|]. split; [done|]. intros Hnil.
    rewrite Hr, Hnil. split; [done|]. by intros [].
  - fold r in Hs, Hv.
    destruct (search_with_codes_run sc sg dc progress_callback w s1 (h ++ pre))
      as (n & _ & Hcase). cbv zeta in Hcase.
    destruct (callback_ok _ _ _ _ _).
    + destruct Hcase as (scraped & updated & upd_evs & _ & Hv2 & Hs2 & _).
      rewrite Hv2 in Hv. rewrite Hs2 in Hs.
      exists (0 <? List.length updated). split; [done|]. rewrite Hs. simpl.
      assert (Hlen : (0 <? List.length updated) = true <-> updated <> []).
      { destruct updated; simpl; split; done. }
      split; [apply Hlen|]. by intros _.
    + rewrite Hcase in Hv, Hs. simpl in Hv, Hs.
      exists false. split; [done|]. split; [done|]. intros Hnil.
      rewrite Hs, Hr1, Hnil. split; [done|]. by intros [].
Qed.

(** A search that returns [True] has ended in [search_with_codes] with a
    callback that returned at its first call. *)
Lemma search_true_run sido sigungu dong progress_callback w s h :
  let r := ApiCrawler.search_real_estate_offices sido sigungu dong progress_callback
             w s h in
  value r = Ok true ->
  exists pre sido_code sigungu_code dong_code s1 n scraped updated upd_evs,
    only_combo pre /\
    let req := Get (ApiCrawler.office_list 1 sido_code sigungu_code dong_code) in
    let first := [req] ++ announced progress_callback 0 n 0 in
    let sr := ApiCrawler._scrape_office_data_from_html sido_code sigungu_code dong_code
                progress_callback w s1 ((h ++ pre) ++ first) in
    callback_ok progress_callback ((h ++ pre) ++ [req]) 0 n 0 = true /\
    value sr = Ok scraped /\
    updated <> [] /\
    self_after r = with_results s1 updated /\
    emitted r = pre ++ first ++ emitted sr ++ upd_evs /\
    only_details upd_evs /\
    Forall2 same_but_mobile scraped updated /\
    forall m, detail_requests m upd_evs = records_with m scraped.
Proof.
  intros r Htrue.
  destruct (search_run sido sigungu dong progress_callback w s h)
    as [(Hv & _)|(pre & s1 & sc & sg & dc & _ & Hpre & _ & He & Hs & Hv)].
  { fold r in Hv. congruence. }
  fold r in He, Hs, Hv.
  destruct (search_with_codes_run sc sg dc progress_callback w s1 (h ++ pre))
    as (n & _ & Hcase). cbv zeta in Hcase.
  destruct (callback_ok _ _ _ _ _) eqn:Hok.
  - destruct Hcase as (scraped & updated & upd_evs & Hsr & Hv2 & Hs2 & He2 & Ho & Hf & Hd).
    rewrite Hv2 in Hv. rewrite Hs2 in Hs. rewrite He2 in He.
    exists pre, sc, sg, dc, s1, n, scraped, updated, upd_evs.
    split; [done|]. cbv zeta. split; [done|]. split; [done|]. split.
    { intros ->. rewrite Htrue in Hv. discriminate. }
    split; [done|]. split; [by rewrite He, <- !app_assoc|]. by repeat split.
  - rewrite Hcase in Hv. simpl in Hv. congruence.
Qed.

Lemma page_requests_announced p progress_callback current_page total_pages n :
  page_requests p (announced progress_callback current_page total_pages n) = 0.
Proof. by apply count_announced. Qed.

Lemma detail_requests_announced m progress_callback current_page total_pages n :
  detail_requests m (announced progress_callback current_page total_pages n) = 0.
Proof. by apply count_announced. Qed.

(** C4 (as amended): a search that returns [True] has asked for page 1 of
    the listing exactly twice: once in [get_total_pages], once more in the
    scraper, which reads the page count again from its own copy of the
    page. *)
Theorem search_requests_page_1_twice sido sigungu dong progress_callback w s h :
  let r := ApiCrawler.search_real_estate_offices sido sigungu dong progress_callback
             w s h in
  value r = Ok true -> page_requests 1 (emitted r) = 2.
Proof.
  intros r Htrue.
  destruct (search_true_run sido sigungu dong progress_callback w s h Htrue)
    as (pre & sc & sg & dc & s1 & n & scraped & updated & upd_evs
        & Hpre & _ & _ & _ & _ & He & Ho & _).
  fold r in He. rewrite He, !page_requests_app.
  rewrite (only_combo_pages 1 pre), (only_details_pages 1 upd_evs) by done.
  rewrite (proj1 (proj2 (proj2 (scraper_run_facts sc sg dc progress_callback w s1 _)))).
  rewrite page_requests_announced.
  reflexivity.
Qed.

Lemma search_requests_page_1_twice_witness :
  page_requests 1
    (emitted (ApiCrawler.search_real_estate_offices Sample.seoul None None
                (Some Sample.quiet) Sample.linked ApiCrawler.init [])) = 2.
Proof.
  apply (search_requests_page_1_twice Sample.seoul None None (Some Sample.quiet)
           Sample.linked ApiCrawler.init []).
  reflexivity.
Defined.

(** C4, the claim as stated fails: on the listing [Sample.one_page_linked]
    the search asks for page 1 before its first call of the callback, for
    [get_total_pages], and once more after it, for the scraper. *)
Lemma first_page_requested_twice :
  let r := ApiCrawler.search_real_estate_offices Sample.seoul None None
             (Some Sample.quiet) Sample.linked ApiCrawler.init [] in
  value r = Ok true /\
  emitted r = [ Get (OfficeList 1 1 None None); Progress 0 1 0;
                Get (OfficeList 1 1 None None); Progress 1 1 0;
                Get (OfficeDetail "7"); Get (OfficeDetail "7") ] /\
  page_requests 1 (emitted r) <> 1.
Proof. repeat split. discriminate. Qed.


(** C3 (as amended): a search that returns [True] has asked for the detail
    page of every identifier twice for each record of [self.results] that
    carries it: once while the row of the record was parsed, once more in
    the loop that updates [self.results]. *)
Theorem search_requests_details_twice sido sigungu dong progress_callback w s h :
  let r := ApiCrawler.search_real_estate_offices sido sigungu dong progress_callback
             w s h in
  value r = Ok true ->
  forall m, detail_requests m (emitted r) = 2 * records_with m (results (self_after r)).
Proof.
  intros r Htrue m.
  destruct (search_true_run sido sigungu dong progress_callback w s h Htrue)
    as (pre & sc & sg & dc & s1 & n & scraped & updated & upd_evs
        & Hpre & _ & Hsr & Hne & Hs & He & Ho & Hf & Hd).
  fold r in He, Hs. rewrite He, Hs, !detail_requests_app. cbn [results with_results].
  rewrite (only_combo_details m pre) by done.
  rewrite detail_requests_announced.
  rewrite Hd.
  assert (Hscraped : scraped <> []).
  { intros Hnil. apply Hne. by apply (Forall2_same_nil scraped updated). }
  rewrite (proj2 (proj2 (proj2 (proj2
             (scraper_run_facts sc sg dc progress_callback w s1 _)))) scraped Hsr Hscraped).
  rewrite (records_with_same m scraped updated Hf).
  change (detail_requests m [Get (ApiCrawler.office_list 1 sc sg dc)]) with 0.
  lia.
Qed.

Lemma search_requests_details_twice_witness :
  detail_requests "7"
    (emitted (ApiCrawler.search_real_estate_offices Sample.seoul None None None
                Sample.linked ApiCrawler.init [])) = 2.
Proof.
  exact (search_requests_details_twice Sample.seoul None None None
           Sample.linked ApiCrawler.init [] eq_refl "7").
Defined.

(** C3, the claim as stated fails: on the listing [Sample.one_page_linked],
    whose only office has the identifier 7, the search returns [True] with
    one record, and it has asked for the detail page of the office twice. *)
Lemma detail_page_requested_twice :
  let r := ApiCrawler.search_real_estate_offices Sample.seoul None None None
             Sample.linked ApiCrawler.init [] in
  value r = Ok true /\
  records_with "7" (results (self_after r)) = 1 /\
  emitted r = [ Get (OfficeList 1 1 None None); Get (OfficeList 1 1 None None);
                Get (OfficeDetail "7"); Get (OfficeDetail "7") ] /\
  detail_requests "7" (emitted r) <> 1.
Proof. repeat split. discriminate. Qed.


(** A province that is not in the table ends the search at once: [False],
    no request, no call of the callback, the crawler as it was. *)
Theorem search_unknown_province sido sigungu dong progress_callback w s h :
  dict_get ApiCrawler.sido_mapping sido = None ->
  ApiCrawler.search_real_estate_offices sido sigungu dong progress_callback w s h
  = MkRun (Ok false) s [].
Proof.
  intros Hnone. unfold ApiCrawler.search_real_estate_offices.
  rewrite try_except_eq, Hnone. reflexivity.
Qed.

Lemma search_unknown_province_witness :
  ApiCrawler.search_real_estate_offices "Atlantis" (Some "x") None (Some Sample.failing)
    Sample.single ApiCrawler.init []
  = MkRun (Ok false) ApiCrawler.init [].
Proof.
  apply (search_unknown_province "Atlantis" (Some "x") None (Some Sample.failing)
           Sample.single ApiCrawler.init []).
  reflexivity.
Defined.

Lemma raised_only_combo progress_callback h evs :
  only_combo evs -> ~ raised progress_callback h evs.
Proof. intros Ho. apply raised_no_progress. by apply only_combo_progress. Qed.

(** A callback that raises at any of its calls makes the search return
    [False]: at the first call, (0, total_pages, 0), the exception reaches
    the handler of the search; at a later call the scraper returns the empty
    list. *)
Theorem search_aborted_by_callback sido sigungu dong progress_callback w s h :
  let r := ApiCrawler.search_real_estate_offices sido sigungu dong progress_callback
             w s h in
  raised progress_callback h (emitted r) -> value r = Ok false.
Proof.
  intros r Hraised.
  destruct (search_never_raises sido sigungu dong progress_callback w s h)
    as ([|] & Hv); fold r in Hv; [|done].
  exfalso.
  destruct (search_true_run sido sigungu dong progress_callback w s h Hv)
    as (pre & sc & sg & dc & s1 & n & scraped & updated & upd_evs
        & Hpre & Hok & Hsr & Hne & _ & He & Ho & Hf & _).
  fold r in He. rewrite He in Hraised.
  apply raised_app in Hraised as [Hr|Hr]; [by apply raised_only_combo in Hr|].
  rewrite <- app_assoc in Hr.
  apply raised_app in Hr as [Hr|Hr]; [by apply raised_no_progress in Hr|].
  apply raised_app in Hr as [Hr|Hr].
  { apply raised_announced in Hr. congruence. }
  apply raised_app in Hr as [Hr|Hr].
  - rewrite <- app_assoc in Hr.
    pose proof (proj1 (proj2 (proj2 (proj2
                  (scraper_run_facts sc sg dc progress_callback w s1 _)))) Hr) as Hnil.
    rewrite Hnil in Hsr. injection Hsr as <-.
    apply Hne. by apply (Forall2_same_nil [] updated).
  - apply raised_no_progress in Hr; [done|by apply only_details_progress].
Qed.

Lemma search_aborted_by_callback_witness :
  value (ApiCrawler.search_real_estate_offices Sample.seoul None None
           (Some (raises_at 2)) Sample.two_pages ApiCrawler.init []) = Ok false.
Proof.
  apply (search_aborted_by_callback Sample.seoul None None (Some (raises_at 2))
           Sample.two_pages ApiCrawler.init []).
  exists (raises_at 2),
    [Get (OfficeList 1 1 None None); Progress 0 2 0; Get (OfficeList 1 1 None None);
     Progress 1 1 0],
    2, 2, 0, [].
  repeat split; reflexivity.
Defined.

(** ** Code tables *)

Section Dict.
Context {V : Type}.
Implicit Types (d l : list (string * V)) (k : string) (v : V).

Lemma dict_get_set d k v k' :
  dict_get (dict_set d k v) k' = if bool_decide (k = k') then Some v else dict_get d k'.
Proof.
  induction d as [|[k0 v0] d IH]; simpl; unfold Text.eqb.
  - done.
  - destruct (bool_decide_reflect (k0 = k)) as [->|Hne]; simpl; unfold Text.eqb.
    + by destruct (bool_decide (k = k')).
    + destruct (bool_decide_reflect (k0 = k')) as [->|Hne'].
      * by rewrite bool_decide_eq_false_2 by congruence.
      * apply IH.
Qed.

Lemma dict_get_app l1 l2 k :
  dict_get (l1 ++ l2) k =
  match dict_get l1 k with Some v => Some v | None => dict_get l2 k end.
Proof.
  induction l1 as [|[k0 v0] l1 IH]; [done|]. simpl.
  by destruct (Text.eqb k0 k).
Qed.

(** A dictionary filled by successive assignments gives to a key the value
    assigned to it last. *)
Lemma dict_get_assignments l d k :
  dict_get (fold_left (fun d '(n, c) => dict_set d n c) l d) k =
  match last_assigned l k with Some v => Some v | None => dict_get d k end.
Proof.
  unfold last_assigned. revert d.
  induction l as [|[n c] l IH]; intros d; [done|].
  cbn [fold_left]. rewrite IH, reverse_cons, dict_get_app, dict_get_set.
  destruct (dict_get (reverse l) k); [done|]. simpl. unfold Text.eqb.
  by destruct (bool_decide (n = k)).
Qed.

Lemma dict_get_elem_of l k v :
  NoDup l.*1 -> (k, v) ∈ l -> dict_get l k = Some v.
Proof.
  induction l as [|[k0 v0] l IH]; intros Hnd Hin.
  - by apply elem_of_nil in Hin.
  - apply NoDup_cons in Hnd as [Hk0 Hnd]. simpl. unfold Text.eqb.
    apply elem_of_cons in Hin as [[= -> ->]|Hin].
    + by rewrite bool_decide_eq_true_2.
    + rewrite bool_decide_eq_false_2; [by apply IH|].
      intros ->. apply Hk0. apply list_elem_of_fmap. by exists (k, v).
Qed.

Lemma dict_get_None l k : k ∉ l.*1 -> dict_get l k = None.
Proof.
  induction l as [|[k0 v0] l IH]; [done|]. simpl. unfold Text.eqb.
  rewrite not_elem_of_cons. intros [Hne Hk].
  rewrite bool_decide_eq_false_2 by congruence. by apply IH.
Qed.

End Dict.

Lemma zip_fst_elem_of {A B} (l : list A) (k : list B) x :
  x ∈ (zip l k).*1 -> x ∈ l.
Proof.
  revert k. induction l as [|a l IH]; intros [|b k]; simpl; try by intros []%elem_of_nil.
  rewrite !elem_of_cons. intros [->|Hx]; [by left|right]. by apply (IH k).
Qed.

Lemma zip_fst_NoDup {A B} (l : list A) (k : list B) : NoDup l -> NoDup (zip l k).*1.
Proof.
  revert k. induction l as [|a l IH]; intros [|b k] Hnd; simpl; try constructor.
  - apply NoDup_cons in Hnd as [Ha _]. intros Hin. apply Ha.
    by apply (zip_fst_elem_of l k).
  - apply NoDup_cons in Hnd as [_ Hnd]. by apply IH.
Qed.

Lemma code_table_last names codes k :
  dict_get (ApiCrawler.code_table names (Some codes)) k
  = last_assigned (zip names codes) k.
Proof.
  unfold ApiCrawler.code_table. rewrite dict_get_assignments.
  by destruct (last_assigned _ _).
Qed.

Lemma code_table_at names codes k i c :
  NoDup names -> names !! i = Some k -> codes !! i = Some c ->
  dict_get (ApiCrawler.code_table names (Some codes)) k = Some c.
Proof.
  intros Hnd Hn Hc. rewrite code_table_last. unfold last_assigned.
  apply dict_get_elem_of.
  - rewrite fmap_reverse, reverse_Permutation. by apply zip_fst_NoDup.
  - apply elem_of_reverse. apply list_elem_of_lookup. exists i.
    by apply lookup_zip_Some.
Qed.

(** The table built by the two lookups pairs the i-th name with the i-th
    code: a name that occurs once among the names is given the code at its
    place; a name with several places is given the code of the last one
    that has a code; a name beyond the codes, or no name at all, is absent. *)
Theorem code_table_lookup names codes k :
  dict_get (ApiCrawler.code_table names (Some codes)) k
  = last_assigned (zip names codes) k /\
  (NoDup names ->
   forall i c, names !! i = Some k -> codes !! i = Some c ->
     dict_get (ApiCrawler.code_table names (Some codes)) k = Some c) /\
  (k ∉ names -> dict_get (ApiCrawler.code_table names (Some codes)) k = None) /\
  dict_get (ApiCrawler.code_table names None) k = None.
Proof.
  assert (Hlast : dict_get (ApiCrawler.code_table names (Some codes)) k
                  = last_assigned (zip names codes) k).
  { unfold ApiCrawler.code_table. rewrite dict_get_assignments.
    by destruct (last_assigned _ _). }
  split; [done|]. rewrite Hlast. unfold last_assigned. split; [|split; [|done]].
  - intros Hnd i c Hn Hc. apply dict_get_elem_of.
    + rewrite fmap_reverse, reverse_Permutation. by apply zip_fst_NoDup.
    + apply elem_of_reverse. apply list_elem_of_lookup. exists i.
      by apply lookup_zip_Some.
  - intros Hk. apply dict_get_None. rewrite fmap_reverse, elem_of_reverse.
    intros Hin. apply Hk. by apply (zip_fst_elem_of names codes).
Qed.

Lemma code_table_lookup_witness :
  dict_get (ApiCrawler.code_table ["Jongno"; "Jung"; "Yongsan"]
              (Some [Int 11; Int 12])) "Jung" = Some (Int 12) /\
  dict_get (ApiCrawler.code_table ["Jongno"; "Jung"; "Yongsan"]
              (Some [Int 11; Int 12])) "Yongsan" = None.
Proof.
  pose proof (code_table_lookup ["Jongno"; "Jung"; "Yongsan"] [Int 11; Int 12] "Jung")
    as (_ & H & _).
  split; [|reflexivity].
  assert (Hnd : NoDup ["Jongno"; "Jung"; "Yongsan"])
    by (apply (bool_decide_unpack (NoDup ["Jongno"; "Jung"; "Yongsan"]));
        vm_compute; exact I).
  apply (H Hnd 1 (Int 12)); reflexivity.
Defined.

(** ** The lookups of the resolver *)

(** [get_sigungu_list] never raises; it sends at most one request, to the
    combo-search endpoint; it touches neither [self.results] nor the dong
    table; and either it leaves the crawler as it was, or it has replaced
    the sigungu table by the one of the names it returns.  A lookup that
    returns names has always replaced the table. *)
Theorem get_sigungu_list_outcome sido w s h :
  let r := ApiCrawler.get_sigungu_list sido w s h in
  exists names,
    value r = Ok names /\
    List.length (emitted r) <= 1 /\
    only_combo (emitted r) /\
    (self_after r = s \/
     exists codes,
       self_after r = with_sigungu_codes s (ApiCrawler.code_table names codes)) /\
    (names <> [] ->
     exists codes,
       self_after r = with_sigungu_codes s (ApiCrawler.code_table names codes)).
Proof.
  intros r. pose proof (get_sigungu_list_resolves sido w s h) as [Ho _]. fold r in Ho.
  unfold r in *. clear r. rewrite get_sigungu_list_run in *.
  destruct (dict_get ApiCrawler.sido_mapping sido) as [[|c]|];
    try (exists []; simpl; repeat split; [lia|done|by left|done]).
  cbv zeta in *. destruct (get w h _) as [response|].
  2:{ exists []. simpl. repeat split; [lia|done|by left|done]. }
  destruct (combo_names response) as [[[decoded codes]|]|].
  - exists decoded. simpl. repeat split; [lia|done|right; by exists codes|].
    intros _. by exists codes.
  - exists []. simpl. repeat split; [lia|done|by left|done].
  - exists []. simpl. repeat split; [lia|done|by left|done].
Qed.

(** A lookup that fails - the request raises, the status is not 200, or the
    body is no JSON - returns the empty list and keeps the crawler as it
    was: a table stored by an earlier lookup stays in place. *)
Theorem get_sigungu_list_failure sido w s h :
  (forall code response,
     get w h (ComboSearch "S" code None) = Some response ->
     status_code response <> 200 \/ json response = None) ->
  let r := ApiCrawler.get_sigungu_list sido w s h in
  value r = Ok [] /\ self_after r = s.
Proof.
  intros Hfail r. unfold r. rewrite get_sigungu_list_run.
  destruct (dict_get ApiCrawler.sido_mapping sido) as [[|c]|]; try done.
  cbv zeta. destruct (get w h _) as [response|] eqn:Hget; [|done].
  unfold combo_names.
  destruct (Hfail _ _ Hget) as [Hst|Hjson].
  - destruct (Nat.eqb_spec (status_code response) 200); done.
  - rewrite Hjson. by destruct (negb _).
Qed.

Lemma get_sigungu_list_failure_witness :
  let s := with_sigungu_codes ApiCrawler.init [("Jongno", Int 11)] in
  value (ApiCrawler.get_sigungu_list Sample.seoul Sample.all_404 s []) = Ok [] /\
  self_after (ApiCrawler.get_sigungu_list Sample.seoul Sample.all_404 s []) = s.
Proof.
  apply (get_sigungu_list_failure Sample.seoul Sample.all_404
           (with_sigungu_codes ApiCrawler.init [("Jongno", Int 11)]) []).
  intros code response [= <-]. left. simpl. lia.
Defined.

(** A lookup that succeeds returns the decoded names and stores a table in
    which each name, when the names are all different, has the code that
    stands at its place in the answer. *)
Theorem get_sigungu_list_success sido sido_code response data mm names codes w s h :
  dict_get ApiCrawler.sido_mapping sido = Some (S sido_code) ->
  get w h (ComboSearch "S" (S sido_code) None) = Some response ->
  status_code response = 200 ->
  json response = Some data ->
  datMM data = Some mm ->
  name mm = Some (map Some names) ->
  code mm = Some codes ->
  NoDup names ->
  let r := ApiCrawler.get_sigungu_list sido w s h in
  value r = Ok names /\
  exists table,
    sigungu_codes (self_after r) = Some table /\
    forall i n c, names !! i = Some n -> codes !! i = Some c ->
      dict_get table n = Some c.
Proof.
  intros Hsido Hget Hst Hjson Hmm Hname Hcode Hnd r. unfold r.
  rewrite get_sigungu_list_run, Hsido. cbv zeta. rewrite Hget.
  unfold combo_names. rewrite Hst, Hjson, Hmm, Hname, Hcode. simpl.
  assert (Hmap : mapM id (map Some names) = Some names).
  { clear. induction names as [|n names IH]; [done|]. simpl. by rewrite IH. }
  rewrite Hmap. simpl. split; [done|]. eexists. split; [reflexivity|].
  intros i n c Hn Hc.
  by apply (code_table_at names codes n i c).
Qed.

Lemma get_sigungu_list_success_witness :
  let response :=
    {| status_code := 200; soup := Sample.page_of [] [];
       json := Some {| datMM := Some {| name := Some [Some "Jongno"; Some "Jung"];
                                        code := Some [Int 11; Int 12] |} |} |} in
  let w := Sample.world_of (fun _ => Some response) in
  value (ApiCrawler.get_sigungu_list Sample.seoul w ApiCrawler.init [])
  = Ok ["Jongno"; "Jung"].
Proof.
  intros response w.
  assert (Hnd : NoDup ["Jongno"; "Jung"])
    by (apply (bool_decide_unpack (NoDup ["Jongno"; "Jung"])); vm_compute; exact I).
  exact (proj1 (get_sigungu_list_success Sample.seoul 0 response _ _
                  ["Jongno"; "Jung"] [Int 11; Int 12] w ApiCrawler.init []
                  eq_refl eq_refl eq_refl eq_refl eq_refl eq_refl eq_refl Hnd)).
Defined.

(** [get_dong_list] needs the code of the district: when the sigungu table
    does not exist yet, or does not have the district, it returns the empty
    list without a request and without a change. *)
Theorem get_dong_list_without_code sido sigungu w s h :
  (forall table, sigungu_codes s = Some table -> dict_get table sigungu = None) ->
  ApiCrawler.get_dong_list sido sigungu w s h = MkRun (Ok []) s [].
Proof.
  intros Hno. rewrite get_dong_list_run.
  destruct (dict_get ApiCrawler.sido_mapping sido) as [[|c]|]; try done.
  destruct (sigungu_codes s) as [table|]; [|done].
  by rewrite (Hno table eq_refl).
Qed.

Lemma get_dong_list_without_code_witness :
  ApiCrawler.get_dong_list Sample.seoul "Jongno" Sample.single ApiCrawler.init []
  = MkRun (Ok []) ApiCrawler.init [].
Proof.
  apply (get_dong_list_without_code Sample.seoul "Jongno" Sample.single
           ApiCrawler.init []).
  intros table [=].
Defined.

(** *** Names and codes of the provinces *)

Lemma key_of_value_get {V} `{EqDecision V} (d : list (string * V)) k v :
  NoDup d.*2 -> dict_get d k = Some v -> key_of_value d v = k.
Proof.
  induction d as [|[k0 v0] d IH]; [done|]. simpl. unfold Text.eqb.
  intros [Hv0 Hnd]%NoDup_cons.
  destruct (bool_decide_reflect (k0 = k)) as [->|Hne].
  - intros [= ->]. by rewrite bool_decide_eq_true_2.
  - intros Hget. rewrite bool_decide_eq_false_2; [by apply IH|].
    intros ->. apply Hv0. clear -Hget.
    induction d as [|[k1 v1] d IH]; [done|]. simpl in *.
    destruct (Text.eqb k1 k); [injection Hget as ->; by left|right; by apply IH].
Qed.

Lemma dict_get_value {V} (d : list (string * V)) k v :
  dict_get d k = Some v -> v ∈ d.*2.
Proof.
  induction d as [|[k1 v1] d IH]; [done|]. simpl.
  destruct (Text.eqb k1 k); [intros [= ->]; by left|right; by apply IH].
Qed.

(** The table of the provinces has 17 names; each has a code between 1 and
    17, and the code leads back to the name: the codes are all different. *)
Theorem province_round_trip sido code :
  dict_get ApiCrawler.sido_mapping sido = Some code ->
  ApiCrawler._get_sido_name_by_code code = sido /\
  1 <= code <= 17 /\
  sido ∈ ApiCrawler.get_sido_list /\
  List.length ApiCrawler.get_sido_list = 17.
Proof.
  intros Hget. split; [|split; [|split; [|reflexivity]]].
  - apply key_of_value_get; [|done].
    apply (bool_decide_unpack (NoDup ApiCrawler.sido_mapping.*2)). vm_compute. exact I.
  - apply dict_get_value in Hget.
    assert (Hall : Forall (fun c => 1 <= c <= 17) ApiCrawler.sido_mapping.*2)
      by (repeat constructor; lia).
    by apply (proj1 (Forall_forall _ _) Hall).
  - unfold ApiCrawler.get_sido_list. clear -Hget.
    induction ApiCrawler.sido_mapping as [|[k1 v1] d IH]; [done|]. simpl in *.
    unfold Text.eqb in Hget.
    destruct (bool_decide_reflect (k1 = sido)) as [->|_]; [by left|right; by apply IH].
Qed.

Lemma province_round_trip_witness :
  ApiCrawler._get_sido_name_by_code 17 = "제주특별자치도".
Proof.
  exact (proj1 (province_round_trip "제주특별자치도" 17 eq_refl)).
Defined.

(** ** The crawler leaves the file system alone *)

Lemma network_only_ret {A} (a : A) : network_only (ret a).
Proof. intros w s h. constructor. Qed.

Lemma network_only_raise {A} : network_only (@raise A).
Proof. intros w s h. constructor. Qed.

Lemma network_only_self : network_only self.
Proof. intros w s h. constructor. Qed.

Lemma network_only_set_self s : network_only (set_self s).
Proof. intros w s0 h. constructor. Qed.

Lemma network_only_session_get req : network_only (session_get req).
Proof.
  intros w s h. unfold session_get.
  destruct (get w h req); simpl; by repeat constructor.
Qed.

Lemma network_only_call_progress progress_callback current_page total_pages n :
  network_only (call_progress progress_callback current_page total_pages n).
Proof.
  intros w s h. unfold call_progress.
  destruct progress_callback; simpl; by repeat constructor.
Qed.

Lemma network_only_bind {A B} (m : M A) (k : A -> M B) :
  network_only m -> (forall a, network_only (k a)) -> network_only (bind m k).
Proof.
  intros Hm Hk w s h. rewrite bind_eq.
  specialize (Hm w s h). destruct (m w s h) as [[a|] s1 e1]; simpl in *; [|done].
  apply Forall_app. split; [done|]. apply Hk.
Qed.

Lemma network_only_try_except {A} (m handler : M A) :
  network_only m -> network_only handler -> network_only (try_except m handler).
Proof.
  intros Hm Hh w s h. rewrite try_except_eq.
  specialize (Hm w s h). destruct (m w s h) as [[a|] s1 e1]; simpl in *; [done|].
  apply Forall_app. split; [done|]. apply Hh.
Qed.

Lemma network_only_for_each {A B} (l : list A) (body : B -> A -> M B) acc :
  (forall acc x, network_only (body acc x)) -> network_only (for_each l body acc).
Proof.
  intros Hbody. revert acc. induction l as [|x l IH]; intros acc; simpl.
  - apply network_only_ret.
  - apply network_only_bind; [apply Hbody|apply IH].
Qed.

Create HintDb network.

#[local] Hint Resolve network_only_ret network_only_raise network_only_self
  network_only_set_self network_only_session_get network_only_call_progress : network.

(** The proof that a piece of code is made of such steps follows its text. *)
Ltac network_step :=
  match goal with
  | |- network_only (bind _ _) => apply network_only_bind
  | |- network_only (try_except _ _) => apply network_only_try_except
  | |- network_only (for_each _ _ _) => apply network_only_for_each
  | |- forall _, _ => intro
  | |- network_only (match ?x with _ => _ end) => destruct x
  | |- network_only _ => solve [auto with network]
  end.

Ltac network := repeat network_step.

Lemma network_only_set_results rs : network_only (ApiCrawler.set_results rs).
Proof. unfold ApiCrawler.set_results. network. Qed.

Lemma network_only_set_sigungu_codes d : network_only (ApiCrawler.set_sigungu_codes d).
Proof. unfold ApiCrawler.set_sigungu_codes. network. Qed.

Lemma network_only_set_dong_codes d : network_only (ApiCrawler.set_dong_codes d).
Proof. unfold ApiCrawler.set_dong_codes. network. Qed.

#[local] Hint Resolve network_only_set_results network_only_set_sigungu_codes
  network_only_set_dong_codes : network.

Lemma network_only_read_combo response store :
  (forall d, network_only (store d)) ->
  network_only (ApiCrawler.read_combo response store).
Proof.
  intros Hstore. unfold ApiCrawler.read_combo, ApiCrawler.decode_names. network.
Qed.

Lemma network_only_get_sigungu_list sido :
  network_only (ApiCrawler.get_sigungu_list sido).
Proof.
  unfold ApiCrawler.get_sigungu_list. network.
  apply network_only_read_combo. auto with network.
Qed.

Lemma network_only_get_dong_list sido sigungu :
  network_only (ApiCrawler.get_dong_list sido sigungu).
Proof.
  unfold ApiCrawler.get_dong_list. network.
  apply network_only_read_combo. auto with network.
Qed.

Lemma network_only_get_total_pages sido_code sigungu_code dong_code :
  network_only (ApiCrawler.get_total_pages sido_code sigungu_code dong_code).
Proof. unfold ApiCrawler.get_total_pages. network. Qed.

#[local] Hint Resolve network_only_get_sigungu_list network_only_get_dong_list
  network_only_get_total_pages : network.

Lemma network_only_scrape_rows sido_code sigungu_code dong_code re soup results :
  network_only (ApiCrawler.scrape_rows sido_code sigungu_code dong_code re soup results).
Proof.
  unfold ApiCrawler.scrape_rows, ApiCrawler.scrape_row, ApiCrawler.row_detail,
    ApiCrawler.name_and_mem_no.
  network.
Qed.

#[local] Hint Resolve network_only_scrape_rows : network.

Lemma network_only_scrape_page sido_code sigungu_code dong_code progress_callback
    response current_page total_pages results :
  network_only (ApiCrawler.scrape_page sido_code sigungu_code dong_code
                  progress_callback response current_page total_pages results).
Proof.
  unfold ApiCrawler.scrape_page, ApiCrawler.read_page, ApiCrawler.fetch_page.
  network.
Qed.

#[local] Hint Resolve network_only_scrape_page : network.

Lemma network_only_scrape_pages n sido_code sigungu_code dong_code progress_callback
    response : forall current_page total_pages results,
  network_only (ApiCrawler.scrape_pages n sido_code sigungu_code dong_code
                  progress_callback response current_page total_pages results).
Proof.
  induction n as [|n IH]; intros current_page total_pages results; simpl.
  - apply network_only_ret.
  - apply network_only_bind; [apply network_only_scrape_page|].
    intros [[total_pages' results']|]; [apply IH|apply network_only_ret].
Qed.

#[local] Hint Resolve network_only_scrape_pages : network.

Lemma network_only_scraper sido_code sigungu_code dong_code progress_callback :
  network_only (ApiCrawler._scrape_office_data_from_html sido_code sigungu_code
                  dong_code progress_callback).
Proof.
  unfold ApiCrawler._scrape_office_data_from_html, ApiCrawler.scrape_body. network.
Qed.

Lemma network_only_update_detail result :
  network_only (ApiCrawler.update_detail result).
Proof. unfold ApiCrawler.update_detail. network. Qed.

#[local] Hint Resolve network_only_scraper network_only_update_detail : network.

Lemma network_only_search sido sigungu dong progress_callback :
  network_only (ApiCrawler.search_real_estate_offices sido sigungu dong
                  progress_callback).
Proof.
  unfold ApiCrawler.search_real_estate_offices, ApiCrawler.search_with_codes,
    ApiCrawler.resolve_sigungu, ApiCrawler.resolve_dong.
  network.
Qed.

Lemma written_app evs evs' : written (evs ++ evs') = written evs ++ written evs'.
Proof. unfold written. apply omap_app. Qed.

Lemma written_network evs : Forall (fun e => is_net e = true) evs -> written evs = [].
Proof.
  induction 1 as [|e l He _ IH]; [done|].
  destruct e; try done; apply IH.
Qed.

(** ** The exporter: what it returns and what it leaves behind *)

Lemma lower_app a b : Text.lower (a +:+ b) = Text.lower a +:+ Text.lower b.
Proof. induction a as [|c a IH]; [done|]. simpl. by rewrite IH. Qed.

Lemma endswith_app a b p :
  Text.endswith b p = true -> Text.endswith (a +:+ b) p = true.
Proof.
  intros Hb. induction a as [|c a IH]; [done|].
  simpl. rewrite IH. apply orb_true_r.
Qed.

Lemma path_join_endswith save_dir filename p :
  Text.endswith (Text.lower filename) p = true ->
  Text.endswith (Text.lower (DataExporter.path_join save_dir filename)) p = true.
Proof.
  intros Hf. unfold DataExporter.path_join.
  destruct (Text.startswith filename "/"); [done|].
  destruct (_ || _); rewrite ?lower_app; repeat apply endswith_app; done.
Qed.

(** [if not filename.lower().endswith('.csv'): filename += '.csv'] *)
Lemma csv_suffix filename :
  Text.endswith
    (Text.lower (if negb (Text.endswith (Text.lower filename) ".csv")
                 then filename +:+ ".csv" else filename)) ".csv" = true.
Proof.
  destruct (Text.endswith (Text.lower filename) ".csv") eqn:E; [done|].
  cbn [negb]. rewrite lower_app. by apply endswith_app.
Qed.

Lemma clean_data_not_empty data :
  data <> [] -> DataExporter.empty (DataExporter.clean_data data) = false.
Proof.
  intros Hdata. unfold DataExporter.empty.
  rewrite clean_data_columns, clean_data_rows by done.
  destruct data as [|r0 data]; [done|]. reflexivity.
Qed.

(** The files of an export: none, or one, with the eight columns as its
    header and the records, without the repeated ones, as its lines. *)
Lemma export_to_csv_files default_directory data filename directory w s h :
  let r := DataExporter.export_to_csv default_directory data filename directory w s h in
  written (emitted r) = [] \/
  exists f,
    written (emitted r) = [f] /\
    header f = DataExporter.export_columns /\
    lines f = map exported (first_seen [] data).
Proof.
  intros r.
  destruct (export_to_csv_written default_directory data filename directory w s h)
    as [Hnil|(f & Hw & Hh & Hl)]; [by left|].
  destruct data as [|r0 data]; [by left|].
  right. exists f. split; [done|]. split.
  - by rewrite Hh, clean_data_columns.
  - rewrite Hl, clean_data_rows, List.map_map.
    apply List.map_ext. intros x. apply map_default_Some.
Qed.

(** [export_to_csv] never raises and does not touch the crawler.  Without
    data it returns [None] before anything is created.  When it returns a
    path, the path ends with ".csv" whatever the case of its letters, the
    directory was created first and the file, with the eight columns as its
    header, written next under that path. *)
Theorem export_to_csv_outcome default_directory data filename directory w s h :
  let r := DataExporter.export_to_csv default_directory data filename directory w s h in
  let save_dir := default default_directory (nonempty directory) in
  self_after r = s /\
  (exists v, value r = Ok v) /\
  (data = [] -> value r = Ok None /\ emitted r = []) /\
  (forall p, value r = Ok (Some p) ->
     Text.endswith (Text.lower p) ".csv" = true /\
     data <> [] /\
     exists f,
       emitted r = [Makedirs save_dir; ToCsv f] /\
       file_path f = p /\
       header f = DataExporter.export_columns).
Proof.
  intros r save_dir. unfold r.
  destruct data as [|r0 data].
  { split; [reflexivity|]. split; [by eexists|]. split; [done|]. intros p [=]. }
  unfold DataExporter.export_to_csv.
  rewrite (clean_data_not_empty (r0 :: data)) by done.
  fold save_dir.
  pose proof (clean_data_columns (r0 :: data) ltac:(done)) as Hcols.
  set (df := DataExporter.clean_data (r0 :: data)) in *.
  unfold try_except, bind, DataExporter.os_makedirs, DataExporter.df_to_csv,
    DataExporter.now_strftime, ret.
  destruct (makedirs w h save_dir); cbn [value self_after emitted];
    [|split; [done|]; split; [by eexists|]; split; [done|]; intros p [=]].
  destruct (nonempty filename) as [fn|];
    [|match goal with
      | |- context [?a +:+ strftime w ?h' +:+ ?b] =>
          generalize (a +:+ strftime w h' +:+ b); intros fn
      end];
    cbn [value self_after emitted];
    destruct (to_csv w _ _); cbn [value self_after emitted app];
    (split; [done|]); (split; [by eexists|]); (split; [done|]); intros p Hp;
    try discriminate; injection Hp as <-;
    (split; [apply path_join_endswith, csv_suffix|]); (split; [done|]);
    eexists; (split; [reflexivity|]); by split.
Qed.

(** ** The search of the region module *)

Lemma search_true_results sido sigungu dong progress_callback w s h :
  let c := ApiCrawler.search_real_estate_offices sido sigungu dong progress_callback
             w s h in
  value c = Ok true -> results (self_after c) <> [].
Proof.
  intros c Htrue.
  destruct (search_true_run sido sigungu dong progress_callback w s h Htrue)
    as (pre & sc & sg & dc & s1 & n & scraped & updated & upd_evs
        & _ & _ & _ & Hne & Hs & _).
  fold c in Hs. by rewrite Hs.
Qed.

Lemma export_to_csv_self default_directory data filename directory w s h :
  let r := DataExporter.export_to_csv default_directory data filename directory w s h in
  self_after r = s /\ exists v, value r = Ok v.
Proof.
  intros r. unfold r, DataExporter.export_to_csv.
  unfold try_except, bind, DataExporter.os_makedirs, DataExporter.df_to_csv,
    DataExporter.now_strftime, ret.
  destruct (DataExporter.empty _); [eauto|].
  destruct (makedirs w h _); cbn [value self_after emitted]; [|eauto].
  destruct (nonempty filename) as [fn|]; cbn [value self_after emitted];
    destruct (to_csv w _ _); cbn [value self_after emitted]; eauto.
Qed.

Lemma save_results_run default_directory output_file (found : list OfficeData) w s h :
  match nonempty output_file, found with
  | Some f, _ :: _ =>
      let* _ := DataExporter.export_to_csv default_directory found (Some f) None in
      ret tt
  | _, _ => ret tt
  end w s h =
  match nonempty output_file, found with
  | Some f, _ :: _ =>
      MkRun (Ok tt) s
        (emitted (DataExporter.export_to_csv default_directory found (Some f) None w s h))
  | _, _ => MkRun (Ok tt) s []
  end.
Proof.
  destruct (nonempty output_file) as [f|], found as [|r0 rs]; try reflexivity.
  rewrite bind_eq.
  destruct (export_to_csv_self default_directory (r0 :: rs) (Some f) None w s h)
    as (Hs & v & Hv).
  destruct (DataExporter.export_to_csv _ _ _ _ _ _ _) as [xv xs xe].
  cbn [value self_after emitted] in *. subst xv xs.
  cbn [value self_after emitted ret]. by rewrite app_nil_r.
Qed.

Lemma region_search_run default_directory sido sigungu dong output_file
    progress_callback w s h :
  ApiRegionSearch.search default_directory sido sigungu dong output_file
    progress_callback w s h =
  match ApiCrawler.search_real_estate_offices sido sigungu dong progress_callback
          w s h with
  | MkRun (Ok true) s1 e1 =>
      match nonempty output_file, results s1 with
      | Some f, _ :: _ =>
          MkRun (Ok (results s1)) s1
            (e1 ++ emitted (DataExporter.export_to_csv default_directory (results s1)
                              (Some f) None w s1 (h ++ e1)))
      | _, _ => MkRun (Ok (results s1)) s1 e1
      end
  | MkRun _ s1 e1 => MkRun (Ok []) s1 e1
  end.
Proof.
  unfold ApiRegionSearch.search. rewrite try_except_eq, bind_eq.
  destruct (ApiCrawler.search_real_estate_offices _ _ _ _ _ _ _) as [[[|]|] s1 e1];
    cbn [negb]; cbv beta iota.
  - rewrite bind_eq.
    change (ApiCrawler.get_results w s1 (h ++ e1)) with (MkRun (Ok (results s1)) s1 []).
    cbv beta iota. rewrite bind_eq, save_results_run, !app_nil_r.
    destruct (nonempty output_file) as [f|], (results s1) as [|r0 rs];
      cbv beta iota zeta; cbn [value self_after emitted ret]; by rewrite ?app_nil_r.
  - cbv zeta. cbn [value self_after emitted ret]. by rewrite app_nil_r.
  - cbv zeta. cbn [value self_after emitted ret]. by rewrite app_nil_r.
Qed.

Lemma search_false_results sido sigungu dong progress_callback w s h :
  let c := ApiCrawler.search_real_estate_offices sido sigungu dong progress_callback
             w s h in
  value c = Ok false ->
  results (self_after c) = results s \/ results (self_after c) = [].
Proof.
  intros c Hfalse.
  destruct (search_run sido sigungu dong progress_callback w s h)
    as [(_ & _ & Hr)|(pre & s1 & sc & sg & dc & _ & _ & Hr1 & _ & Hs & Hv)].
  { by left. }
  fold c in Hs, Hv.
  destruct (search_with_codes_run sc sg dc progress_callback w s1 (h ++ pre))
    as (n & _ & Hcase). cbv zeta in Hcase.
  destruct (callback_ok _ _ _ _ _).
  - destruct Hcase as (scraped & updated & upd_evs & _ & Hv2 & Hs2 & _).
    rewrite Hv2 in Hv. rewrite Hs2 in Hs. rewrite Hfalse in Hv.
    right. rewrite Hs. simpl. destruct updated; [done|discriminate].
  - rewrite Hcase in Hs. simpl in Hs. left. by rewrite Hs.
Qed.

(** C10 (as amended): [search_real_estate_offices] never raises and
    returns [True] only with a non-empty [self.results]; on a crawler
    whose [self.results] was empty, as it is after construction, it
    returns [True] exactly when [self.results] is not empty afterwards, so
    that a scrape that ends without an error and without a record returns
    [False], like one that failed.  [ApiRegionSearch.search] then returns
    the empty list, does nothing more than the crawler did, and writes no
    file; when the crawler returns [True] it returns [self.results]. *)
Theorem empty_scrape_reported_as_failure default_directory sido sigungu dong
    output_file progress_callback w s h :
  let c := ApiCrawler.search_real_estate_offices sido sigungu dong progress_callback
             w s h in
  let r := ApiRegionSearch.search default_directory sido sigungu dong output_file
             progress_callback w s h in
  exists b,
    value c = Ok b /\
    (b = true -> results (self_after c) <> []) /\
    (results s = [] -> (b = true <-> results (self_after c) <> [])) /\
    (b = false ->
     value r = Ok [] /\ emitted r = emitted c /\ written (emitted r) = []) /\
    (b = true -> value r = Ok (results (self_after c))).
Proof.
  intros c r.
  pose proof (search_never_raises sido sigungu dong progress_callback w s h) as [b Hb].
  pose proof (network_only_search sido sigungu dong progress_callback w s h) as Hnet.
  pose proof (search_true_results sido sigungu dong progress_callback w s h) as Htrue.
  pose proof (search_false_results sido sigungu dong progress_callback w s h) as Hfalse.
  fold c in Hb, Hnet, Htrue, Hfalse. cbv zeta in Htrue, Hfalse.
  apply written_network in Hnet.
  exists b. split; [done|]. split; [intros ->; by apply Htrue|]. split.
  { intros Hs. split; [intros ->; by apply Htrue|].
    intros Hne. destruct b; [done|].
    destruct (Hfalse Hb) as [Hr|Hr]; congruence. }
  unfold r. rewrite region_search_run. fold c.
  destruct c as [v s1 e1]. cbn [value self_after emitted] in *. subst v.
  split; intros ->.
  - cbn [value emitted]. by rewrite Hnet.
  - specialize (Htrue eq_refl).
    destruct (results s1) as [|r0 rs]; [done|].
    by destruct (nonempty output_file).
Qed.

(** C10, the claim as stated fails: a search for a province that is not in
    the table, on a crawler that holds the record of an earlier search,
    returns [False] with a list of records that is not empty. *)
Lemma failed_search_keeps_results :
  let s := with_results ApiCrawler.init [Sample.kim] in
  let c := ApiCrawler.search_real_estate_offices "Atlantis" None None None
             Sample.linked s [] in
  value c = Ok false /\ results (self_after c) = [Sample.kim] /\
  results (self_after c) <> [].
Proof. repeat split. discriminate. Qed.

(** ** The caches of the region module *)

Lemma get_sigungu_list_value sido w s h :
  exists names, value (ApiCrawler.get_sigungu_list sido w s h) = Ok names.
Proof.
  rewrite get_sigungu_list_run.
  destruct (dict_get ApiCrawler.sido_mapping sido) as [[|c]|]; [by eexists| |by eexists].
  cbv zeta. destruct (get w h _) as [response|]; [|by eexists].
  destruct (combo_names response) as [[[decoded codes]|]|]; by eexists.
Qed.

Lemma get_dong_list_value sido sigungu w s h :
  exists names, value (ApiCrawler.get_dong_list sido sigungu w s h) = Ok names.
Proof.
  rewrite get_dong_list_run.
  destruct (dict_get ApiCrawler.sido_mapping sido) as [[|c]|]; [by eexists| |by eexists].
  destruct (sigungu_codes s) as [table|]; [|by eexists].
  destruct (dict_get table sigungu) as [sigungu_code|]; [|by eexists].
  destruct (truthy sigungu_code); [|by eexists].
  cbv zeta. destruct (get w h _) as [response|]; [|by eexists].
  destruct (combo_names response) as [[[decoded codes]|]|]; by eexists.
Qed.

(** [get_sigungu_list] never raises, and what it returns for a province it
    returns again at every later call, without a request: also the empty
    list of a lookup that failed.  The entries of the other provinces are
    left as they are. *)
Theorem region_sigungu_list_cached cache sido w s h :
  let r := ApiRegionSearch.get_sigungu_list cache sido w s h in
  exists l cache1,
    value r = Ok (l, cache1) /\
    (forall w' s' h',
       ApiRegionSearch.get_sigungu_list cache1 sido w' s' h'
       = MkRun (Ok (l, cache1)) s' []) /\
    (forall l0, dict_get cache sido = Some l0 -> r = MkRun (Ok (l0, cache)) s []) /\
    (forall k, k <> sido -> dict_get cache1 k = dict_get cache k).
Proof.
  intros r. unfold r, ApiRegionSearch.get_sigungu_list.
  destruct (dict_get cache sido) as [l0|] eqn:Hget.
  - exists l0, cache. split; [done|]. split; [|split; [|done]].
    + intros w' s' h'. by rewrite Hget.
    + by intros l1 [= <-].
  - rewrite bind_eq.
    pose proof (get_sigungu_list_value sido w s h) as (names & Hv).
    destruct (ApiCrawler.get_sigungu_list sido w s h) as [v s1 e1].
    cbn [value] in Hv. subst v. cbn [value self_after emitted ret].
    exists names, (dict_set cache sido names). split; [done|]. split; [|split; [done|]].
    + intros w' s' h'. rewrite dict_get_set. by rewrite bool_decide_eq_true_2.
    + intros k Hk. rewrite dict_get_set. by rewrite bool_decide_eq_false_2.
Qed.

(** [get_dong_list] never raises, and what it returns for a province and a
    district it returns again, without a request, at every later call whose
    key [f"{sido}_{sigungu}"] is the same: for the same two names, and for
    two other names that give the same text. *)
Theorem region_dong_list_cached cache sido sigungu w s h :
  let r := ApiRegionSearch.get_dong_list cache sido sigungu w s h in
  exists l cache1,
    value r = Ok (l, cache1) /\
    forall sido' sigungu' w' s' h',
      sido' +:+ "_" +:+ sigungu' = sido +:+ "_" +:+ sigungu ->
      ApiRegionSearch.get_dong_list cache1 sido' sigungu' w' s' h'
      = MkRun (Ok (l, cache1)) s' [].
Proof.
  intros r. unfold r, ApiRegionSearch.get_dong_list. cbv zeta.
  destruct (dict_get cache (sido +:+ "_" +:+ sigungu)) as [l0|] eqn:Hget.
  - exists l0, cache. split; [done|].
    intros sido' sigungu' w' s' h' ->. by rewrite Hget.
  - rewrite bind_eq.
    pose proof (get_dong_list_value sido sigungu w s h) as (names & Hv).
    destruct (ApiCrawler.get_dong_list sido sigungu w s h) as [v s1 e1].
    cbn [value] in Hv. subst v. cbn [value self_after emitted ret].
    exists names, (dict_set cache (sido +:+ "_" +:+ sigungu) names). split; [done|].
    intros sido' sigungu' w' s' h' ->. rewrite dict_get_set.
    by rewrite bool_decide_eq_true_2.
Qed.

(** Two pairs of names with the same key: the list of the first, here the
    empty list of a lookup that failed, is given for the second. *)
Lemma region_dong_list_cached_witness :
  value (ApiRegionSearch.get_dong_list [] "a_b" "c" Sample.all_404 ApiCrawler.init [])
  = Ok ([], [("a_b_c", [])]) /\
  ApiRegionSearch.get_dong_list [("a_b_c", [])] "a" "b_c" Sample.single ApiCrawler.init []
  = MkRun (Ok ([], [("a_b_c", [])])) ApiCrawler.init [].
Proof.
  destruct (region_dong_list_cached [] "a_b" "c" Sample.all_404 ApiCrawler.init [])
    as (l & cache1 & Hv & Hhit).
  cbv zeta in Hv. split; [reflexivity|].
  assert (Heq : (l, cache1) = ([], [("a_b_c", [])])).
  { apply (f_equal (fun v => match v with Ok p => p | Raise => (l, cache1) end)) in Hv.
    symmetry. exact Hv. }
  injection Heq as -> ->.
  exact (Hhit "a" "b_c" Sample.single ApiCrawler.init [] eq_refl).
Defined.

(** ** A table of districts is never refreshed *)

Lemma resolve_sigungu_with_table sido sigungu sg table w s h :
  sigungu_codes s = Some table ->
  nonempty sigungu = Some sg ->
  ApiCrawler.resolve_sigungu sido sigungu w s h =
  MkRun (Ok match dict_get table sg with
            | Some c => if truthy c then Some (Some c) else None
            | None => None
            end) s [].
Proof.
  intros Htable Hsg. unfold ApiCrawler.resolve_sigungu. rewrite Hsg.
  unfold bind, self, ret. cbn [value self_after emitted]. rewrite Htable.
  cbn [value self_after emitted]. rewrite Htable.
  destruct (dict_get table sg) as [c|]; [|reflexivity].
  by destruct (truthy c).
Qed.

(** Once the crawler has a table of districts, of whatever province, a
    search for a district that the table does not have ends at once:
    [False], no request (the list of the province searched for is not
    asked for), no call of the callback, the crawler as it was. *)
Theorem search_stale_district_table sido sigungu sg dong progress_callback table w s h :
  sigungu_codes s = Some table ->
  nonempty sigungu = Some sg ->
  dict_get table sg = None ->
  ApiCrawler.search_real_estate_offices sido sigungu dong progress_callback w s h
  = MkRun (Ok false) s [].
Proof.
  intros Htable Hsg Hnone. unfold ApiCrawler.search_real_estate_offices.
  rewrite try_except_eq.
  destruct (dict_get ApiCrawler.sido_mapping sido) as [[|c]|]; [done| |done].
  rewrite bind_eq, (resolve_sigungu_with_table sido sigungu sg table w s h Htable Hsg).
  by rewrite Hnone.
Qed.

Lemma search_stale_district_table_witness :
  let s := with_sigungu_codes ApiCrawler.init [("Jongno", Int 11)] in
  ApiCrawler.search_real_estate_offices "부산광역시" (Some "Haeundae") None None
    Sample.single s []
  = MkRun (Ok false) s [].
Proof.
  apply (search_stale_district_table "부산광역시" (Some "Haeundae") "Haeundae" None None
           [("Jongno", Int 11)] Sample.single
           (with_sigungu_codes ApiCrawler.init [("Jongno", Int 11)]) []);
    reflexivity.
Defined.

(** ** Reading the identifier of an office *)

Lemma next_bytes s c s' : Text.next s = Some (c, s') -> s = Text.bytes c +:+ s'.
Proof.
  unfold Text.next, Text.invalid. destruct s as [|a s1]; [done|].
  destruct (Text.byte a <? 128)%N; [by intros [= <- <-]|].
  destruct s1 as [|b [|c3 [|d s4]]]; cbv zeta;
    repeat case_match; intros; simplify_eq; reflexivity.
Qed.

Lemma drop_prefix_Some p s r : Text.drop_prefix p s = Some r -> s = p +:+ r.
Proof.
  revert s. induction p as [|a p IH]; intros [|b s]; simpl; try done.
  - by intros [= <-].
  - by intros [= <-].
  - destruct (bool_decide_reflect (a = b)) as [->|]; [|done].
    intros Hr. by rewrite (IH s Hr).
Qed.

Lemma string_app_assoc (a b c : string) : (a +:+ b) +:+ c = a +:+ (b +:+ c).
Proof. induction a as [|x a IH]; [done|]. exact (f_equal (String x) IH). Qed.

Lemma span_digits_upto_spec n : forall s d r,
  Text.span_digits_upto n s = (d, r) -> s = d +:+ r.
Proof.
  induction n as [|n IH]; intros s d r; simpl.
  - by intros [= <- <-].
  - destruct (Text.next s) as [[c s']|] eqn:Hnext; [|by intros [= <- <-]].
    destruct (Text.is_decimal c); [|by intros [= <- <-]].
    destruct (Text.span_digits_upto n s') as [d' r'] eqn:Hspan.
    intros [= <- <-]. rewrite (next_bytes _ _ _ Hnext), (IH _ _ _ Hspan).
    by rewrite string_app_assoc.
Qed.

Lemma group_at_Some pre suf s d :
  Text.group_at pre suf s = Some d ->
  d <> "" /\ exists b, s = pre +:+ d +:+ suf +:+ b.
Proof.
  unfold Text.group_at, Text.span_digits.
  destruct (Text.drop_prefix pre s) as [r|] eqn:Hpre; [|done].
  apply drop_prefix_Some in Hpre as ->.
  destruct (Text.span_digits_upto _ r) as [d' r'] eqn:Hspan.
  apply span_digits_upto_spec in Hspan as ->.
  destruct d' as [|c d']; [done|].
  unfold Text.startswith.
  destruct (Text.drop_prefix suf r') as [b|] eqn:Hsuf; [|done].
  apply drop_prefix_Some in Hsuf as ->.
  intros [= <-]. split; [done|]. by exists b.
Qed.

Lemma search_group_Some pre suf s d :
  Text.search_group pre suf s = Some d ->
  d <> "" /\ exists a b, s = a +:+ pre +:+ d +:+ suf +:+ b.
Proof.
  induction s as [|c s IH].
  - simpl. destruct (Text.group_at pre suf "") as [d'|] eqn:Hat; [|done].
    intros [= ->]. destruct (group_at_Some _ _ _ _ Hat) as (Hd & b & Hs).
    split; [done|]. by exists "", b.
  - cbn [Text.search_group].
    destruct (Text.group_at pre suf (String c s)) as [d'|] eqn:Hat.
    + intros [= ->]. destruct (group_at_Some _ _ _ _ Hat) as (Hd & b & Hs).
      split; [done|]. by exists "", b.
    + intros Hd. destruct (IH Hd) as (Hne & a & b & ->).
      split; [done|]. by exists (String c a), b.
Qed.

(** The identifier read from the [href] of the name of an office is not
    empty - a record that has one is a record that is looked up - and it
    stands in the [href] between [moveDetail('] and [',]. *)
Theorem moveDetail_identifier href m :
  Text.search_moveDetail href = Some m ->
  nonempty (Some m) = Some m /\
  exists a b, href = a +:+ "moveDetail('" +:+ m +:+ "'," +:+ b.
Proof.
  intros Hm. apply search_group_Some in Hm as (Hne & a & b & ->).
  split; [by destruct m|]. by exists a, b.
Qed.

Lemma moveDetail_identifier_witness :
  exists a b,
    "javascript:moveDetail('12345','x');"
    = a +:+ "moveDetail('" +:+ "12345" +:+ "'," +:+ b.
Proof.
  exact (proj2 (moveDetail_identifier "javascript:moveDetail('12345','x');" "12345"
                  eq_refl)).
Defined.

(** ** The rows of a page *)

(** Reading the rows of a page never raises and leaves the crawler as it
    is.  It adds one record for every row after the first that has at least
    five columns and whose name can be read: with [re] bound, every such
    row, so that the records are the data rows less the rows with fewer
    than five columns; with [re] not bound, only the rows without an
    anchor in column 1.  The records that carry an identifier are those
    whose detail page was asked for, once each, and no other request is
    made. *)
Theorem rows_read sido_code sigungu_code dong_code re doc results w s h :
  let data_rows := tail (select_table_tr doc) in
  let r := ApiCrawler.scrape_rows sido_code sigungu_code dong_code re doc results
             w s h in
  self_after r = s /\
  only_details (emitted r) /\
  exists new,
    value r = Ok (results ++ new) /\
    List.length new = List.length (List.filter (yields re) data_rows) /\
    (re = true ->
     List.length new =
       List.length data_rows -
       List.length (List.filter (fun row => negb (well_formed row)) data_rows)) /\
    (forall m, detail_requests m (emitted r) = records_with m new).
Proof.
  intros data_rows r.
  destruct (scrape_rows_run sido_code sigungu_code dong_code re doc results w s h)
    as (Hs & Ho & new & Hv & Hl & Hd).
  split; [done|]. split; [done|]. exists new. split; [done|]. split; [done|].
  split; [|done]. intros ->. rewrite Hl. fold data_rows.
  assert (Hy : List.filter (yields true) data_rows = List.filter well_formed data_rows).
  { apply List.filter_ext. intros row. unfold yields. by rewrite andb_true_r. }
  rewrite Hy. pose proof (filter_split_length well_formed data_rows). lia.
Qed.
